(** * Resilient multi-provider orchestration core: a shallow embedding

    The development follows the Python sources:
    - [src/services/ai_manager.py]                (module [AIManager]),
    - [src/services/production_search_manager.py] (module [SearchManager]),
    - [src/services/super_orchestrator.py]        (module [Orchestrator]),
    - [src/routes/analysis.py]                    (module [AnalysisRoute]).

    Python dictionaries whose iteration order is observable (the provider
    tables, which are filtered and then sorted with a stable sort) are
    association lists in insertion order; dictionaries that are only looked
    up by key (the search cache, the session store) are finite maps.
    Wall-clock readings ([time.time()]) are integers: a number of seconds
    handed to every operation that reads the clock. *)

From Stdlib Require Import ZArith QArith_base List Bool Lia Ascii.
From Stdlib Require Import Sorting.Sorted Sorting.Permutation.
From stdpp Require Import gmap strings list fin_maps.
Import ListNotations.

Local Open Scope string_scope.
Local Open Scope list_scope.
Local Open Scope Z_scope.

(** ** Association lists standing for insertion-ordered dictionaries *)

Section Assoc.
Context {V : Type}.

(** [d.get(k)] *)
Fixpoint assoc_get (k : string) (d : list (string * V)) : option V :=
  match d with
  | [] => None
  | (k', v) :: d' => if String.eqb k' k then Some v else assoc_get k d'
  end.

(** [if k in d: d[k] = f(d[k])] : the entry stored under [k] is updated in
    place, every other entry and the order of the entries are kept. *)
Fixpoint assoc_update (k : string) (f : V -> V) (d : list (string * V))
  : list (string * V) :=
  match d with
  | [] => []
  | (k', v) :: d' =>
      (k', if String.eqb k' k then f v else v) :: assoc_update k f d'
  end.

(** [for k, v in d.items(): d[k] = f(k, v)] *)
Definition assoc_map (f : string -> V -> V) (d : list (string * V))
  : list (string * V) :=
  List.map (fun kv => (fst kv, f (fst kv) (snd kv))) d.
End Assoc.

(** * The generation-provider registry ([ai_manager.py]) *)

Module AIManager.

(** One entry of [AIManager.providers].  [client] records whether a client
    object has been stored; the model name and the [enabled] key are never
    read by the operations below.  Every entry built by [__init__] has all
    these keys and no operation removes one, so the defaults of
    [provider.get('max_errors', 2)] are never taken. *)
Record Provider := mkProvider {
  client : bool;
  available : bool;
  priority : Z;
  error_count : Z;
  max_errors : Z;
  last_success : option Z;
  consecutive_failures : Z
}.

Definition Providers := list (string * Provider).

Definition set_available (b : bool) (p : Provider) : Provider :=
  mkProvider (client p) b (priority p) (error_count p) (max_errors p)
             (last_success p) (consecutive_failures p).

Definition set_client (b : bool) (p : Provider) : Provider :=
  mkProvider b (available p) (priority p) (error_count p) (max_errors p)
             (last_success p) (consecutive_failures p).

(** [provider['error_count'] = 0; provider['consecutive_failures'] = 0] *)
Definition zero_counters (p : Provider) : Provider :=
  mkProvider (client p) (available p) (priority p) 0 (max_errors p)
             (last_success p) 0.

(** The table built by [__init__], before [initialize_providers]. *)
Definition new_provider (prio maxe : Z) : Provider :=
  mkProvider false false prio 0 maxe None 0.

Definition init_table : Providers :=
  [ ("gemini", new_provider 1 2);
    ("groq", new_provider 2 2);
    ("openai", new_provider 3 2);
    ("huggingface", new_provider 4 3) ].

(** [_record_failure] *)
Definition fail_provider (p : Provider) : Provider :=
  let ec := error_count p + 1 in
  let cf := consecutive_failures p + 1 in
  mkProvider (client p)
             (if max_errors p <=? cf then false else available p)
             (priority p) ec (max_errors p) (last_success p) cf.

Definition _record_failure (provider_name : string) (ps : Providers)
  : Providers :=
  assoc_update provider_name fail_provider ps.

(** [_record_success], called when the clock reads [now]. *)
Definition succeed_provider (now : Z) (p : Provider) : Provider :=
  mkProvider (client p) true (priority p) (error_count p) (max_errors p)
             (Some now) 0.

Definition _record_success (provider_name : string) (now : Z)
  (ps : Providers) : Providers :=
  assoc_update provider_name (succeed_provider now) ps.

(** [reset_provider_errors(provider_name)]; [None] (and the empty string,
    which is falsy too) resets every provider. *)
Definition reset_provider_errors (provider_name : option string)
  (ps : Providers) : Providers :=
  match provider_name with
  | Some (String c s) =>
      assoc_update (String c s)
        (fun p => set_available true (zero_counters p)) ps
  | _ =>
      assoc_map (fun _ p =>
        let p' := zero_counters p in
        if client p' then set_available true p' else p') ps
  end.

(** Truthiness of [provider.get('last_success')]: [None] and [0] are
    falsy. *)
Definition truthy_time (t : option Z) : bool :=
  match t with
  | Some v => negb (v =? 0)
  | None => false
  end.

(** The guard of the re-enabling loop of [get_best_provider]. *)
Definition reprobe_due (current_time : Z) (p : Provider) : bool :=
  negb (available p) && truthy_time (last_success p) &&
  match last_success p with
  | Some t => 300 <? current_time - t
  | None => false
  end.

Section Libraries.
(** The module-level import flags. *)
Variables HAS_GEMINI HAS_GROQ_CLIENT HAS_OPENAI : bool.

(** The [if name == ... and HAS_...] chain that decides whether a
    re-probed provider is switched back on. *)
Definition library_present (name : string) : bool :=
  if String.eqb name "gemini" && HAS_GEMINI then true
  else if String.eqb name "groq" && HAS_GROQ_CLIENT then true
  else if String.eqb name "openai" && HAS_OPENAI then true
  else if String.eqb name "huggingface" then true
  else false.

Definition reprobe (current_time : Z) (name : string) (p : Provider)
  : Provider :=
  if reprobe_due current_time p then
    let p' := zero_counters p in
    if library_present name then set_available true p' else p'
  else p.

(** The filter of the first list comprehension. *)
Definition usable (p : Provider) : bool :=
  available p && (consecutive_failures p <? max_errors p).

(** The sort key [(priority, consecutive_failures)], compared
    lexicographically. *)
Definition key_le (a b : string * Provider) : bool :=
  (priority (snd a) <? priority (snd b)) ||
  ((priority (snd a) =? priority (snd b)) &&
   (consecutive_failures (snd a) <=? consecutive_failures (snd b))).

(** [list.sort] is stable: an element goes before the first element
    whose key is not smaller, and it came before all of them. *)
Fixpoint insert_sorted (x : string * Provider) (l : Providers)
  : Providers :=
  match l with
  | [] => [x]
  | y :: l' => if key_le x y then x :: y :: l' else y :: insert_sorted x l'
  end.

Fixpoint sort_providers (l : Providers) : Providers :=
  match l with
  | [] => []
  | x :: l' => insert_sorted x (sort_providers l')
  end.

(** [get_best_provider]: the new table and the returned name. *)
Definition get_best_provider (current_time : Z) (ps : Providers)
  : Providers * option string :=
  let ps1 := assoc_map (reprobe current_time) ps in
  let available_providers := List.filter (fun e => usable (snd e)) ps1 in
  let '(ps2, available_providers) :=
    match available_providers with
    | [] =>
        let ps2 := assoc_map (fun _ p => zero_counters p) ps1 in
        (ps2, List.filter (fun e => available (snd e)) ps2)
    | _ => (ps1, available_providers)
    end in
  match sort_providers available_providers with
  | e :: _ => (ps2, Some (fst e))
  | [] => (ps2, None)
  end.
End Libraries.

(** [initialize_providers]: which clients could be built (library
    imported, key present, constructor did not raise). *)
Definition initialize_providers (gemini openai groq huggingface : bool)
  (ps : Providers) : Providers :=
  let on (b : bool) (p : Provider) :=
    if b then set_available true (set_client true p) else p in
  assoc_update "huggingface" (on huggingface)
    (assoc_update "groq" (on groq)
      (assoc_update "openai" (on openai)
        (assoc_update "gemini" (on gemini) ps))).

(** A clocked call into the registry. *)
Inductive Call :=
| RecordSuccess (name : string)
| RecordFailure (name : string)
| SelectBest.

Section Traces.
Variables HAS_GEMINI HAS_GROQ_CLIENT HAS_OPENAI : bool.

(** One call made when the clock reads [t]; [_record_failure] does not
    read the clock. *)
Definition step (ps : Providers) (c : Z * Call) : Providers :=
  match snd c with
  | RecordSuccess name => _record_success name (fst c) ps
  | RecordFailure name => _record_failure name ps
  | SelectBest =>
      fst (get_best_provider HAS_GEMINI HAS_GROQ_CLIENT HAS_OPENAI
                             (fst c) ps)
  end.

Definition run (ps : Providers) (cs : list (Z * Call)) : Providers :=
  fold_left step cs ps.
End Traces.

End AIManager.


(** * The search-provider group and its result cache
      ([production_search_manager.py]) *)

Module SearchManager.

(** A search hit as the [_search_*] methods build it.  Its texts are
    [string]s, sequences of [ascii] characters: lengths and slices count
    these, as Python counts the characters of an ASCII text. *)
Record SearchResult := mkResult {
  title : string;
  url : string;
  snippet : string;
  source : string
}.

(** One entry of [ProductionSearchManager.providers]; the credentials and
    URLs are only read by the network calls. *)
Record Provider := mkProvider {
  enabled : bool;
  priority : Z;
  error_count : Z;
  max_errors : Z
}.

Record CacheEntry := mkEntry {
  results : list SearchResult;
  timestamp : Z;
  provider : string
}.

Record State := mkState {
  providers : list (string * Provider);
  cache : gmap string CacheEntry
}.

(** [self.cache_ttl = 3600  # 1 hora] *)
Definition cache_ttl : Z := 3600.

(** The table built by [__init__] from the environment. *)
Definition init_providers (exa google serper : bool)
  : list (string * Provider) :=
  [ ("exa", mkProvider exa 1 0 3);
    ("google", mkProvider google 2 0 3);
    ("serper", mkProvider serper 3 0 3);
    ("bing", mkProvider true 4 0 5) ].

Definition init_state (exa google serper : bool) : State :=
  mkState (init_providers exa google serper) ∅.

(** [_get_from_cache], called when the clock reads [now]: the cache after
    the call and the returned value. *)
Definition _get_from_cache (cache_key : string) (now : Z)
  (c : gmap string CacheEntry)
  : gmap string CacheEntry * option (list SearchResult) :=
  match c !! cache_key with
  | Some cache_data =>
      if now - timestamp cache_data <? cache_ttl
      then (c, Some (results cache_data))
      else (delete cache_key c, None)
  | None => (c, None)
  end.

(** [_save_to_cache] *)
Definition _save_to_cache (cache_key : string) (res : list SearchResult)
  (prov : string) (now : Z) (c : gmap string CacheEntry)
  : gmap string CacheEntry :=
  <[cache_key := mkEntry res now prov]> c.

(** [clear_cache] *)
Definition clear_cache (st : State) : State := mkState (providers st) ∅.

(** [_is_provider_available]; an unknown name reads the empty dictionary
    and is not enabled. *)
Definition _is_provider_available (provider_name : string)
  (ps : list (string * Provider)) : bool :=
  match assoc_get provider_name ps with
  | Some p => enabled p && (error_count p <? max_errors p)
  | None => false
  end.

(** [_record_provider_error] *)
Definition add_error (p : Provider) : Provider :=
  mkProvider (enabled p) (priority p) (error_count p + 1) (max_errors p).

Definition _record_provider_error (provider_name : string)
  (ps : list (string * Provider)) : list (string * Provider) :=
  assoc_update provider_name add_error ps.

(** [reset_provider_errors]: a falsy name ([None] or the empty string)
    resets every provider. *)
Definition clear_errors (p : Provider) : Provider :=
  mkProvider (enabled p) (priority p) 0 (max_errors p).

Definition reset_provider_errors (provider_name : option string)
  (ps : list (string * Provider)) : list (string * Provider) :=
  match provider_name with
  | Some (String c s) => assoc_update (String c s) clear_errors ps
  | _ => assoc_map (fun _ p => clear_errors p) ps
  end.

(** The sort key [(priority, error_count)] of [_get_provider_order]. *)
Definition key_le (a b : string * Provider) : bool :=
  (priority (snd a) <? priority (snd b)) ||
  ((priority (snd a) =? priority (snd b)) &&
   (error_count (snd a) <=? error_count (snd b))).

Fixpoint insert_sorted (x : string * Provider) (l : list (string * Provider))
  : list (string * Provider) :=
  match l with
  | [] => [x]
  | y :: l' => if key_le x y then x :: y :: l' else y :: insert_sorted x l'
  end.

Fixpoint sort_providers (l : list (string * Provider))
  : list (string * Provider) :=
  match l with
  | [] => []
  | x :: l' => insert_sorted x (sort_providers l')
  end.

(** [_get_provider_order] *)
Definition _get_provider_order (ps : list (string * Provider))
  : list string :=
  List.map fst
    (sort_providers
       (List.filter (fun e => _is_provider_available (fst e) ps) ps)).

(** What one network call of a [_search_*] method does. *)
Inductive Outcome :=
| Raises (message : string)
| Returns (hits : list SearchResult).

(** The outside world during one search: provider name, query and result
    count to the outcome of the call. *)
Definition Backend := string -> string -> Z -> Outcome.

(** The names dispatched by the [if provider_name == ...] chains. *)
Definition known_provider (name : string) : bool :=
  String.eqb name "exa" || String.eqb name "google" ||
  String.eqb name "serper" || String.eqb name "bing".

Definition nonempty {A} (l : list A) : bool :=
  match l with [] => false | _ => true end.

(** The slice [l[:n]]; a negative [n] counts from the end. *)
Definition py_prefix {A} (n : Z) (l : list A) : list A :=
  if 0 <=? n then firstn (Z.to_nat n) l
  else firstn (List.length l - Z.to_nat (- n)) l.

Section Search.
(** Library functions left abstract: [str.strip], the MD5 digest of
    [f"{query}_{max_results}"], the [urlparse] test of
    [_validate_results], and the ranking pipeline of
    [comprehensive_search] (duplicate removal, scoring, sorting). *)
Variable strip : string -> string.
Variable _generate_cache_key : string -> Z -> string.
Variable url_ok : string -> bool.
Variable rank : string -> list SearchResult -> list SearchResult.

(** [_validate_results] *)
Definition clean (r : SearchResult) : SearchResult :=
  mkResult (String.substring 0 500 (strip (title r)))
           (strip (url r))
           (String.substring 0 1000 (strip (snippet r)))
           (source r).

Definition _validate_results (rs : list SearchResult) : list SearchResult :=
  List.map clean
    (List.filter
       (fun r => negb (String.eqb (title r) "") &&
                 negb (String.eqb (url r) "") && url_ok (url r)) rs).

(** The body of the fallback loop of [search_with_fallback]: the state, the
    returned hits and the providers whose search method was called, in call
    order. *)
Fixpoint try_providers (backend : Backend) (query : string) (max_results : Z)
  (cache_key : string) (now : Z) (order : list string) (st : State)
  : State * list SearchResult * list string :=
  match order with
  | [] => (st, [], [])
  | provider_name :: rest =>
      let continue_with st' called :=
        let '(st'', hits, calls) :=
          try_providers backend query max_results cache_key now rest st' in
        (st'', hits, called ++ calls) in
      if negb (_is_provider_available provider_name (providers st)) then
        continue_with st []
      else if negb (known_provider provider_name) then
        continue_with st []
      else
        match backend provider_name query max_results with
        | Raises _ =>
            continue_with
              (mkState (_record_provider_error provider_name (providers st))
                       (cache st))
              [provider_name]
        | Returns hits =>
            let validated := _validate_results hits in
            if nonempty hits && nonempty validated then
              (mkState (providers st)
                       (_save_to_cache cache_key validated provider_name now
                                       (cache st)),
               validated, [provider_name])
            else continue_with st [provider_name]
        end
  end.

(** [search_with_fallback] *)
Definition search_with_fallback (backend : Backend) (query : string)
  (max_results : Z) (now : Z) (st : State)
  : State * list SearchResult * list string :=
  if String.eqb query "" || String.eqb (strip query) "" then (st, [], [])
  else
    let query := strip query in
    let cache_key := _generate_cache_key query max_results in
    let '(c, cached_result) := _get_from_cache cache_key now (cache st) in
    let st := mkState (providers st) c in
    match cached_result with
    | Some (r :: rs) => (st, r :: rs, [])
    | _ =>
        try_providers backend query max_results cache_key now
                      (_get_provider_order (providers st)) st
    end.

(** The dictionary returned by [comprehensive_search]. *)
Record Report := mkReport {
  success : bool;
  total_results : Z;
  final_results : list SearchResult;
  sources_used : list string;
  errors : list string
}.

(** One of the four numbered blocks of [comprehensive_search]: the hits
    kept, the method called, the entry added to [search_sources] and the
    entry added to [errors] (entries are the provider names; the Bing block
    has no [else] branch and reports no error for an empty answer). *)
Definition consult (backend : Backend) (name : string) (query : string)
  (n : Z) (keep : SearchResult -> bool) (report_empty wanted : bool)
  (ps : list (string * Provider))
  : list SearchResult * list string * list string * list string :=
  if wanted && _is_provider_available name ps then
    match backend name query n with
    | Returns (h :: hs) => (List.filter keep (h :: hs), [name], [name], [])
    | Returns [] => ([], [name], [], if report_empty then [name] else [])
    | Raises _ => ([], [name], [], [name])
    end
  else ([], [], [], []).

(** [comprehensive_search]: it reads the provider table and changes
    nothing; the second component lists the providers whose search method
    was called. *)
Definition comprehensive_search (backend : Backend) (query : string)
  (num_results : Z) (st : State) : Report * list string :=
  let ps := providers st in
  let len (l : list SearchResult) := Z.of_nat (List.length l) in
  let '(r1, c1, s1, e1) :=
    consult backend "exa" query (Z.min 8 num_results)
            (fun r => 50 <? Z.of_nat (String.length (snippet r)))
            true true ps in
  let '(r2, c2, s2, e2) :=
    consult backend "google" query (Z.min 7 num_results)
            (fun r => negb (String.eqb (url r) ""))
            true (len r1 <? num_results / 2) ps in
  let all2 := r1 ++ r2 in
  let '(r3, c3, s3, e3) :=
    consult backend "serper" query (Z.min 5 num_results)
            (fun r => negb (String.eqb (url r) ""))
            true (len all2 <? num_results / 3) ps in
  let all3 := all2 ++ r3 in
  let '(r4, c4, s4, e4) :=
    consult backend "bing" query (Z.min 5 num_results)
            (fun _ => true) false (len all3 =? 0) ps in
  let all_results := all3 ++ r4 in
  let calls := c1 ++ c2 ++ c3 ++ c4 in
  let final := py_prefix num_results (rank query all_results) in
  if nonempty all_results then
    (mkReport true (len final) final (s1 ++ s2 ++ s3 ++ s4)
              (e1 ++ e2 ++ e3 ++ e4), calls)
  else
    (mkReport false 0 [] (s1 ++ s2 ++ s3 ++ s4) (e1 ++ e2 ++ e3 ++ e4),
     calls).

(** A call into the manager. *)
Inductive Op :=
| Search (backend : Backend) (query : string) (max_results now : Z)
| Comprehensive (backend : Backend) (query : string) (num_results : Z)
| ResetErrors (provider_name : option string)
| ClearCache.

(** The state after a call and the providers it invoked. *)
Definition exec (st : State) (op : Op) : State * list string :=
  match op with
  | Search backend query max_results now =>
      let '(st', _, calls) :=
        search_with_fallback backend query max_results now st in
      (st', calls)
  | Comprehensive backend query num_results =>
      (st, snd (comprehensive_search backend query num_results st))
  | ResetErrors name =>
      (mkState (reset_provider_errors name (providers st)) (cache st), [])
  | ClearCache => (clear_cache st, [])
  end.

Fixpoint exec_all (st : State) (ops : list Op) : State * list string :=
  match ops with
  | [] => (st, [])
  | op :: ops' =>
      let '(st1, calls1) := exec st op in
      let '(st2, calls2) := exec_all st1 ops' in
      (st2, calls1 ++ calls2)
  end.

(** A call that can zero the error counter of [name]. *)
Definition resets (name : string) (op : Op) : bool :=
  match op with
  | ResetErrors (Some (String c s)) => String.eqb (String c s) name
  | ResetErrors _ => true
  | _ => false
  end.
End Search.

(** The error counter of [name] has reached its limit. *)
Definition exhausted (name : string) (ps : list (string * Provider)) : Prop :=
  exists p, assoc_get name ps = Some p /\ max_errors p <= error_count p.

End SearchManager.


(** * Dynamically typed values

    The orchestrator passes JSON-like dictionaries between its stages and
    reads them with [.get], [len], comparisons and truth tests, any of
    which raises on a value of the wrong type.  A [float] is carried as
    the rational it denotes.  A text is a [string], a sequence of [ascii]
    characters: lengths, slices and iteration count these, as Python
    counts the characters of an ASCII text. *)

#[local] Set Warnings "-register-all".

Inductive PyVal :=
| VNone
| VBool (b : bool)
| VInt (n : Z)
| VFloat (q : Q)
| VStr (s : string)
| VList (l : list PyVal)
| VDict (d : list (string * PyVal)).

(** A computation that returns or raises an [Exception] carrying the text
    [str(e)]. *)
Inductive Exc (A : Type) :=
| Ok (a : A)
| Raise (message : string).
Arguments Ok {A} a.
Arguments Raise {A} message.

Module Py.

Definition type_name (v : PyVal) : string :=
  match v with
  | VNone => "NoneType"
  | VBool _ => "bool"
  | VInt _ => "int"
  | VFloat _ => "float"
  | VStr _ => "str"
  | VList _ => "list"
  | VDict _ => "dict"
  end.

(** [bool(v)] *)
Definition truthy (v : PyVal) : bool :=
  match v with
  | VNone => false
  | VBool b => b
  | VInt n => negb (n =? 0)
  | VFloat q => negb (Qnum q =? 0)
  | VStr s => negb (String.eqb s "")
  | VList l => match l with [] => false | _ => true end
  | VDict d => match d with [] => false | _ => true end
  end.

(** [isinstance(v, dict)] *)
Definition is_dict (v : PyVal) : bool :=
  match v with VDict _ => true | _ => false end.

(** [v == 'text'] for a string literal. *)
Definition eq_str (v : PyVal) (text : string) : bool :=
  match v with VStr s => String.eqb s text | _ => false end.

Definition no_attribute (v : PyVal) (attr : string) : string :=
  "'" +:+ type_name v +:+ "' object has no attribute '" +:+ attr +:+ "'".

(** [v.get(key, default)] *)
Definition get (v : PyVal) (key : string) (default : PyVal) : Exc PyVal :=
  match v with
  | VDict d =>
      Ok (match assoc_get key d with Some x => x | None => default end)
  | _ => Raise (no_attribute v "get")
  end.

(** [len(v)] *)
Definition len (v : PyVal) : Exc Z :=
  match v with
  | VStr s => Ok (Z.of_nat (String.length s))
  | VList l => Ok (Z.of_nat (List.length l))
  | VDict d => Ok (Z.of_nat (List.length d))
  | _ => Raise ("object of type '" +:+ type_name v +:+ "' has no len()")
  end.

(** [v > 0] *)
Definition gt0 (v : PyVal) : Exc bool :=
  match v with
  | VInt n => Ok (0 <? n)
  | VFloat q => Ok (0 <? Qnum q)
  | VBool b => Ok b
  | _ => Raise ("'>' not supported between instances of '" +:+ type_name v
                +:+ "' and 'int'")
  end.

(** [list(v)], the items a [for] loop or a comprehension visits. *)
Definition items (v : PyVal) : Exc (list PyVal) :=
  match v with
  | VList l => Ok l
  | VDict d => Ok (List.map (fun kv => VStr (fst kv)) d)
  | VStr s =>
      Ok (List.map (fun c => VStr (String c EmptyString)) (String.list_ascii_of_string s))
  | _ => Raise ("'" +:+ type_name v +:+ "' object is not iterable")
  end.

(** [v[:n]] for a non-negative literal [n]. *)
Definition prefix (n : nat) (v : PyVal) : Exc PyVal :=
  match v with
  | VStr s => Ok (VStr (String.substring 0 n s))
  | VList l => Ok (VList (firstn n l))
  | VDict _ => Raise "unhashable type: 'slice'"
  | _ => Raise ("'" +:+ type_name v +:+ "' object is not subscriptable")
  end.

(** [list(v.keys())] *)
Definition keys (d : list (string * PyVal)) : PyVal :=
  VList (List.map (fun kv => VStr (fst kv)) d).

Definition strs (l : list string) : PyVal := VList (List.map VStr l).

(** [a or b] *)
Definition or_else (a b : PyVal) : PyVal := if truthy a then a else b.

End Py.


(** * The capability router and the pipeline executor
      ([super_orchestrator.py]) *)

Module Orchestrator.

(** A public method of a service object: positional and keyword arguments
    to a returned value or a raised exception.  Coroutines are awaited by
    the router, so a method is identified with its eventual outcome. *)
Definition Method := list PyVal -> list (string * PyVal) -> Exc PyVal.

(** The operation table computed by [_map_service_methods], in the order
    of [dir(service_instance)]. *)
Definition Table := list (string * Method).

(** What [_initialize_services] registered, and the two module-level
    collaborators used outside the router.  [perform_search] is [None]
    when the import of the coordinator failed or the coordinator has no
    such attribute, which the web stage tests with [hasattr];
    [enhanced_social_search] is [None] only when the import of the manager
    failed: the social stage looks the attribute up unguarded, so that a
    manager without it is a method raising the attribute error. *)
Record Registry := mkRegistry {
  services : gset string;
  service_methods : gmap string Table;
  perform_search : option Method;
  enhanced_social_search : option Method
}.

(** A router call that reached a method: the service and the method name. *)
Definition Calls := list (string * string).

(** The loop of [_safe_call_service_method] over the patterns: the first
    truthy result, and the methods called on the way. *)
Fixpoint try_patterns (available_methods : Table) (service_name : string)
  (method_patterns : list string) (args : list PyVal)
  (kwargs : list (string * PyVal)) : option PyVal * Calls :=
  match method_patterns with
  | [] => (None, [])
  | pattern :: rest =>
      match assoc_get pattern available_methods with
      | None =>
          try_patterns available_methods service_name rest args kwargs
      | Some method =>
          match method args kwargs with
          | Ok result =>
              if Py.truthy result then
                (Some result, [(service_name, pattern)])
              else
                let '(r, calls) :=
                  try_patterns available_methods service_name rest
                               args kwargs in
                (r, (service_name, pattern) :: calls)
          | Raise _ =>
              let '(r, calls) :=
                try_patterns available_methods service_name rest
                             args kwargs in
              (r, (service_name, pattern) :: calls)
          end
      end
  end.

Definition service_unavailable (service_name : string) : PyVal :=
  VDict [("status", VStr "service_unavailable");
         ("error", VStr ("Serviço " +:+ service_name +:+ " não disponível"))].

Definition method_not_found (service_name : string)
  (available_methods : Table) (method_patterns : list string) : PyVal :=
  VDict [("status", VStr "method_not_found");
         ("error", VStr ("Nenhum método válido encontrado para "
                         +:+ service_name));
         ("available_methods", Py.strs (List.map fst available_methods));
         ("tried_patterns", Py.strs method_patterns)].

(** [_safe_call_service_method].  The outer [except] clause (status
    [critical_error]) guards dictionary lookups that cannot raise on a
    list of strings. *)
Definition _safe_call_service_method (reg : Registry) (service_name : string)
  (method_patterns : list string) (args : list PyVal)
  (kwargs : list (string * PyVal)) : PyVal * Calls :=
  if bool_decide (service_name ∈ services reg) then
    let available_methods :=
      match service_methods reg !! service_name with
      | Some t => t
      | None => []
      end in
    match try_patterns available_methods service_name method_patterns
                       args kwargs with
    | (Some result, calls) => (result, calls)
    | (None, calls) =>
        (method_not_found service_name available_methods method_patterns,
         calls)
    end
  else (service_unavailable service_name, []).

(** ** A declarative reading of the router

    [answer] is what one pattern yields on its own: the truthy value its
    method returns, if the table has the method, the call returns and the
    value is truthy.  [first_answer] is the first such value along the
    patterns, and [upto_first] the patterns up to and including the first
    one that yields a value. *)
Definition in_table (available_methods : Table) (pattern : string) : bool :=
  match assoc_get pattern available_methods with
  | Some _ => true
  | None => false
  end.

Definition answer (available_methods : Table) (args : list PyVal)
  (kwargs : list (string * PyVal)) (pattern : string) : option PyVal :=
  match assoc_get pattern available_methods with
  | Some method =>
      match method args kwargs with
      | Ok v => if Py.truthy v then Some v else None
      | Raise _ => None
      end
  | None => None
  end.

Fixpoint first_answer (f : string -> option PyVal) (l : list string)
  : option PyVal :=
  match l with
  | [] => None
  | p :: l' =>
      match f p with
      | Some v => Some v
      | None => first_answer f l'
      end
  end.

Fixpoint upto_first (f : string -> option PyVal) (l : list string)
  : list string :=
  match l with
  | [] => []
  | p :: l' =>
      match f p with
      | Some _ => [p]
      | None => p :: upto_first f l'
      end
  end.

(** ** Stage bodies: router calls made so far, and a value or an exception *)

Definition Comp (A : Type) : Type := Calls * Exc A.

Definition ret {A} (a : A) : Comp A := ([], Ok a).

Definition bind {A B} (m : Comp A) (k : A -> Comp B) : Comp B :=
  match m with
  | (calls, Ok a) => let '(calls', r) := k a in (calls ++ calls', r)
  | (calls, Raise e) => (calls, Raise e)
  end.

Definition lift {A} (e : Exc A) : Comp A := ([], e).

(** [try: body / except Exception as e: return handler(str(e))] *)
Definition try_except (body : Comp PyVal) (handler : string -> PyVal)
  : Calls * PyVal :=
  match body with
  | (calls, Ok v) => (calls, v)
  | (calls, Raise e) => (calls, handler e)
  end.

Declare Scope comp_scope.
Delimit Scope comp_scope with comp.
Notation "'let!' x := m 'in' k" := (bind m (fun x => k))
  (at level 10, x name, m at level 100, k at level 200) : comp_scope.
Local Open Scope comp_scope.

Definition route (reg : Registry) (service_name : string)
  (method_patterns : list string) (args : list PyVal)
  (kwargs : list (string * PyVal)) : Comp PyVal :=
  let '(result, calls) :=
    _safe_call_service_method reg service_name method_patterns args kwargs in
  (calls, Ok result).

(** A direct call of a collaborator outside the router. *)
Definition direct (owner name : string) (m : Method) (args : list PyVal)
  : Comp PyVal :=
  ([(owner, name)], m args []).

(** [r and r.get('status') == text] *)
Definition status_is (r : PyVal) (text : string) : Comp bool :=
  if Py.truthy r then
    let! st := lift (Py.get r "status" VNone) in ret (Py.eq_str st text)
  else ret false.

(** [r and r.get('status') != 'method_not_found'] *)
Definition found (r : PyVal) : Comp bool :=
  if Py.truthy r then
    let! st := lift (Py.get r "status" VNone) in
    ret (negb (Py.eq_str st "method_not_found"))
  else ret false.

(** [len(d.get(key, []))] *)
Definition count (d : PyVal) (key : string) : Comp PyVal :=
  let! l := lift (Py.get d key (VList [])) in
  let! n := lift (Py.len l) in
  ret (VInt n).

(** [bool(d.get(key))] *)
Definition has (d : PyVal) (key : string) : Comp PyVal :=
  let! v := lift (Py.get d key VNone) in ret (VBool (Py.truthy v)).

Section Pipeline.
(** Python's [str()] as used by the f-strings, and the text of
    [datetime.now().isoformat()] when the report is built. *)
Variable py_str : PyVal -> string.
Variable now_iso : string.
Variable reg : Registry.

Definition registered (service_name : string) : bool :=
  bool_decide (service_name ∈ services reg).

(** [_execute_real_web_search_async] *)
Definition _execute_real_web_search_async (data : PyVal)
  (session_id : string) : Calls * PyVal :=
  try_except
    (let! q := lift (Py.get data "query" VNone) in
     let! query :=
       (if Py.truthy q then ret q
        else
          let! seg := lift (Py.get data "segmento" (VStr "")) in
          let! prod := lift (Py.get data "produto" (VStr "")) in
          ret (VStr ("mercado " +:+ py_str seg +:+ " " +:+ py_str prod
                     +:+ " Brasil 2024"))) in
     let! websailor :=
       (if registered "websailor" then
          let! websailor_results :=
            route reg "websailor"
              ["navigate_and_research_deep"; "research_deep";
               "navigate_and_research"; "research"; "search_deep"]
              [query; data]
              [("max_pages", VInt 20); ("depth_levels", VInt 3);
               ("session_id", VStr session_id)] in
          let! good := status_is websailor_results "success" in
          ret (if good then Some websailor_results else None)
        else ret None) in
     match websailor with
     | Some r => ret r
     | None =>
         let! enhanced :=
           match perform_search reg with
           | Some m =>
               match direct "enhanced_search_coordinator" "perform_search" m
                            [query; VStr session_id] with
               | (calls, Ok search_results) =>
                   (calls,
                    Ok (if Py.truthy search_results then
                          Some (VDict [("status", VStr "success");
                                       ("processed_results", search_results);
                                       ("source", VStr "enhanced_search")])
                        else None))
               | (calls, Raise _) => (calls, Ok None)
               end
           | None => ret None
           end in
         match enhanced with
         | Some r => ret r
         | None =>
             ret (VDict [("status", VStr "fallback");
                         ("processed_results", VList []);
                         ("source", VStr "fallback_basic")])
         end
     end)
    (fun e => VDict [("status", VStr "error");
                     ("processed_results", VList []);
                     ("error", VStr e)]).

(** [_execute_real_social_analysis_async] *)
Definition _execute_real_social_analysis_async (data : PyVal)
  (session_id : string) : Calls * PyVal :=
  try_except
    (let! seg := lift (Py.get data "segmento" (VStr "")) in
     let! prod := lift (Py.get data "produto" (VStr "")) in
     let query := VStr (py_str seg +:+ " " +:+ py_str prod) in
     let! supadata :=
       (if registered "supadata" then
          let! social_results :=
            route reg "supadata"
              ["search_all_platforms"; "search_platforms"; "search_all";
               "search"; "analyze_platforms"]
              [query] [("max_results_per_platform", VInt 15)] in
          let! ok := found social_results in
          if ok then
            let! total := lift (Py.get social_results "total_results"
                                       (VInt 0)) in
            let! positive := lift (Py.gt0 total) in
            if positive then
              let! total_posts := lift (Py.get social_results "total_results"
                                               (VInt 0)) in
              ret (Some (VDict [("status", VStr "success");
                                ("platforms_data",
                                 Py.or_else social_results (VDict []));
                                ("total_posts", total_posts);
                                ("source", VStr "supadata")]))
            else ret None
          else ret None
        else ret None) in
     match supadata with
     | Some r => ret r
     | None =>
         let! mcp :=
           match enhanced_social_search reg with
           | Some m =>
               let! mcp_results :=
                 direct "enhanced_mcp_fallback_manager"
                        "enhanced_social_search" m [query] in
               let! total := lift (Py.get mcp_results "total_results"
                                          (VInt 0)) in
               let! positive := lift (Py.gt0 total) in
               if positive then
                 ret (Some (VDict [("status", VStr "success");
                                   ("platforms_data", mcp_results);
                                   ("total_posts", total);
                                   ("source", VStr "enhanced_mcp_fallback")]))
               else ret None
           | None => ret None
           end in
         match mcp with
         | Some r => ret r
         | None =>
             ret (VDict
                    [("status", VStr "limited");
                     ("platforms_data", VDict []);
                     ("total_posts", VInt 0);
                     ("error",
                      VStr "Nenhum serviço de redes sociais disponível");
                     ("message",
                      VStr "Configure APIs reais ou MCPs para obter dados sociais")])
         end
     end)
    (fun e => VDict [("status", VStr "error"); ("total_posts", VInt 0);
                     ("error", VStr e)]).

(** [_execute_real_avatar_analysis_async] *)
Definition _execute_real_avatar_analysis_async (web_data social_data
  project_data : PyVal) (session_id : string) : Calls * PyVal :=
  try_except
    (let! ai :=
       (if registered "ai_manager" then
          let! ai_avatar :=
            route reg "ai_manager"
              ["create_avatar"; "analyze_avatar"; "build_avatar";
               "generate_avatar"; "create_persona"]
              [web_data; social_data; project_data; VStr session_id] [] in
          let! good := status_is ai_avatar "success" in
          ret (if good then Some ai_avatar else None)
        else ret None) in
     match ai with
     | Some r => ret r
     | None =>
         let! seg := lift (Py.get project_data "segmento"
                                  (VStr "Profissional")) in
         let! web_sources := count web_data "processed_results" in
         ret (VDict
                [("status", VStr "success");
                 ("nome_ficticio", VStr ("Avatar " +:+ py_str seg));
                 ("dores_viscerais_unificadas",
                  Py.strs ["Falta de tempo"; "Dificuldade em decidir"]);
                 ("desejos_secretos_unificados",
                  Py.strs ["Reconhecimento"; "Estabilidade"]);
                 ("objecoes_principais",
                  Py.strs ["Preço alto"; "Falta de confiança"]);
                 ("fonte_dados",
                  VDict [("data_real", VBool true);
                         ("web_sources", web_sources)])])
     end)
    (fun e => VDict [("status", VStr "error"); ("error", VStr e)]).

(** [_execute_real_mental_drivers_async] *)
Definition _execute_real_mental_drivers_async (avatar_data web_data
  project_data : PyVal) (session_id : string) : Calls * PyVal :=
  try_except
    (if negb (registered "mental_drivers") then
       ret (VDict [("status", VStr "fallback");
                   ("drivers_customizados", VList [])])
     else
       let! seg := lift (Py.get project_data "segmento" VNone) in
       let! prod := lift (Py.get project_data "produto" VNone) in
       let context_data :=
         VDict [("segmento", seg); ("produto", prod);
                ("session_id", VStr session_id)] in
       let! drivers_system :=
         route reg "mental_drivers"
           ["create_complete_mental_drivers_system";
            "create_mental_drivers_system"; "create_drivers_system";
            "create_mental_drivers"; "build_drivers"; "generate_drivers"]
           []
           [("avatar_data", avatar_data); ("context_data", context_data)] in
       ret (Py.or_else drivers_system
              (VDict [("status", VStr "fallback");
                      ("drivers_customizados", VList [])])))
    (fun e => VDict [("status", VStr "error");
                     ("drivers_customizados", VList []);
                     ("error", VStr e)]).

(** [_execute_real_visual_proofs_async] *)
Definition _execute_real_visual_proofs_async (drivers_data project_data
  : PyVal) (session_id : string) : Calls * PyVal :=
  try_except
    (if negb (registered "visual_proofs") then
       ret (VDict [("status", VStr "fallback"); ("proofs", VList [])])
     else
       let! seg := lift (Py.get project_data "segmento" (VStr "")) in
       let! prod := lift (Py.get project_data "produto" (VStr "")) in
       let! visual_proofs :=
         route reg "visual_proofs"
           ["generate_visual_proofs"; "create_proofs"; "generate_proofs";
            "create_visual_proofs"; "build_proofs"]
           [drivers_data; seg; prod; VStr session_id] [] in
       let! ok := found visual_proofs in
       if ok then ret visual_proofs
       else
         let! seg := lift (Py.get project_data "segmento"
                                  (VStr "mercado")) in
         let! prod := lift (Py.get project_data "produto"
                                   (VStr "produto")) in
         ret (VDict
                [("status", VStr "fallback");
                 ("proofs",
                  VList
                    [VDict
                       [("tipo", VStr "estatistica");
                        ("titulo", VStr ("Dados sobre " +:+ py_str seg));
                        ("descricao",
                         VStr ("Análise baseada nos drivers para "
                               +:+ py_str prod));
                        ("fonte", VStr "Análise própria")]])]))
    (fun e => VDict [("status", VStr "error"); ("proofs", VList []);
                     ("error", VStr e)]).

(** [_execute_real_anti_objection_async] *)
Definition _execute_real_anti_objection_async (drivers_data avatar_data
  data : PyVal) (session_id : string) : Calls * PyVal :=
  try_except
    (if negb (registered "anti_objection") then
       ret (VDict [("status", VStr "fallback");
                   ("sistema_anti_objecao", VDict [])])
     else
       let! prod := lift (Py.get data "produto" (VStr "")) in
       let anti_objection_data :=
         VDict [("avatar", avatar_data); ("produto", prod);
                ("drivers", drivers_data)] in
       let! result :=
         route reg "anti_objection"
           ["create_anti_objection_system"; "create_system";
            "generate_system"; "build_system"; "create_anti_objection";
            "generate_anti_objection_system"; "process_objections"]
           [anti_objection_data] [] in
       let! ok := found result in
       if ok then ret result
       else
         let! objections :=
           lift (Py.get avatar_data "objecoes_principais"
                        (Py.strs ["Preço alto"; "Falta de confiança"])) in
         let! each := lift (Py.items objections) in
         ret (VDict
                [("status", VStr "fallback");
                 ("sistema_anti_objecao",
                  VDict
                    [("objecoes_mapeadas", objections);
                     ("respostas_preparadas",
                      VList (List.map
                               (fun obj =>
                                  VStr ("Resposta para: " +:+ py_str obj))
                               each));
                     ("estrategias",
                      Py.strs ["Demonstração de valor"; "Prova social";
                               "Garantias"])])]))
    (fun e => VDict [("status", VStr "error");
                     ("sistema_anti_objecao", VDict []);
                     ("error", VStr e)]).

(** [_execute_real_pre_pitch_async] *)
Definition _execute_real_pre_pitch_async (drivers_data anti_objection_data
  project_data : PyVal) (session_id : string) : Calls * PyVal :=
  try_except
    (if negb (registered "pre_pitch") then
       ret (VDict [("status", VStr "fallback");
                   ("sequencias_pre_pitch", VList [])])
     else
       let! result :=
         route reg "pre_pitch"
           ["generate_pre_pitch_system"; "create_system"; "build_system";
            "generate_system"; "create_pre_pitch"; "build_pre_pitch";
            "generate_pre_pitch"; "process_pre_pitch"]
           [drivers_data; anti_objection_data; project_data] [] in
       let! ok := found result in
       if ok then ret result
       else
         let! prod1 := lift (Py.get project_data "produto"
                                    (VStr "produto")) in
         let! prod2 := lift (Py.get project_data "produto"
                                    (VStr "produto")) in
         ret (VDict
                [("status", VStr "fallback");
                 ("sequencias_pre_pitch",
                  VList
                    [VDict
                       [("etapa", VStr "Aquecimento");
                        ("conteudo",
                         VStr ("Introdução sobre benefícios de "
                               +:+ py_str prod1));
                        ("driver_aplicado", VStr "Curiosidade")];
                     VDict
                       [("etapa", VStr "Revelação de problema");
                        ("conteudo",
                         VStr "Identificação de dor específica do avatar");
                        ("driver_aplicado", VStr "Urgência")];
                     VDict
                       [("etapa", VStr "Apresentação da solução");
                        ("conteudo",
                         VStr ("Como " +:+ py_str prod2
                               +:+ " resolve o problema"));
                        ("driver_aplicado", VStr "Autoridade")]])]))
    (fun e => VDict [("status", VStr "error");
                     ("sequencias_pre_pitch", VList []);
                     ("error", VStr e)]).

(** [_execute_real_future_predictions_async] *)
Definition _execute_real_future_predictions_async (web_data social_data
  : PyVal) (session_id : string) : Calls * PyVal :=
  try_except
    (if negb (registered "future_prediction") then
       ret (VDict [("status", VStr "fallback"); ("predicoes", VList [])])
     else
       let! result :=
         route reg "future_prediction"
           ["create_predictions"; "generate_predictions";
            "build_predictions"; "predict_future"; "analyze_future_trends";
            "process_predictions"]
           [web_data; social_data; VStr session_id] [] in
       let! ok := found result in
       if ok then ret result
       else ret (VDict [("status", VStr "fallback");
                        ("predicoes", VList [])]))
    (fun e => VDict [("status", VStr "error"); ("predicoes", VList []);
                     ("error", VStr e)]).

(** [_execute_real_competition_analysis_async] *)
Definition _execute_real_competition_analysis_async (web_data project_data
  : PyVal) (session_id : string) : Calls * PyVal :=
  try_except
    (let! ai :=
       (if registered "ai_manager" then
          let! competition_analysis :=
            route reg "ai_manager"
              ["analyze_competition"; "competition_analysis";
               "analyze_competitors"; "market_analysis"]
              [web_data; project_data; VStr session_id] [] in
          let! good := status_is competition_analysis "success" in
          ret (if good then Some competition_analysis else None)
        else ret None) in
     match ai with
     | Some r => ret r
     | None =>
         let! seg := lift (Py.get project_data "segmento"
                                  (VStr "mercado")) in
         let! n := count web_data "processed_results" in
         ret (VDict
                [("status", VStr "success");
                 ("analise_completa",
                  VStr ("Análise de concorrência para " +:+ py_str seg));
                 ("fontes_analisadas", n)])
     end)
    (fun e => VDict [("status", VStr "error"); ("error", VStr e)]).

(** [_execute_real_insights_extraction_async] *)
Definition _execute_real_insights_extraction_async (web_data social_data
  : PyVal) (session_id : string) : Calls * PyVal :=
  try_except
    (let! extracted :=
       (if registered "content_extractor" then
          let! insights_analysis :=
            route reg "content_extractor"
              ["extract_insights"; "analyze_content"; "extract_data";
               "process_insights"; "analyze_insights"]
              [web_data; social_data; VStr session_id] [] in
          let! good := status_is insights_analysis "success" in
          ret (if good then Some insights_analysis else None)
        else ret None) in
     match extracted with
     | Some r => ret r
     | None =>
         let! n := count web_data "processed_results" in
         let! posts := lift (Py.get social_data "total_posts" (VInt 0)) in
         ret (VDict
                [("status", VStr "success");
                 ("insights_completos",
                  VStr "Insights baseados nos dados coletados");
                 ("fontes_utilizadas",
                  VDict [("web_sources", n); ("social_posts", posts)])])
     end)
    (fun e => VDict [("status", VStr "error"); ("error", VStr e)]).

(** [_execute_real_keywords_analysis_async]: the loop over
    [['ai_manager', 'content_extractor']]. *)
Fixpoint keywords_from (names : list string) (web_data avatar_data : PyVal)
  (session_id : string) : Comp (option PyVal) :=
  match names with
  | [] => ret None
  | service_name :: rest =>
      if registered service_name then
        let! keywords_analysis :=
          route reg service_name
            ["analyze_keywords"; "extract_keywords"; "keywords_analysis";
             "process_keywords"; "identify_keywords"]
            [web_data; avatar_data; VStr session_id] [] in
        let! good := status_is keywords_analysis "success" in
        if good then ret (Some keywords_analysis)
        else keywords_from rest web_data avatar_data session_id
      else keywords_from rest web_data avatar_data session_id
  end.

Definition _execute_real_keywords_analysis_async (web_data avatar_data
  : PyVal) (session_id : string) : Calls * PyVal :=
  try_except
    (let! analysed :=
       keywords_from ["ai_manager"; "content_extractor"]
                     web_data avatar_data session_id in
     match analysed with
     | Some r => ret r
     | None =>
         let! n := count web_data "processed_results" in
         let! named := has avatar_data "nome_ficticio" in
         ret (VDict
                [("status", VStr "success");
                 ("analise_completa",
                  VStr "Palavras-chave estratégicas identificadas");
                 ("fonte_dados",
                  VDict [("web_sources_analyzed", n);
                         ("avatar_included", named)])])
     end)
    (fun e => VDict [("status", VStr "error"); ("error", VStr e)]).

(** [_execute_real_sales_funnel_async] *)
Definition _execute_real_sales_funnel_async (drivers_data avatar_data
  : PyVal) (session_id : string) : Calls * PyVal :=
  try_except
    (let! ai :=
       (if registered "ai_manager" then
          let! funnel_analysis :=
            route reg "ai_manager"
              ["optimize_sales_funnel"; "create_funnel"; "build_funnel";
               "funnel_optimization"; "sales_funnel_analysis"]
              [drivers_data; avatar_data; VStr session_id] [] in
          let! good := status_is funnel_analysis "success" in
          ret (if good then Some funnel_analysis else None)
        else ret None) in
     match ai with
     | Some r => ret r
     | None =>
         let! n := count drivers_data "drivers_customizados" in
         let! named := has avatar_data "nome_ficticio" in
         ret (VDict
                [("status", VStr "success");
                 ("funil_otimizado",
                  VStr "Funil otimizado com base nos dados coletados");
                 ("dados_base",
                  VDict [("drivers_applied", n); ("avatar_based", named)])])
     end)
    (fun e => VDict [("status", VStr "error"); ("error", VStr e)]).

(** ** The module reports of the fallback consolidation *)

Definition invalid (message : string) : PyVal :=
  VDict [("status", VStr "error"); ("message", VStr message)].

(** [comp [f(x) for x in l]] *)
Fixpoint for_each (f : PyVal -> Comp PyVal) (l : list PyVal)
  : Comp (list PyVal) :=
  match l with
  | [] => ret []
  | x :: l' =>
      let! y := f x in
      let! ys := for_each f l' in
      ret (y :: ys)
  end.

(** [_gerar_relatorio_pesquisa_web] *)
Definition _gerar_relatorio_pesquisa_web (web_data : PyVal) : Comp PyVal :=
  if negb (Py.is_dict web_data) then ret (invalid "Dados inválidos")
  else
    let! processed_results :=
      lift (Py.get web_data "processed_results" (VList [])) in
    let! total := lift (Py.len processed_results) in
    let! first10 := lift (Py.prefix 10 processed_results) in
    let! each := lift (Py.items first10) in
    let! fontes :=
      for_each
        (fun result =>
           let! t := lift (Py.get result "title" (VStr "Sem título")) in
           let! t100 := lift (Py.prefix 100 t) in
           let! u := lift (Py.get result "url" (VStr "")) in
           let! r := lift (Py.get result "relevance_score" (VInt 0)) in
           ret (VDict [("titulo", t100); ("url", u); ("relevancia", r)]))
        each in
    let! engines := lift (Py.get web_data "engines_used" (VList [])) in
    let! took := lift (Py.get web_data "execution_time" (VInt 0)) in
    ret (VDict
           [("status", VStr "success");
            ("total_fontes", VInt total);
            ("fontes_analisadas", VList fontes);
            ("qualidade_pesquisa",
             VStr (if Py.truthy processed_results then "real_data"
                   else "limited_data"));
            ("engines_utilizados", engines);
            ("tempo_execucao", took)]).

(** [_gerar_relatorio_social] *)
Definition _gerar_relatorio_social (social_data : PyVal) : Comp PyVal :=
  if negb (Py.is_dict social_data) then
    ret (invalid "Dados sociais inválidos")
  else
    let! platforms_data :=
      lift (Py.get social_data "platforms_data" (VDict [])) in
    let! posts := lift (Py.get social_data "total_posts" (VInt 0)) in
    ret (VDict
           [("status", VStr "success");
            ("total_posts", posts);
            ("plataformas_analisadas",
             match platforms_data with
             | VDict d => Py.keys d
             | _ => VList []
             end);
            ("sentimento_geral", VStr "neutro");
            ("engajamento_medio", VStr "moderado");
            ("palavras_chave_trending",
             Py.strs ["empreendedorismo"; "inovacao"; "brasil"])]).

(** [_gerar_relatorio_avatar] *)
Definition _gerar_relatorio_avatar (avatar_data : PyVal) : Comp PyVal :=
  if negb (Py.is_dict avatar_data) then
    ret (invalid "Dados de avatar inválidos")
  else
    let! nome := lift (Py.get avatar_data "nome_ficticio"
                              (VStr "Avatar Profissional")) in
    let! dores := lift (Py.get avatar_data "dores_viscerais_unificadas"
                               (VList [])) in
    let! desejos := lift (Py.get avatar_data "desejos_secretos_unificados"
                                 (VList [])) in
    let! objecoes := lift (Py.get avatar_data "objecoes_principais"
                                  (VList [])) in
    let! canais := lift (Py.get avatar_data "canais_comunicacao"
                                (VList [])) in
    let! demo := lift (Py.get avatar_data "perfil_demografico_completo"
                              (VDict [])) in
    let! psico := lift (Py.get avatar_data "perfil_psicografico_profundo"
                               (VDict [])) in
    ret (VDict
           [("status", VStr "success");
            ("nome_avatar", nome);
            ("dores_identificadas", dores);
            ("desejos_mapeados", desejos);
            ("objecoes_principais", objecoes);
            ("canais_preferidos", canais);
            ("perfil_demografico", demo);
            ("perfil_psicografico", psico)]).

(** [_gerar_relatorio_drivers] *)
Definition _gerar_relatorio_drivers (drivers_data : PyVal) : Comp PyVal :=
  if negb (Py.is_dict drivers_data) then
    ret (invalid "Dados de drivers inválidos")
  else
    let! drivers := lift (Py.get drivers_data "drivers_customizados"
                                 (VList [])) in
    let! total := lift (Py.len drivers) in
    ret (VDict
           [("status", VStr "success");
            ("total_drivers", VInt total);
            ("drivers_gerados", drivers);
            ("categorias_cobertas",
             Py.strs ["urgencia"; "autoridade"; "escassez"; "prova_social"]);
            ("intensidade_media", VFloat (Qmake 17 2));
            ("aplicabilidade", VStr "alta")]).

(** [_gerar_relatorio_provas] *)
Definition _gerar_relatorio_provas (provas_data : PyVal) : Comp PyVal :=
  if negb (Py.is_dict provas_data) then
    ret (invalid "Dados de provas inválidos")
  else
    let! proofs := lift (Py.get provas_data "proofs" (VList [])) in
    let! total := lift (Py.len proofs) in
    ret (VDict
           [("status", VStr "success");
            ("total_provas", VInt total);
            ("tipos_prova",
             Py.strs ["depoimentos"; "estatisticas"; "cases";
                      "certificacoes"]);
            ("provas_geradas", proofs);
            ("impacto_persuasivo", VStr "alto")]).

(** [_gerar_relatorio_anti_objecao] *)
Definition _gerar_relatorio_anti_objecao (anti_obj_data : PyVal)
  : Comp PyVal :=
  if negb (Py.is_dict anti_obj_data) then
    ret (invalid "Dados anti-objeção inválidos")
  else
    let! sistema := lift (Py.get anti_obj_data "sistema_anti_objecao"
                                 (VDict [])) in
    let field key :=
      if Py.is_dict sistema then lift (Py.get sistema key (VList []))
      else ret (VList []) in
    let! mapeadas := field "objecoes_mapeadas" in
    let! respostas := field "respostas_preparadas" in
    let! estrategias := field "estrategias" in
    ret (VDict
           [("status", VStr "success");
            ("objecoes_mapeadas", mapeadas);
            ("respostas_preparadas", respostas);
            ("estrategias_neutralizacao", estrategias);
            ("taxa_neutralizacao_estimada", VStr "85%")]).

(** [_gerar_relatorio_funil] *)
Definition _gerar_relatorio_funil (funil_data : PyVal) : Comp PyVal :=
  if negb (Py.is_dict funil_data) then
    ret (invalid "Dados de funil inválidos")
  else
    ret (VDict
           [("status", VStr "success");
            ("etapas_funil",
             Py.strs ["consciencia"; "interesse"; "consideracao"; "acao"]);
            ("otimizacoes_aplicadas",
             Py.strs ["personalizacao"; "segmentacao"; "automacao"]);
            ("conversao_estimada", VStr "15-25%");
            ("pontos_otimizacao",
             Py.strs ["landing_pages"; "follow_up"; "nurturing"])]).

(** ** Consolidation *)

(** [complete_analysis_data.get(key, {})] *)
Definition section_of (complete_analysis_data : list (string * PyVal))
  (key : string) : PyVal :=
  match assoc_get key complete_analysis_data with
  | Some v => v
  | None => VDict []
  end.

(** [sum(1 for data in d.values()
         if isinstance(data, dict) and data.get('status') == text)] *)
Definition count_status (complete_analysis_data : list (string * PyVal))
  (text : string) : Z :=
  Z.of_nat
    (List.length
       (List.filter
          (fun kv =>
             match snd kv with
             | VDict d =>
                 match assoc_get "status" d with
                 | Some st => Py.eq_str st text
                 | None => false
                 end
             | _ => false
             end)
          complete_analysis_data)).

(** [f(d) if isinstance(d, dict) else other] *)
Definition if_dict (d : PyVal) (f : Comp PyVal) (other : PyVal)
  : Comp PyVal :=
  if Py.is_dict d then f else ret other.

(** The [try] block of [_generate_final_report_async].  The module reports
    are then handed to [_salvar_relatorios_modulos], which only persists
    them and swallows its own exceptions. *)
Definition final_report_body (complete_analysis_data : list (string * PyVal))
  (session_id : string) : Comp PyVal :=
  let! enhanced :=
    (if registered "enhanced_report" then
       let! enhanced_report :=
         route reg "enhanced_report"
           ["generate_report"; "create_report"; "build_report";
            "generate_enhanced_report"; "create_enhanced_report";
            "process_report"; "compile_report"]
           [VDict complete_analysis_data; VStr session_id] [] in
       if Py.truthy enhanced_report && Py.is_dict enhanced_report then
         let! st := lift (Py.get enhanced_report "status" VNone) in
         ret (if Py.eq_str st "method_not_found"
                 || Py.eq_str st "critical_error"
              then None else Some enhanced_report)
       else ret None
     else ret None) in
  match enhanced with
  | Some r => ret r
  | None =>
      let web_data := section_of complete_analysis_data
                                 "pesquisa_web_massiva" in
      let social_data := section_of complete_analysis_data
                                    "analise_redes_sociais" in
      let avatar_data := section_of complete_analysis_data
                                    "avatar_ultra_detalhado" in
      let drivers_data := section_of complete_analysis_data
                                     "drivers_mentais_customizados" in
      let provas_data := section_of complete_analysis_data
                                    "provas_visuais_arsenal" in
      let anti_obj_data := section_of complete_analysis_data
                                      "sistema_anti_objecao" in
      let funil_data := section_of complete_analysis_data
                                   "funil_vendas_otimizado" in
      let! web_sources :=
        if_dict web_data (count web_data "processed_results") (VInt 0) in
      let! social_posts :=
        if_dict social_data
                (lift (Py.get social_data "total_posts" (VInt 0)))
                (VInt 0) in
      let! avatar_criado :=
        if_dict avatar_data (has avatar_data "nome_ficticio")
                (VBool false) in
      let! drivers_gerados :=
        if_dict drivers_data (count drivers_data "drivers_customizados")
                (VInt 0) in
      let! provas_visuais :=
        if_dict provas_data (count provas_data "proofs") (VInt 0) in
      let! anti_objecao :=
        if_dict anti_obj_data (has anti_obj_data "sistema_anti_objecao")
                (VBool false) in
      let! funil_otimizado :=
        if_dict funil_data (has funil_data "funil_otimizado")
                (VBool false) in
      let! r_web := _gerar_relatorio_pesquisa_web web_data in
      let! r_social := _gerar_relatorio_social social_data in
      let! r_avatar := _gerar_relatorio_avatar avatar_data in
      let! r_drivers := _gerar_relatorio_drivers drivers_data in
      let! r_provas := _gerar_relatorio_provas provas_data in
      let! r_anti := _gerar_relatorio_anti_objecao anti_obj_data in
      let! r_funil := _gerar_relatorio_funil funil_data in
      ret (VDict
             [("status", VStr "success");
              ("session_id", VStr session_id);
              ("timestamp", VStr now_iso);
              ("resumo_executivo",
               VStr "Análise completa finalizada com todos os componentes");
              ("componentes_analisados", Py.keys complete_analysis_data);
              ("dados_coletados",
               VDict [("web_sources", web_sources);
                      ("social_posts", social_posts);
                      ("avatar_criado", avatar_criado);
                      ("drivers_gerados", drivers_gerados);
                      ("provas_visuais", provas_visuais);
                      ("sistema_anti_objecao", anti_objecao);
                      ("funil_otimizado", funil_otimizado)]);
              ("relatorios_modulos",
               VDict [("pesquisa_web", r_web);
                      ("analise_social", r_social);
                      ("avatar", r_avatar);
                      ("drivers_mentais", r_drivers);
                      ("provas_visuais", r_provas);
                      ("anti_objecao", r_anti);
                      ("funil_vendas", r_funil)]);
              ("service_status",
               VDict [("services_available",
                       VInt (Z.of_nat (size (services reg))));
                      ("services_used",
                       VInt (count_status complete_analysis_data "success"));
                      ("fallbacks_used",
                       VInt (count_status complete_analysis_data
                                          "fallback"))]);
              ("report_generator", VStr "enhanced_fallback_v5_fixed")])
  end.

(** The [except] clause of [_generate_final_report_async]. *)
Definition error_report (session_id e : string) : PyVal :=
  VDict [("status", VStr "error");
         ("session_id", VStr session_id);
         ("timestamp", VStr now_iso);
         ("error", VStr e);
         ("report_generator", VStr "error_fallback")].

(** [_generate_final_report_async] *)
Definition _generate_final_report_async
  (complete_analysis_data : list (string * PyVal)) (session_id : string)
  : Calls * PyVal :=
  try_except (final_report_body complete_analysis_data session_id)
             (error_report session_id).

(** ** The executor *)

(** What a run does, in order: an invocation of the progress callback, and
    a stage that ran, with the router calls it made and the result it
    handed back. *)
Inductive Event :=
| Progress (step : Z) (message : string)
| Stage (step : Z) (calls : Calls) (result : PyVal).

(** The progress callback: it returns or raises. *)
Definition Callback := Z -> string -> Exc unit.

(** An entry of [execution_state]; the remaining keys are written once and
    never changed. *)
Record Session := mkSession {
  status : string;
  start_time : Z;
  execution_time : option Z
}.

Record State := mkState {
  execution_state : gmap string Session;
  _global_recursion_depth : gmap string Z
}.

(** [if progress_callback: progress_callback(step, message)] followed by
    the stage and the rest of the run. *)
Definition phase {A} (progress_callback : option Callback) (step : Z)
  (message : string) (stage : Calls * PyVal)
  (rest : PyVal -> list Event * Exc A) : list Event * Exc A :=
  match progress_callback with
  | Some callback =>
      match callback step message with
      | Ok _ =>
          let '(trace, r) := rest (snd stage) in
          (Progress step message :: Stage step (fst stage) (snd stage)
             :: trace, r)
      | Raise e => ([Progress step message], Raise e)
      end
  | None =>
      let '(trace, r) := rest (snd stage) in
      (Stage step (fst stage) (snd stage) :: trace, r)
  end.

(** The dictionary [complete_analysis_data]. *)
Definition consolidate (session_id : string) (data web social avatar
  drivers visual anti pre_pitch predictions competition insights keywords
  funnel : PyVal) : list (string * PyVal) :=
  [("session_id", VStr session_id);
   ("projeto_dados", data);
   ("pesquisa_web_massiva", web);
   ("avatar_ultra_detalhado", avatar);
   ("drivers_mentais_customizados", drivers);
   ("provas_visuais_arsenal", visual);
   ("sistema_anti_objecao", anti);
   ("pre_pitch_invisivel", pre_pitch);
   ("predicoes_futuro_detalhadas", predictions);
   ("analise_concorrencia", competition);
   ("insights_exclusivos", insights);
   ("palavras_chave_estrategicas", keywords);
   ("funil_vendas_otimizado", funnel);
   ("analise_redes_sociais", social)].

(** The thirteen phases of [_execute_async_analysis]: the trace, and the
    final report or the exception that left the coroutine. *)
Definition phases (data : PyVal) (session_id : string)
  (cb : option Callback) : list Event * Exc PyVal :=
  phase cb 1 "🔍 Executando pesquisa web massiva com dados reais..."
    (_execute_real_web_search_async data session_id) (fun web =>
  phase cb 2 "📱 Analisando redes sociais com dados reais..."
    (_execute_real_social_analysis_async data session_id) (fun social =>
  phase cb 3 "👤 Criando avatar ultra-detalhado com dados reais..."
    (_execute_real_avatar_analysis_async web social data session_id)
    (fun avatar =>
  phase cb 4 "🧠 Gerando drivers mentais customizados com dados reais..."
    (_execute_real_mental_drivers_async avatar web data session_id)
    (fun drivers =>
  phase cb 5 "📸 Criando provas visuais com dados reais..."
    (_execute_real_visual_proofs_async drivers data session_id)
    (fun visual =>
  phase cb 6 "🛡️ Desenvolvendo sistema anti-objeção com dados reais..."
    (_execute_real_anti_objection_async drivers avatar data session_id)
    (fun anti =>
  phase cb 7 "🎯 Construindo pré-pitch invisível com dados reais..."
    (_execute_real_pre_pitch_async drivers anti data session_id)
    (fun pre_pitch =>
  phase cb 8 "🔮 Gerando predições futuras com dados reais..."
    (_execute_real_future_predictions_async web social session_id)
    (fun predictions =>
  phase cb 9 "⚔️ Analisando concorrência com dados reais..."
    (_execute_real_competition_analysis_async web data session_id)
    (fun competition =>
  phase cb 10 "💡 Extraindo insights exclusivos com dados reais..."
    (_execute_real_insights_extraction_async web social session_id)
    (fun insights =>
  phase cb 11
    "🎯 Identificando palavras-chave estratégicas com dados reais..."
    (_execute_real_keywords_analysis_async web avatar session_id)
    (fun keywords =>
  phase cb 12 "🎢 Otimizando funil de vendas com dados reais..."
    (_execute_real_sales_funnel_async drivers avatar session_id)
    (fun funnel =>
  phase cb 13 "📊 Gerando relatório final completo com dados reais..."
    (_generate_final_report_async
       (consolidate session_id data web social avatar drivers visual anti
                    pre_pitch predictions competition insights keywords
                    funnel)
       session_id)
    (fun final_report => ([], Ok final_report)))))))))))))).

(** The dictionary returned by a run that reached its end. *)
Definition success_envelope (session_id : string) (elapsed : Z)
  (final_report : PyVal) : PyVal :=
  VDict [("success", VBool true);
         ("session_id", VStr session_id);
         ("execution_time", VInt elapsed);
         ("total_components_executed", VInt 12);
         ("report", final_report);
         ("data_validation",
          VDict [("all_data_real", VBool true);
                 ("zero_simulated_data", VBool true);
                 ("zero_fallbacks_used", VBool true);
                 ("components_with_real_data", VInt 12)]);
         ("sync_status", VStr "PERFECT_SYNC_REAL_DATA_ONLY")].

(** [_execute_async_analysis]; the clock reads [t0] on entry and [t1] after
    the report has been built. *)
Definition _execute_async_analysis (data : PyVal) (session_id : string)
  (cb : option Callback) (t0 t1 : Z) (st : State)
  : State * list Event * Exc PyVal :=
  let running :=
    <[session_id := mkSession "running" t0 None]> (execution_state st) in
  match phases data session_id cb with
  | (trace, Ok final_report) =>
      (mkState
         (alter (fun s => mkSession "completed" (start_time s)
                                    (Some (t1 - t0)))
                session_id running)
         ∅,
       trace, Ok (success_envelope session_id (t1 - t0) final_report))
  | (trace, Raise e) => (mkState running ∅, trace, Raise e)
  end.

(** The dictionary returned when the run is refused or aborted. *)
Definition failure_envelope (session_id e : string) : PyVal :=
  VDict [("success", VBool false);
         ("session_id", VStr session_id);
         ("error", VStr e);
         ("emergency_mode", VBool true)].

(** [execute_synchronized_analysis] *)
Definition execute_synchronized_analysis (data : PyVal)
  (session_id : string) (cb : option Callback) (t0 t1 : Z) (st : State)
  : State * list Event * PyVal :=
  if negb (Py.truthy data) then
    (st, [],
     failure_envelope session_id
                      "Dados de entrada obrigatórios não fornecidos")
  else
    match _execute_async_analysis data session_id cb t0 t1 st with
    | (st', trace, Ok result) => (st', trace, result)
    | (st', trace, Raise e) =>
        (mkState (execution_state st') ∅, trace,
         failure_envelope session_id e)
    end.

(** The stages that ran, by number, and the callback invocations. *)
Definition stages_run (trace : list Event) : list Z :=
  flat_map (fun ev => match ev with Stage k _ _ => [k] | _ => [] end) trace.

Definition progress_steps (trace : list Event) : list Z :=
  flat_map (fun ev => match ev with Progress k _ => [k] | _ => [] end)
           trace.

(** The result stored for stage [k], if the stage ran. *)
Fixpoint stage_result (k : Z) (trace : list Event) : option PyVal :=
  match trace with
  | [] => None
  | Stage k' _ v :: trace' =>
      if k' =? k then Some v else stage_result k trace'
  | _ :: trace' => stage_result k trace'
  end.

(** [status] of a session in the store. *)
Definition session_status (session_id : string) (st : State)
  : option string :=
  status <$> execution_state st !! session_id.

(** ** The run read off its stages

    The value each stage hands to the next ones, as
    [_execute_async_analysis] threads them. *)
Definition web_of (data : PyVal) (sid : string) : Calls * PyVal :=
  _execute_real_web_search_async data sid.
Definition social_of (data : PyVal) (sid : string) : Calls * PyVal :=
  _execute_real_social_analysis_async data sid.
Definition avatar_of (data : PyVal) (sid : string) : Calls * PyVal :=
  _execute_real_avatar_analysis_async
    (snd (web_of data sid)) (snd (social_of data sid)) data sid.
Definition drivers_of (data : PyVal) (sid : string) : Calls * PyVal :=
  _execute_real_mental_drivers_async
    (snd (avatar_of data sid)) (snd (web_of data sid)) data sid.
Definition visual_of (data : PyVal) (sid : string) : Calls * PyVal :=
  _execute_real_visual_proofs_async (snd (drivers_of data sid)) data sid.
Definition anti_of (data : PyVal) (sid : string) : Calls * PyVal :=
  _execute_real_anti_objection_async
    (snd (drivers_of data sid)) (snd (avatar_of data sid)) data sid.
Definition pre_pitch_of (data : PyVal) (sid : string) : Calls * PyVal :=
  _execute_real_pre_pitch_async
    (snd (drivers_of data sid)) (snd (anti_of data sid)) data sid.
Definition predictions_of (data : PyVal) (sid : string) : Calls * PyVal :=
  _execute_real_future_predictions_async
    (snd (web_of data sid)) (snd (social_of data sid)) sid.
Definition competition_of (data : PyVal) (sid : string) : Calls * PyVal :=
  _execute_real_competition_analysis_async (snd (web_of data sid)) data sid.
Definition insights_of (data : PyVal) (sid : string) : Calls * PyVal :=
  _execute_real_insights_extraction_async
    (snd (web_of data sid)) (snd (social_of data sid)) sid.
Definition keywords_of (data : PyVal) (sid : string) : Calls * PyVal :=
  _execute_real_keywords_analysis_async
    (snd (web_of data sid)) (snd (avatar_of data sid)) sid.
Definition funnel_of (data : PyVal) (sid : string) : Calls * PyVal :=
  _execute_real_sales_funnel_async
    (snd (drivers_of data sid)) (snd (avatar_of data sid)) sid.

(** The dictionary handed to the consolidation step. *)
Definition complete_analysis_data (data : PyVal) (sid : string)
  : list (string * PyVal) :=
  consolidate sid data
    (snd (web_of data sid)) (snd (social_of data sid))
    (snd (avatar_of data sid)) (snd (drivers_of data sid))
    (snd (visual_of data sid)) (snd (anti_of data sid))
    (snd (pre_pitch_of data sid)) (snd (predictions_of data sid))
    (snd (competition_of data sid)) (snd (insights_of data sid))
    (snd (keywords_of data sid)) (snd (funnel_of data sid)).

Definition report_of (data : PyVal) (sid : string) : Calls * PyVal :=
  _generate_final_report_async (complete_analysis_data data sid) sid.

(** The thirteen progress announcements. *)
Definition progress_messages : list (Z * string) :=
  [ (1, "🔍 Executando pesquisa web massiva com dados reais...");
    (2, "📱 Analisando redes sociais com dados reais...");
    (3, "👤 Criando avatar ultra-detalhado com dados reais...");
    (4, "🧠 Gerando drivers mentais customizados com dados reais...");
    (5, "📸 Criando provas visuais com dados reais...");
    (6, "🛡️ Desenvolvendo sistema anti-objeção com dados reais...");
    (7, "🎯 Construindo pré-pitch invisível com dados reais...");
    (8, "🔮 Gerando predições futuras com dados reais...");
    (9, "⚔️ Analisando concorrência com dados reais...");
    (10, "💡 Extraindo insights exclusivos com dados reais...");
    (11, "🎯 Identificando palavras-chave estratégicas com dados reais...");
    (12, "🎢 Otimizando funil de vendas com dados reais...");
    (13, "📊 Gerando relatório final completo com dados reais...") ].

(** The stages of a run with what each one does. *)
Definition stage_outputs (data : PyVal) (sid : string)
  : list (Calls * PyVal) :=
  [ web_of data sid; social_of data sid; avatar_of data sid;
    drivers_of data sid; visual_of data sid; anti_of data sid;
    pre_pitch_of data sid; predictions_of data sid;
    competition_of data sid; insights_of data sid; keywords_of data sid;
    funnel_of data sid; report_of data sid ].

(** A run over given stage outputs: announce, run, go on. *)
Fixpoint replay (cb : option Callback) (announcements : list (Z * string))
  (outputs : list (Calls * PyVal)) (final : PyVal)
  : list Event * Exc PyVal :=
  match announcements, outputs with
  | (k, m) :: announcements', s :: outputs' =>
      phase cb k m s (fun _ => replay cb announcements' outputs' final)
  | _, _ => ([], Ok final)
  end.

(** The position of the first announcement on which the callback raises,
    with the text of the exception. *)
Fixpoint first_failure (callback : Callback)
  (announcements : list (Z * string)) : option (nat * string) :=
  match announcements with
  | [] => None
  | (k, m) :: rest =>
      match callback k m with
      | Raise e => Some (O, e)
      | Ok _ =>
          match first_failure callback rest with
          | Some (n, e) => Some (S n, e)
          | None => None
          end
      end
  end.

(** The callback, if there is one, returns on every announcement. *)
Definition quiet (cb : option Callback) : Prop :=
  match cb with
  | Some callback => first_failure callback progress_messages = None
  | None => True
  end.

(** Whether a callback was supplied. *)
Definition has_callback (cb : option Callback) : bool :=
  match cb with Some _ => true | None => false end.

(** Every stage in the trace comes right after the announcement of its
    step. *)
Fixpoint announced (trace : list Event) : bool :=
  match trace with
  | [] => true
  | Progress k _ :: rest =>
      match rest with
      | [] => true
      | Stage k' _ _ :: rest' => (k =? k') && announced rest'
      | Progress _ _ :: _ => false
      end
  | Stage _ _ _ :: _ => false
  end.

(** The trace of stages that all ran, with or without announcements. *)
Fixpoint full_trace (with_callback : bool) (announcements : list (Z * string))
  (outputs : list (Calls * PyVal)) : list Event :=
  match announcements, outputs with
  | (k, m) :: announcements', s :: outputs' =>
      (if with_callback then [Progress k m] else [])
      ++ Stage k (fst s) (snd s)
      :: full_trace with_callback announcements' outputs'
  | _, _ => []
  end.

(** [v.get('status')] of a stored stage result. *)
Definition status_of (v : option PyVal) : option PyVal :=
  match v with
  | Some (VDict d) => assoc_get "status" d
  | _ => None
  end.

End Pipeline.

End Orchestrator.


(** * The HTTP entry point ([routes/analysis.py], [analyze]) *)

Module AnalysisRoute.

(** A Flask response: the JSON body and the status code. *)
Record Response := mkResponse {
  body : PyVal;
  code : Z
}.

(** An entry of [active_sessions]; the ISO timestamps are left out. *)
Record Active := mkActive {
  session_status : string;
  session_data : PyVal;
  session_error : option string
}.

Section Analyze.
(** The orchestrator's parameters, and the identifier handed out by
    [auto_save_manager.iniciar_sessao()].  The other [auto_save_manager]
    calls ([salvar_etapa], [salvar_erro]) only persist data and are taken
    to return normally, so the progress callback built by [analyze] never
    raises. *)
Variable py_str : PyVal -> string.
Variable now_iso : string.
Variable reg : Orchestrator.Registry.
Variable iniciar_sessao : string.

Definition send_progress_update : Orchestrator.Callback :=
  fun _ _ => Ok tt.

(** What the view function leaves behind. *)
Record Result := mkResult {
  response : Response;
  active_sessions : gmap string Active;
  orchestrator : Orchestrator.State;
  trace : list Orchestrator.Event
}.

(** The part of the [try] block that follows the empty-body test: either a
    result, or the exception that reaches the [except] clause. *)
Definition analyze_body (data : PyVal) (t0 t1 : Z)
  (active : gmap string Active) (st : Orchestrator.State) : Exc Result :=
  let session_id := iniciar_sessao in
  match Py.get data "segmento" VNone with
  | Raise e => Raise e
  | Ok segmento_negocio =>
  match Py.get data "produto" VNone,
        Py.get data "publico_alvo" (VStr ""),
        Py.get data "objetivos_estrategicos" (VStr ""),
        Py.get data "contexto_adicional" (VStr "") with
  | Ok produto_servico, Ok publico_alvo, Ok objetivos_estrategicos,
    Ok contexto_adicional =>
      match Py.get data "query"
              (VStr ("mercado de "
                     +:+ py_str (Py.or_else produto_servico
                                            segmento_negocio)
                     +:+ " no brasil desde 2022")) with
      | Raise e => Raise e
      | Ok query =>
          let active1 :=
            <[session_id := mkActive "running" data None]> active in
          let analysis_data :=
            VDict [("segmento", segmento_negocio);
                   ("produto", produto_servico);
                   ("publico", publico_alvo);
                   ("objetivos", objetivos_estrategicos);
                   ("contexto", contexto_adicional);
                   ("query", query);
                   ("session_id", VStr session_id);
                   ("validation_mode", VStr "REAL_DATA_ONLY")] in
          if negb (Py.truthy segmento_negocio)
             || negb (Py.truthy produto_servico) then
            Ok (mkResult
                  (mkResponse
                     (VDict
                        [("success", VBool false);
                         ("error",
                          VStr "FALHA CRÍTICA: Segmento e Produto são obrigatórios para análise com dados reais");
                         ("session_id", VStr session_id)])
                     400)
                  active1 st [])
          else
            let '(st', events, resultado) :=
              Orchestrator.execute_synchronized_analysis
                py_str now_iso reg analysis_data session_id
                (Some send_progress_update) t0 t1 st in
            match Py.get resultado "success" (VBool false) with
            | Raise e => Raise e
            | Ok ok =>
                if negb (Py.truthy ok) then
                  match Py.get resultado "error"
                               (VStr "Erro desconhecido") with
                  | Raise e => Raise e
                  | Ok err =>
                      Ok (mkResult
                            (mkResponse
                               (VDict
                                  [("success", VBool false);
                                   ("error",
                                    VStr ("Falha na análise: "
                                          +:+ py_str err));
                                   ("session_id", VStr session_id);
                                   ("partial_data", resultado)])
                               500)
                            active1 st' events)
                  end
                else
                  match Py.get resultado "metadata" (VDict []) with
                  | Raise e => Raise e
                  | Ok metadata =>
                      match Py.get metadata "processing_time_formatted"
                                   (VStr "N/A") with
                      | Raise e => Raise e
                      | Ok processing_time =>
                          Ok (mkResult
                                (mkResponse
                                   (VDict
                                      [("success", VBool true);
                                       ("session_id", VStr session_id);
                                       ("message",
                                        VStr "Análise COMPLETA concluída com sucesso!");
                                       ("processing_time", processing_time);
                                       ("data", resultado)])
                                   200)
                                (<[session_id :=
                                     mkActive "completed" data None]>
                                   active1)
                                st' events)
                      end
                  end
            end
      end
  | Raise e, _, _, _ => Raise e
  | _, Raise e, _, _ => Raise e
  | _, _, Raise e, _ => Raise e
  | _, _, _, Raise e => Raise e
  end
  end.

(** [analyze] once [request.get_json()] has returned: [data] is the value
    it returned, [None] for the JSON text [null].  In the [except] clause a
    session that was never registered makes [active_sessions[session_id]]
    raise again, and Flask answers with its own error page. *)
Definition analyze (data : PyVal) (t0 t1 : Z)
  (active : gmap string Active) (st : Orchestrator.State) : Result :=
  if negb (Py.truthy data) then
    mkResult
      (mkResponse (VDict [("error", VStr "Dados não fornecidos")]) 400)
      active st []
  else
    match analyze_body data t0 t1 active st with
    | Ok r => r
    | Raise e =>
        let session_id := iniciar_sessao in
        if negb (String.eqb session_id "") then
          match active !! session_id with
          | Some a =>
              mkResult
                (mkResponse
                   (VDict
                      [("success", VBool false);
                       ("session_id", VStr session_id);
                       ("error", VStr e);
                       ("message",
                        VStr "Erro na análise. Dados intermediários foram salvos.")])
                   500)
                (<[session_id := mkActive "error" (session_data a) (Some e)]>
                   active)
                st []
          | None =>
              mkResult (mkResponse (VStr "Internal Server Error") 500)
                       active st []
          end
        else
          mkResult
            (mkResponse
               (VDict
                  [("success", VBool false);
                   ("session_id", VStr session_id);
                   ("error", VStr e);
                   ("message",
                    VStr "Erro na análise. Dados intermediários foram salvos.")])
               500)
            active st []
    end.

(** [analyze] from the request: [parsed] is what [request.get_json()]
    does, return the parsed body or raise, as it does on a request that
    carries no JSON body.  The call stands inside the [try] block, so the
    exception reaches the [except] clause; [session_id] is then not among
    the locals and [locals().get('session_id')] is [None]. *)
Definition analyze_request (parsed : Exc PyVal) (t0 t1 : Z)
  (active : gmap string Active) (st : Orchestrator.State) : Result :=
  match parsed with
  | Ok data => analyze data t0 t1 active st
  | Raise e =>
      mkResult
        (mkResponse
           (VDict
              [("success", VBool false);
               ("session_id", VNone);
               ("error", VStr e);
               ("message",
                VStr "Erro na análise. Dados intermediários foram salvos.")])
           500)
        active st []
  end.

(** The request has no usable [segmento] or no usable [produto]. *)
Definition lacks_mandatory (data : PyVal) : bool :=
  match Py.get data "segmento" VNone, Py.get data "produto" VNone with
  | Ok s, Ok p => negb (Py.truthy s) || negb (Py.truthy p)
  | _, _ => true
  end.

(** [body.get('success')] of a response. *)
Definition success_flag (r : Response) : option PyVal :=
  match body r with
  | VDict d => assoc_get "success" d
  | _ => None
  end.
End Analyze.

End AnalysisRoute.


(** * Scenarios used by the examples below *)

Module Scenario.

(** A deployment in which only the Gemini key is configured. *)
Definition gemini_only : AIManager.Providers :=
  AIManager.initialize_providers true false false false AIManager.init_table.

(** Gemini succeeds once when the clock reads 100 and fails twice much
    later, the second time when the clock reads 1000. *)
Definition gemini_outage : list (Z * AIManager.Call) :=
  [ (100, AIManager.RecordSuccess "gemini");
    (999, AIManager.RecordFailure "gemini") ;
    (1000, AIManager.RecordFailure "gemini") ].

(** Gemini fails twice without ever having succeeded. *)
Definition gemini_never_worked : list (Z * AIManager.Call) :=
  [ (999, AIManager.RecordFailure "gemini") ;
    (1000, AIManager.RecordFailure "gemini") ].

(** [n] consecutive [_record_failure] calls. *)
Definition fail_times (n : nat) (name : string) (ps : AIManager.Providers)
  : AIManager.Providers :=
  Nat.iter n (AIManager._record_failure name) ps.

(** A search hit, and an outside world in which Exa always times out
    while every other engine answers with that hit. *)
Definition hit : SearchManager.SearchResult :=
  SearchManager.mkResult "Mercado fitness" "https://example.com/fitness"
                         "resumo" "bing".

Definition exa_down : SearchManager.Backend :=
  fun name _ _ =>
    if String.eqb name "exa" then SearchManager.Raises "timeout"
    else SearchManager.Returns [hit].

Definition all_up : SearchManager.Backend :=
  fun _ _ _ => SearchManager.Returns [hit].

(** Stand-ins for the library functions of the search manager. *)
Definition plain_key (query : string) (max_results : Z) : string := query.
Definition any_url (u : string) : bool := true.
Definition keep_order (query : string)
  (l : list SearchManager.SearchResult) := l.
Definition no_strip (s : string) : string := s.

(** Three searches during the Exa outage, then searches once every engine
    answers again, much later. *)
Definition during_outage : list SearchManager.Op :=
  [ SearchManager.Search exa_down "mercado a" 10 0;
    SearchManager.Search exa_down "mercado b" 10 1;
    SearchManager.Search exa_down "mercado c" 10 2 ].

Definition after_outage : list SearchManager.Op :=
  [ SearchManager.Search all_up "mercado d" 10 90000;
    SearchManager.Comprehensive all_up "mercado d" 15;
    SearchManager.ClearCache;
    SearchManager.ResetErrors (Some "google");
    SearchManager.Search all_up "mercado e" 10 180000 ].

Definition search_run (st : SearchManager.State)
  (ops : list SearchManager.Op) : SearchManager.State * list string :=
  SearchManager.exec_all no_strip plain_key any_url keep_order st ops.

(** A stand-in for Python's [str] and for the report timestamp. *)
Definition show (v : PyVal) : string :=
  match v with
  | VStr s => s
  | VNone => "None"
  | VBool true => "True"
  | VBool false => "False"
  | _ => "?"
  end.

Definition timestamp : string := "2026-01-01T00:00:00".

(** The request of the spec's concrete scenario, as [analyze] hands it to
    the orchestrator. *)
Definition request : PyVal :=
  VDict [("segmento", VStr "fitness"); ("produto", VStr "coaching app");
         ("session_id", VStr "s1")].

(** No service could be imported. *)
Definition no_services : Orchestrator.Registry :=
  Orchestrator.mkRegistry ∅ ∅ None None.


(** Only the web researcher is registered; it answers with a count where a
    list of results is expected. *)
Definition odd_websailor : Orchestrator.Registry :=
  Orchestrator.mkRegistry
    {[ "websailor" ]}
    {[ "websailor" :=
         [("research",
           (fun _ _ => Ok (VDict [("status", VStr "success");
                                  ("processed_results", VInt 5)]))
           : Orchestrator.Method)] ]}
    None None.

(** A service whose table only contains [bar]. *)
Definition bar_only : Orchestrator.Registry :=
  Orchestrator.mkRegistry
    {[ "svc" ]}
    {[ "svc" := [("bar", (fun _ _ => Ok (VStr "done"))
                         : Orchestrator.Method)] ]}
    None None.

Definition fresh : Orchestrator.State := Orchestrator.mkState ∅ ∅.

(** A callback that raises on step [k] and returns on every other step. *)
Definition raises_at (k : Z) : Orchestrator.Callback :=
  fun step _ => if step =? k then Raise "callback failed" else Ok tt.

Definition returns_always : Orchestrator.Callback := fun _ _ => Ok tt.

(** A run of the spec's request, started at 0 and finished at 5. *)
Definition pipeline_run (reg : Orchestrator.Registry)
  (cb : option Orchestrator.Callback)
  : Orchestrator.State * list Orchestrator.Event * PyVal :=
  Orchestrator.execute_synchronized_analysis show timestamp reg request
                                             "s1" cb 0 5 fresh.

End Scenario.

(** * Further parts of the generation-provider registry *)

Module Health.

(** A table entry whose availability flag agrees with its failure counter:
    the limit is at least one, the counter is not negative, and a provider
    marked available is under its limit. *)
Definition sound (p : AIManager.Provider) : Prop :=
  1 <= AIManager.max_errors p /\
  0 <= AIManager.consecutive_failures p /\
  (AIManager.available p = true ->
   AIManager.consecutive_failures p < AIManager.max_errors p).

Definition well_formed (ps : AIManager.Providers) : Prop :=
  Forall (fun e => sound (snd e)) ps.

End Health.

(** ** Text generation with fallback ([generate_response] and its
       wrappers) *)

Module Generation.

(** The dictionary returned by [generate_response]; the failure
    dictionaries have no [provider] key. *)
Record Response := mkResponse {
  success : bool;
  content : string;
  provider : option string;
  error : option string
}.

Section Generate.
(** [str.strip], and the remote model behind each provider: for Gemini the
    text extracted from the answer of [client.generate_content], for the
    others what [_call_provider] returns; either may raise.  The arguments
    are the provider name, the prompt and the system prompt. *)
Variable strip : string -> string.
Variable remote : string -> string -> option string -> Exc string.

(** [content and len(content.strip()) > 0] *)
Definition has_text (content : string) : bool :=
  negb (String.eqb content "") && negb (String.eqb (strip content) "").

(** [self.providers.get(name, {}).get('available')] *)
Definition is_available (name : string) (ps : AIManager.Providers) : bool :=
  match assoc_get name ps with
  | Some p => AIManager.available p
  | None => false
  end.

(** [provider_info and provider_info.get('available') and
     provider_info.get('client')] *)
Definition is_ready (name : string) (ps : AIManager.Providers) : bool :=
  match assoc_get name ps with
  | Some p => AIManager.available p && AIManager.client p
  | None => false
  end.

Definition answer_of (name content : string) : Response :=
  mkResponse true content (Some name) None.

(** The loop over [fallback_order]: the table, the answer if one provider
    produced text, and the providers called. *)
Fixpoint try_fallbacks (order : list string) (prompt : string)
  (system_prompt : option string) (now : Z) (ps : AIManager.Providers)
  : AIManager.Providers * option Response * list string :=
  match order with
  | [] => (ps, None, [])
  | provider_name :: rest =>
      if is_ready provider_name ps then
        match remote provider_name prompt system_prompt with
        | Ok content =>
            if has_text content then
              (AIManager._record_success provider_name now ps,
               Some (answer_of provider_name content), [provider_name])
            else
              let '(ps', r, called) :=
                try_fallbacks rest prompt system_prompt now ps in
              (ps', r, provider_name :: called)
        | Raise _ =>
            let '(ps', r, called) :=
              try_fallbacks rest prompt system_prompt now
                            (AIManager._record_failure provider_name ps) in
            (ps', r, provider_name :: called)
        end
      else try_fallbacks rest prompt system_prompt now ps
  end.

(** The dictionary built by the outer [except] clause. *)
Definition failed (message : string) : Response :=
  mkResponse false ("Erro na geração de resposta: " +:+ message) None
             (Some message).

(** [generate_response], called when the clock reads [now]: the table, the
    returned dictionary and the providers called, in call order. *)
Definition generate_response (prompt : string)
  (system_prompt : option string) (now : Z) (ps : AIManager.Providers)
  : AIManager.Providers * Response * list string :=
  if String.eqb prompt "" then
    (ps,
     mkResponse false "Erro: prompt inválido" None
                (Some "Prompt inválido ou vazio"),
     [])
  else
    let '(ps1, primary, called1) :=
      if is_available "gemini" ps then
        match remote "gemini" prompt system_prompt with
        | Ok content =>
            if negb (String.eqb content "")
               && negb (String.eqb content "Erro na extração")
               && negb (String.eqb (strip content) "") then
              (AIManager._record_success "gemini" now ps,
               Some (answer_of "gemini" content), ["gemini"])
            else (AIManager._record_failure "gemini" ps, None, ["gemini"])
        | Raise _ => (AIManager._record_failure "gemini" ps, None, ["gemini"])
        end
      else (ps, None, []) in
    match primary with
    | Some r => (ps1, r, called1)
    | None =>
        let '(ps2, r, called2) :=
          try_fallbacks ["groq"; "openai"; "huggingface"] prompt
                        system_prompt now ps1 in
        (ps2,
         match r with
         | Some r => r
         | None => failed "Todos os provedores de IA falharam"
         end,
         called1 ++ called2)
    end.

(** [generate_analysis]: the generated text, or a message that starts with
    [Erro na geração]. *)
Definition generate_analysis (prompt : string)
  (system_prompt : option string) (now : Z) (ps : AIManager.Providers)
  : AIManager.Providers * string :=
  let '(ps', response_data, _) :=
    generate_response prompt system_prompt now ps in
  if success response_data then (ps', content response_data)
  else
    (ps',
     "Erro na geração: "
     +:+ match error response_data with
         | Some e => e
         | None => "Falha desconhecida"
         end).

End Generate.

End Generation.

(** ** Histories of the registry *)

Module Registry.

(** A call into the registry; [Generate] carries the behaviour of the
    remote models during that call. *)
Inductive Op :=
| Succeeded (name : string)
| Failed (name : string)
| Selected
| Reset (provider_name : option string)
| Generated (remote : string -> string -> option string -> Exc string)
            (prompt : string) (system_prompt : option string).

Section History.
Variables HAS_GEMINI HAS_GROQ_CLIENT HAS_OPENAI : bool.
Variable strip : string -> string.

(** The table after one call made when the clock reads [fst c]. *)
Definition apply (ps : AIManager.Providers) (c : Z * Op)
  : AIManager.Providers :=
  match snd c with
  | Succeeded name => AIManager._record_success name (fst c) ps
  | Failed name => AIManager._record_failure name ps
  | Selected =>
      fst (AIManager.get_best_provider HAS_GEMINI HAS_GROQ_CLIENT HAS_OPENAI
                                       (fst c) ps)
  | Reset r => AIManager.reset_provider_errors r ps
  | Generated remote prompt system_prompt =>
      fst (fst (Generation.generate_response strip remote prompt
                                             system_prompt (fst c) ps))
  end.

Definition history (ps : AIManager.Providers) (cs : list (Z * Op))
  : AIManager.Providers :=
  fold_left apply cs ps.
End History.

(** Whether [generate_response] would call the provider: Gemini needs the
    availability flag, the fallbacks need a client as well. *)
Definition eligible (ps : AIManager.Providers) (name : string) : bool :=
  if String.eqb name "gemini" then Generation.is_available name ps
  else Generation.is_ready name ps.

(** The order in which [generate_response] goes through the providers. *)
Definition generation_order : list string :=
  ["gemini"; "groq"; "openai"; "huggingface"].

(** A remote world in which every model is down. *)
Definition outage : string -> string -> option string -> Exc string :=
  fun _ _ _ => Raise "connection refused".

(** A remote world in which every model answers. *)
Definition healthy : string -> string -> option string -> Exc string :=
  fun name _ _ => Ok ("resposta de " +:+ name).

Definition no_strip (s : string) : string := s.

End Registry.

(** * Further parts of the search manager *)

Module Dedup.

(** [s.split(c)[0]]: the part of [s] before the first [c]. *)
Fixpoint before (c : Ascii.ascii) (s : string) : string :=
  match s with
  | EmptyString => EmptyString
  | String a s' =>
      if Ascii.eqb a c then EmptyString else String a (before c s')
  end.

(** [url.split('?')[0].split('#')[0]] *)
Definition normalized (u : string) : string :=
  before "#"%char (before "?"%char u).

Section Dedup.
(** [str.lower] and [str.strip]. *)
Variable lower : string -> string.
Variable strip : string -> string.

(** [result.get('url', '').lower().strip()] *)
Definition address (r : SearchManager.SearchResult) : string :=
  strip (lower (SearchManager.url r)).

(** The loop of [_remove_duplicates_advanced] over the remaining results,
    with the set [seen_urls] built so far. *)
Fixpoint keep_new (seen_urls : gset string)
  (results : list SearchManager.SearchResult)
  : list SearchManager.SearchResult :=
  match results with
  | [] => []
  | result :: rest =>
      let u := address result in
      if negb (String.eqb u "") && negb (bool_decide (u ∈ seen_urls))
         && negb (bool_decide (normalized u ∈ seen_urls)) then
        result :: keep_new ({[u]} ∪ ({[normalized u]} ∪ seen_urls)) rest
      else keep_new seen_urls rest
  end.

(** [_remove_duplicates_advanced] *)
Definition _remove_duplicates_advanced
  (results : list SearchManager.SearchResult)
  : list SearchManager.SearchResult :=
  keep_new ∅ results.
End Dedup.

End Dedup.

(** * Session bookkeeping of the orchestrator and of the routes *)

Module Sessions.
Import Orchestrator.

(** [needle in hay] on strings. *)
Fixpoint contains (needle hay : string) : bool :=
  String.prefix needle hay ||
  match hay with
  | EmptyString => false
  | String _ hay' => contains needle hay'
  end.

Section Progress.
(** The float computation [min(elapsed / 600 * 100, 95)] on the seconds
    elapsed, and the text [f'Processando... ({progress:.0f}%)']. *)
Variable percentage : Z -> PyVal.
Variable step_text : PyVal -> string.

(** [get_session_progress], called when the clock reads [now].  A stored
    session is a non-empty dictionary, hence truthy. *)
Definition get_session_progress (session_id : string) (now : Z) (st : State)
  : option PyVal :=
  match execution_state st !! session_id with
  | None => None
  | Some session_state =>
      if String.eqb (status session_state) "running" then
        let progress := percentage (now - start_time session_state) in
        Some (VDict [("completed", VBool false);
                     ("percentage", progress);
                     ("current_step", VStr (step_text progress))])
      else if String.eqb (status session_state) "completed" then
        Some (VDict [("completed", VBool true); ("percentage", VInt 100)])
      else None
  end.
End Progress.

(** [reset_session]: the state and the returned flag. *)
Definition reset_session (session_id : string) (st : State) : State * bool :=
  (mkState
     (delete session_id (execution_state st))
     (filter (fun kv => contains session_id (fst kv) = false)
             (_global_recursion_depth st)),
   true).

(** [emergency_reset] *)
Definition emergency_reset (st : State) : State * bool :=
  (mkState ∅ ∅, true).

End Sessions.

(** The pause and resume routes of [routes/analysis.py]; [salvar_etapa] is
    taken to return normally, as in [analyze]. *)
Module SessionRoutes.
Import AnalysisRoute.

Definition set_status (text : string) (session : Active) : Active :=
  mkActive text (session_data session) (session_error session).

(** [pause_session] *)
Definition pause_session (session_id : string)
  (active_sessions : gmap string Active) : Response * gmap string Active :=
  match active_sessions !! session_id with
  | None =>
      (mkResponse (VDict [("error", VStr "Sessão não encontrada")]) 404,
       active_sessions)
  | Some session =>
      if negb (String.eqb (session_status session) "running") then
        (mkResponse (VDict [("error", VStr "Sessão não está em execução")])
                    400,
         active_sessions)
      else
        (mkResponse
           (VDict [("success", VBool true);
                   ("message", VStr "Sessão pausada com sucesso");
                   ("session_id", VStr session_id);
                   ("status", VStr "paused")])
           200,
         <[session_id := set_status "paused" session]> active_sessions)
  end.

(** [resume_session] *)
Definition resume_session (session_id : string)
  (active_sessions : gmap string Active) : Response * gmap string Active :=
  match active_sessions !! session_id with
  | None =>
      (mkResponse (VDict [("error", VStr "Sessão não encontrada")]) 404,
       active_sessions)
  | Some session =>
      if negb (String.eqb (session_status session) "paused") then
        (mkResponse (VDict [("error", VStr "Sessão não está pausada")]) 400,
         active_sessions)
      else
        (mkResponse
           (VDict [("success", VBool true);
                   ("message", VStr "Sessão resumida com sucesso");
                   ("session_id", VStr session_id);
                   ("status", VStr "running")])
           200,
         <[session_id := set_status "running" session]> active_sessions)
  end.

End SessionRoutes.

(** * What a stage hands on *)

Module Shape.
Import Orchestrator.

(** The computation raises, or returns a value for which [P] holds. *)
Definition yields {A} (P : A -> Prop) (m : Comp A) : Prop :=
  match snd m with
  | Ok a => P a
  | Raise _ => True
  end.

(** Nothing, or a dictionary. *)
Definition dict_if_any (o : option PyVal) : Prop :=
  match o with
  | Some r => Py.is_dict r = true
  | None => True
  end.

Definition is_dictionary (v : PyVal) : Prop := Py.is_dict v = true.

Definition is_truthy (v : PyVal) : Prop := Py.truthy v = true.



End Shape.

(** * The registered services as the router sees them *)

Module Interfaces.
Import Orchestrator.

(** An attribute of a service instance: a bound method or a data
    attribute. *)
Inductive Attribute :=
| Callable (method : Method)
| Data.

(** What [dir(service_instance)] lists, in its order, with what [getattr]
    finds.  The attributes inherited from [object] all start with an
    underscore and are left out. *)
Definition Instance := list (string * Attribute).

(** [not method.startswith('_') and callable(getattr(service_instance,
    method))] *)
Definition public_method (entry : string * Attribute)
  : list (string * Method) :=
  match snd entry with
  | Callable method =>
      if String.prefix "_" (fst entry) then [] else [(fst entry, method)]
  | Data => []
  end.

Definition table_of (service_instance : Instance) : Table :=
  flat_map public_method service_instance.

(** [_map_service_methods] *)
Definition _map_service_methods (service_name : string)
  (service_instance : Instance) (reg : Registry) : Registry :=
  mkRegistry (services reg)
             (<[service_name := table_of service_instance]>
                (service_methods reg))
             (perform_search reg) (enhanced_social_search reg).

(** [self.services[name] = instance] followed by
    [self._map_service_methods(name, instance)], as
    [_initialize_services] does for each imported service. *)
Definition register (service_name : string) (service_instance : Instance)
  (reg : Registry) : Registry :=
  _map_service_methods service_name service_instance
    (mkRegistry ({[service_name]} ∪ services reg) (service_methods reg)
                (perform_search reg) (enhanced_social_search reg)).

(** The [AIManager] instance of [services/ai_manager.py]; [body] gives the
    behaviour of each method. *)
Definition ai_manager (body : string -> Method) : Instance :=
  [ ("_call_provider", Callable (body "_call_provider"));
    ("_extract_text_from_gemini_response",
     Callable (body "_extract_text_from_gemini_response"));
    ("_generate_with_gemini", Callable (body "_generate_with_gemini"));
    ("_generate_with_groq", Callable (body "_generate_with_groq"));
    ("_generate_with_huggingface",
     Callable (body "_generate_with_huggingface"));
    ("_generate_with_openai", Callable (body "_generate_with_openai"));
    ("_record_failure", Callable (body "_record_failure"));
    ("_record_success", Callable (body "_record_success"));
    ("generate_analysis", Callable (body "generate_analysis"));
    ("generate_content", Callable (body "generate_content"));
    ("generate_response", Callable (body "generate_response"));
    ("gerar_resposta_inteligente",
     Callable (body "gerar_resposta_inteligente"));
    ("get_best_provider", Callable (body "get_best_provider"));
    ("get_provider_status", Callable (body "get_provider_status"));
    ("initialize_providers", Callable (body "initialize_providers"));
    ("providers", Data);
    ("reset_provider_errors", Callable (body "reset_provider_errors")) ].

(** The [AntiObjectionSystem] instance of
    [services/anti_objection_system.py]. *)
Definition anti_objection (body : string -> Method) : Instance :=
  [ ("_analisar_perfil_psicologico",
     Callable (body "_analisar_perfil_psicologico"));
    ("_create_fallback_system", Callable (body "_create_fallback_system"));
    ("_criar_arsenal_drivers_mentais",
     Callable (body "_criar_arsenal_drivers_mentais"));
    ("_criar_kit_emergencia", Callable (body "_criar_kit_emergencia"));
    ("_criar_resumo_executivo", Callable (body "_criar_resumo_executivo"));
    ("_criar_sistema_implementacao",
     Callable (body "_criar_sistema_implementacao"));
    ("_definir_metricas_eficacia",
     Callable (body "_definir_metricas_eficacia"));
    ("_diagnosticar_objecoes", Callable (body "_diagnosticar_objecoes"));
    ("create_comprehensive_anti_objection_system",
     Callable (body "create_comprehensive_anti_objection_system"));
    ("create_objection_neutralization_system",
     Callable (body "create_objection_neutralization_system"));
    ("criar_sistema_anti_objecao",
     Callable (body "criar_sistema_anti_objecao"));
    ("generate_anti_objection_system",
     Callable (body "generate_anti_objection_system"));
    ("objecoes_universais", Data) ].

(** Every router call recorded by a computation satisfies [P]. *)
Definition calls_within {A} (P : string * string -> Prop) (m : Comp A)
  : Prop :=
  Forall P (fst m).

(** A deployment whose mental-drivers service answers with a text. *)
Definition text_drivers : Registry :=
  register "mental_drivers"
    [("generate_drivers",
      Callable (fun _ _ => Ok (VStr "cinco drivers")))]
    (mkRegistry ∅ ∅ None None).

(** A deployment with the two services above, every method of which
    answers with a successful dictionary. *)
Definition agreeable : string -> Method :=
  fun _ _ _ => Ok (VDict [("status", VStr "success")]).

Definition both_services : Registry :=
  register "anti_objection" (anti_objection agreeable)
    (register "ai_manager" (ai_manager agreeable)
       (mkRegistry ∅ ∅ None None)).

End Interfaces.

(** * Facts about association lists *)

Section AssocFacts.
Context {V : Type}.
Implicit Types (d : list (string * V)) (k : string).

Lemma assoc_get_update_eq k (f : V -> V) d :
  assoc_get k (assoc_update k f d) = option_map f (assoc_get k d).
Proof.
  induction d as [|[k' v] d IH]; simpl; [reflexivity|].
  destruct (String.eqb k' k); [reflexivity|exact IH].
Qed.

Lemma assoc_get_update_ne k k' (f : V -> V) d :
  k <> k' -> assoc_get k' (assoc_update k f d) = assoc_get k' d.
Proof.
  intros Hne. induction d as [|[k0 v] d IH]; simpl; [reflexivity|].
  destruct (String.eqb_spec k0 k'); [|exact IH].
  subst k0. destruct (String.eqb_spec k' k); [congruence|reflexivity].
Qed.

Lemma assoc_get_map k (f : string -> V -> V) d :
  assoc_get k (assoc_map f d) = option_map (f k) (assoc_get k d).
Proof.
  induction d as [|[k' v] d IH]; simpl; [reflexivity|].
  destruct (String.eqb_spec k' k); [subst; reflexivity|exact IH].
Qed.

Lemma assoc_map_In (f : string -> V -> V) d k v :
  In (k, v) (assoc_map f d) -> exists v0, In (k, v0) d /\ v = f k v0.
Proof.
  unfold assoc_map. rewrite in_map_iff. intros [[k0 v0] [Heq Hin]].
  simpl in Heq. inversion Heq; subst. eauto.
Qed.

Lemma In_assoc_map (f : string -> V -> V) d k v :
  In (k, v) d -> In (k, f k v) (assoc_map f d).
Proof.
  intros Hin. unfold assoc_map. apply in_map_iff. exists (k, v). auto.
Qed.
End AssocFacts.

(** * The generation-provider registry *)

Section AIManagerFacts.
Import AIManager.
Variables HAS_GEMINI HAS_GROQ_CLIENT HAS_OPENAI : bool.

Local Abbreviation select := (get_best_provider HAS_GEMINI HAS_GROQ_CLIENT
                                            HAS_OPENAI).
Local Abbreviation reprobed now ps :=
  (assoc_map (reprobe HAS_GEMINI HAS_GROQ_CLIENT HAS_OPENAI now) ps).

(** Sorting keeps the candidates. *)
Lemma insert_sorted_nonempty x l : insert_sorted x l <> [].
Proof. destruct l as [|y l]; simpl; [|destruct (key_le x y)]; discriminate. Qed.

Lemma sort_providers_nil l : sort_providers l = [] <-> l = [].
Proof.
  destruct l as [|x l]; simpl; [tauto|].
  split; [|discriminate].
  intros H. exfalso. exact (insert_sorted_nonempty _ _ H).
Qed.

Lemma filter_nil_iff {A} (f : A -> bool) (l : list A) :
  List.filter f l = [] <-> forall x, In x l -> f x = false.
Proof.
  induction l as [|a l IH]; simpl.
  - split; [intros _ x []|reflexivity].
  - destruct (f a) eqn:Ha.
    + split; [discriminate|]. intros H. specialize (H a (or_introl eq_refl)).
      congruence.
    + rewrite IH. split.
      * intros H x [->|Hx]; auto.
      * intros H x Hx. apply H. auto.
Qed.

(** The table left by [get_best_provider]. *)
Lemma select_table now ps :
  fst (select now ps) =
  match List.filter (fun e => usable (snd e)) (reprobed now ps) with
  | [] => assoc_map (fun _ p => zero_counters p) (reprobed now ps)
  | _ => reprobed now ps
  end.
Proof.
  unfold get_best_provider.
  destruct (List.filter _ (reprobed now ps)) as [|c cs].
  - destruct (sort_providers _); reflexivity.
  - destruct (sort_providers _); reflexivity.
Qed.

(** The name returned after a global reset. *)
Lemma select_after_reset now ps :
  List.filter (fun e => usable (snd e)) (reprobed now ps) = [] ->
  (snd (select now ps) = None <->
   List.filter (fun e => available (snd e))
     (assoc_map (fun _ p => zero_counters p) (reprobed now ps)) = []).
Proof.
  intros Hnone. unfold get_best_provider. rewrite Hnone.
  destruct (sort_providers _) as [|e l] eqn:Hs.
  - apply (proj1 (sort_providers_nil _)) in Hs. simpl. split; [intros _; exact Hs|reflexivity].
  - simpl. split; [discriminate|]. intros H. rewrite H in Hs. discriminate.
Qed.

Lemma insert_sorted_In x y l : In x (insert_sorted y l) -> x = y \/ In x l.
Proof.
  induction l as [|z l IH]; simpl.
  - intros [->|[]]. auto.
  - destruct (key_le y z); simpl.
    + intros [->|[->|H]]; auto.
    + intros [->|H]; auto. destruct (IH H); auto.
Qed.

Lemma sort_providers_In x l : In x (sort_providers l) -> In x l.
Proof.
  induction l as [|y l IH]; simpl; [tauto|].
  intros H. destruct (insert_sorted_In _ _ _ H) as [->|H']; auto.
Qed.

(** A name returned by [get_best_provider] belongs to an available entry
    of the table it leaves. *)
Lemma select_some_available now ps name :
  snd (select now ps) = Some name ->
  exists p, In (name, p) (fst (select now ps)) /\ available p = true.
Proof.
  unfold get_best_provider.
  destruct (List.filter (fun e => usable (snd e)) (reprobed now ps))
    as [|c cs] eqn:Hf.
  - destruct (sort_providers _) as [|[n p] l] eqn:Hs; simpl; [discriminate|].
    intros [= <-].
    assert (Hin : In (n, p) (sort_providers
      (List.filter (fun e => available (snd e))
         (assoc_map (fun _ q => zero_counters q) (reprobed now ps))))).
    { rewrite Hs. left. reflexivity. }
    apply sort_providers_In, filter_In in Hin. destruct Hin as [Hin Hav].
    exists p. auto.
  - destruct (sort_providers (c :: cs)) as [|[n p] l] eqn:Hs; simpl;
      [discriminate|].
    intros [= <-].
    assert (Hin : In (n, p) (sort_providers (c :: cs))).
    { rewrite Hs. left. reflexivity. }
    apply sort_providers_In in Hin. rewrite <- Hf in Hin.
    apply filter_In in Hin. destruct Hin as [Hin Hus].
    exists p. split; [exact Hin|].
    unfold usable in Hus. simpl in Hus.
    apply andb_true_iff in Hus. tauto.
Qed.

(** C1 (amended).  When, after the re-probing step, no provider is both
    available and under its failure threshold, [get_best_provider] zeroes
    [error_count] and [consecutive_failures] of every provider; it then
    returns [None] exactly when no provider is marked available, and a
    returned name always belongs to a provider marked available. *)
Theorem global_reset_zeroes_counters now ps :
  List.filter (fun e => usable (snd e)) (reprobed now ps) = [] ->
  (forall name p, In (name, p) (fst (select now ps)) ->
     error_count p = 0 /\ consecutive_failures p = 0) /\
  (snd (select now ps) = None <->
   forall name p, In (name, p) (reprobed now ps) -> available p = false) /\
  (forall name, snd (select now ps) = Some name ->
     exists p, In (name, p) (fst (select now ps)) /\ available p = true).
Proof.
  intros Hnone. split; [|split].
  - intros name p Hin. rewrite select_table, Hnone in Hin.
    apply assoc_map_In in Hin. destruct Hin as [p0 [_ ->]]. auto.
  - rewrite (select_after_reset now ps Hnone), filter_nil_iff. split.
    + intros H name p Hin.
      apply (In_assoc_map (fun _ q => zero_counters q)) in Hin.
      exact (H _ Hin).
    + intros H [name p] Hin. apply assoc_map_In in Hin.
      destruct Hin as [p0 [Hin ->]]. simpl. exact (H _ _ Hin).
  - intros name. apply select_some_available.
Qed.

(** ** The failure counter *)

Lemma iter_fail_counter k p :
  consecutive_failures (Nat.iter k fail_provider p) =
    consecutive_failures p + Z.of_nat k /\
  max_errors (Nat.iter k fail_provider p) = max_errors p.
Proof.
  induction k as [|k [IHc IHm]]; [simpl; split; lia|].
  rewrite Nat.iter_succ. unfold fail_provider at 1 3. simpl.
  rewrite IHc, IHm. split; lia.
Qed.

Lemma iter_fail_available k p :
  available (Nat.iter k fail_provider p) =
  if (1 <=? Z.of_nat k) && (max_errors p <=? consecutive_failures p + Z.of_nat k)
  then false else available p.
Proof.
  induction k as [|k IH]; [reflexivity|].
  rewrite Nat.iter_succ. unfold fail_provider at 1. simpl available.
  destruct (iter_fail_counter k p) as [Hc Hm]. rewrite Hc, Hm, IH.
  replace (1 <=? Z.of_nat (S k)) with true by (symmetry; apply Z.leb_le; lia).
  simpl andb.
  destruct (Z.leb_spec (max_errors p)
              (consecutive_failures p + Z.of_nat k + 1)) as [H|H].
  - replace (max_errors p <=? consecutive_failures p + Z.of_nat (S k))
      with true by (symmetry; apply Z.leb_le; lia).
    reflexivity.
  - replace (max_errors p <=? consecutive_failures p + Z.of_nat (S k))
      with false by (symmetry; apply Z.leb_gt; lia).
    replace (max_errors p <=? consecutive_failures p + Z.of_nat k)
      with false by (symmetry; apply Z.leb_gt; lia).
    rewrite andb_false_r. reflexivity.
Qed.

Lemma fail_times_get k name ps :
  assoc_get name (Scenario.fail_times k name ps) =
  option_map (Nat.iter k fail_provider) (assoc_get name ps).
Proof.
  unfold Scenario.fail_times. induction k as [|k IH].
  - simpl. destruct (assoc_get name ps); reflexivity.
  - rewrite Nat.iter_succ. unfold _record_failure at 1.
    rewrite assoc_get_update_eq, IH.
    destruct (assoc_get name ps); reflexivity.
Qed.

(** C5.  A provider that is available with no consecutive failure stays
    available through fewer than [max_errors] consecutive
    [_record_failure] calls and is unavailable after exactly [max_errors]
    of them; one [_record_success] then makes it available again, zeroes
    [consecutive_failures] and stores the current time in
    [last_success]. *)
Theorem failures_disable_success_restores ps name p now :
  assoc_get name ps = Some p ->
  available p = true ->
  consecutive_failures p = 0 ->
  1 <= max_errors p ->
  (forall k, Z.of_nat k < max_errors p ->
     exists q, assoc_get name (Scenario.fail_times k name ps) = Some q /\
               available q = true /\ consecutive_failures q = Z.of_nat k) /\
  (exists q,
     assoc_get name
       (Scenario.fail_times (Z.to_nat (max_errors p)) name ps) = Some q /\
     available q = false /\ consecutive_failures q = max_errors p) /\
  (exists r,
     assoc_get name
       (_record_success name now
          (Scenario.fail_times (Z.to_nat (max_errors p)) name ps)) = Some r /\
     available r = true /\ consecutive_failures r = 0 /\
     last_success r = Some now).
Proof.
  intros Hget Hav Hc Hmax. split; [|split].
  - intros k Hk. exists (Nat.iter k fail_provider p).
    rewrite fail_times_get, Hget. split; [reflexivity|].
    rewrite iter_fail_available, Hav, Hc.
    destruct (iter_fail_counter k p) as [-> _]. rewrite Hc.
    replace (max_errors p <=? 0 + Z.of_nat k)
      with false by (symmetry; apply Z.leb_gt; lia).
    rewrite andb_false_r. split; [reflexivity|lia].
  - exists (Nat.iter (Z.to_nat (max_errors p)) fail_provider p).
    rewrite fail_times_get, Hget. split; [reflexivity|].
    rewrite iter_fail_available, Hc.
    destruct (iter_fail_counter (Z.to_nat (max_errors p)) p) as [-> _].
    rewrite Hc, Z2Nat.id by lia.
    replace (1 <=? max_errors p) with true by (symmetry; apply Z.leb_le; lia).
    replace (max_errors p <=? 0 + max_errors p)
      with true by (symmetry; apply Z.leb_le; lia).
    split; [reflexivity|lia].
  - unfold _record_success. rewrite assoc_get_update_eq, fail_times_get, Hget.
    simpl. eexists. split; [reflexivity|]. simpl. auto.
Qed.

(** ** The cooldown *)

Lemma reprobe_due_iff now p :
  reprobe_due now p = true <->
  available p = false /\
  exists t, last_success p = Some t /\ t <> 0 /\ t + 300 < now.
Proof.
  unfold reprobe_due, truthy_time.
  destruct (available p), (last_success p) as [t|]; simpl.
  - split; [discriminate|intros [? _]; discriminate].
  - split; [discriminate|intros [? _]; discriminate].
  - destruct (Z.eqb_spec t 0) as [Ht|Ht]; simpl.
    + split; [discriminate|]. intros [_ [t' [[= <-] [Hne _]]]]. contradiction.
    + destruct (Z.ltb_spec 300 (now - t)) as [Hlt|Hge].
      * split; [|reflexivity]. intros _. split; [reflexivity|].
        exists t. repeat split; [exact Ht|lia].
      * split; [discriminate|]. intros [_ [t' [[= <-] [_ Hlt]]]]. lia.
  - split; [discriminate|]. intros [_ [t [? _]]]. discriminate.
Qed.

Lemma reprobe_effect now name p :
  last_success (reprobe HAS_GEMINI HAS_GROQ_CLIENT HAS_OPENAI now name p)
    = last_success p /\
  (reprobe_due now p = true ->
     let q := reprobe HAS_GEMINI HAS_GROQ_CLIENT HAS_OPENAI now name p in
     consecutive_failures q = 0 /\ error_count q = 0 /\
     available q =
       library_present HAS_GEMINI HAS_GROQ_CLIENT HAS_OPENAI name) /\
  (reprobe_due now p = false ->
     reprobe HAS_GEMINI HAS_GROQ_CLIENT HAS_OPENAI now name p = p).
Proof.
  unfold reprobe. destruct (reprobe_due now p) eqn:Hdue.
  - apply reprobe_due_iff in Hdue. destruct Hdue as [Hav _].
    destruct (library_present _ _ _ name); simpl;
      (split; [reflexivity|]); (split; [|discriminate]); intros _; auto.
  - split; [reflexivity|]. split; [discriminate|reflexivity].
Qed.

(** C6 (amended).  [get_best_provider] re-probes a provider exactly when
    it is unavailable and its last recorded success is set and more than
    300 seconds old; the time at which it was disabled is not recorded and
    plays no part.  A re-probed provider has both failure counters zeroed
    and is switched back on when its client library was imported; the
    availability of any other provider is left as it was. *)
Theorem reprobe_measured_from_last_success now ps name p :
  assoc_get name ps = Some p ->
  (reprobe_due now p = true <->
   available p = false /\
   exists t, last_success p = Some t /\ t <> 0 /\ t + 300 < now) /\
  exists p',
    assoc_get name (fst (select now ps)) = Some p' /\
    last_success p' = last_success p /\
    (reprobe_due now p = true ->
       consecutive_failures p' = 0 /\ error_count p' = 0 /\
       available p' =
         library_present HAS_GEMINI HAS_GROQ_CLIENT HAS_OPENAI name) /\
    (reprobe_due now p = false -> available p' = available p).
Proof.
  intros Hget. split; [apply reprobe_due_iff|].
  destruct (reprobe_effect now name p) as [Hls [Hdue Hnot]].
  rewrite select_table.
  destruct (List.filter _ (reprobed now ps)).
  - rewrite !assoc_get_map, Hget. simpl. eexists. split; [reflexivity|].
    simpl. split; [exact Hls|]. split.
    + intros H. destruct (Hdue H) as [_ [_ Hav]]. auto.
    + intros H. rewrite (Hnot H). reflexivity.
  - rewrite assoc_get_map, Hget. simpl. eexists. split; [reflexivity|].
    split; [exact Hls|]. split.
    + exact Hdue.
    + intros H. rewrite (Hnot H). reflexivity.
Qed.

End AIManagerFacts.

(** The premise of C1 holds in a deployment whose only configured provider
    has just failed twice. *)
Lemma global_reset_zeroes_counters_witness :
  let ps := Scenario.fail_times 2 "gemini" Scenario.gemini_only in
  (forall name p,
     In (name, p) (fst (AIManager.get_best_provider true true true 1000 ps)) ->
     AIManager.error_count p = 0 /\ AIManager.consecutive_failures p = 0) /\
  (snd (AIManager.get_best_provider true true true 1000 ps) = None <->
   forall name p,
     In (name, p)
        (assoc_map (AIManager.reprobe true true true 1000) ps) ->
     AIManager.available p = false) /\
  (forall name,
     snd (AIManager.get_best_provider true true true 1000 ps) = Some name ->
     exists p,
       In (name, p)
          (fst (AIManager.get_best_provider true true true 1000 ps)) /\
       AIManager.available p = true).
Proof.
  exact (global_reset_zeroes_counters true true true 1000
           (Scenario.fail_times 2 "gemini" Scenario.gemini_only) eq_refl).
Defined.

(** C1 as stated fails.  With four registered providers none of which was
    ever configured, and likewise once the only configured provider has
    failed twice, no provider is both available and under its threshold;
    the reset leaves every provider unavailable and [get_best_provider]
    returns [None], then and at every later call. *)
Lemma global_reset_does_not_revive :
  (List.filter (fun e => AIManager.usable (snd e))
     (assoc_map (AIManager.reprobe true true true 1000)
                AIManager.init_table) = [] /\
   snd (AIManager.get_best_provider true true true 1000
          AIManager.init_table) = None /\
   forall later,
     snd (AIManager.get_best_provider true true true later
            (fst (AIManager.get_best_provider true true true 1000
                    AIManager.init_table))) = None) /\
  (let ps := Scenario.fail_times 2 "gemini" Scenario.gemini_only in
   List.filter (fun e => AIManager.usable (snd e))
     (assoc_map (AIManager.reprobe true true true 1000) ps) = [] /\
   snd (AIManager.get_best_provider true true true 1000 ps) = None /\
   option_map AIManager.available
     (assoc_get "gemini"
        (fst (AIManager.get_best_provider true true true 1000 ps)))
     = Some false /\
   forall later,
     snd (AIManager.get_best_provider true true true later
            (fst (AIManager.get_best_provider true true true 1000 ps)))
     = None).
Proof.
  repeat split; intros; reflexivity.
Qed.

(** C5 at Gemini's configured threshold of two failures. *)
Lemma failures_disable_success_restores_witness :
  (forall k, Z.of_nat k < 2 ->
     exists q,
       assoc_get "gemini"
         (Scenario.fail_times k "gemini" Scenario.gemini_only) = Some q /\
       AIManager.available q = true /\
       AIManager.consecutive_failures q = Z.of_nat k) /\
  (exists q,
     assoc_get "gemini"
       (Scenario.fail_times 2 "gemini" Scenario.gemini_only) = Some q /\
     AIManager.available q = false /\
     AIManager.consecutive_failures q = 2) /\
  (exists r,
     assoc_get "gemini"
       (AIManager._record_success "gemini" 777
          (Scenario.fail_times 2 "gemini" Scenario.gemini_only)) = Some r /\
     AIManager.available r = true /\
     AIManager.consecutive_failures r = 0 /\
     AIManager.last_success r = Some 777).
Proof.
  refine (failures_disable_success_restores Scenario.gemini_only "gemini"
            (AIManager.mkProvider true true 1 0 2 None 0) 777
            eq_refl eq_refl eq_refl _).
  simpl. lia.
Defined.

(** C6 at a provider that succeeded at 100 and was disabled at 1000. *)
Lemma reprobe_measured_from_last_success_witness :
  let ps := AIManager.run true true true Scenario.gemini_only
                          Scenario.gemini_outage in
  let p := AIManager.mkProvider true false 1 2 2 (Some 100) 2 in
  (AIManager.reprobe_due 1001 p = true <->
   AIManager.available p = false /\
   exists t, AIManager.last_success p = Some t /\ t <> 0 /\ t + 300 < 1001) /\
  exists p',
    assoc_get "gemini"
      (fst (AIManager.get_best_provider true true true 1001 ps)) = Some p' /\
    AIManager.last_success p' = AIManager.last_success p /\
    (AIManager.reprobe_due 1001 p = true ->
       AIManager.consecutive_failures p' = 0 /\
       AIManager.error_count p' = 0 /\
       AIManager.available p' =
         AIManager.library_present true true true "gemini") /\
    (AIManager.reprobe_due 1001 p = false ->
       AIManager.available p' = AIManager.available p).
Proof.
  exact (reprobe_measured_from_last_success true true true 1001
           (AIManager.run true true true Scenario.gemini_only
                          Scenario.gemini_outage)
           "gemini" (AIManager.mkProvider true false 1 2 2 (Some 100) 2)
           eq_refl).
Defined.

(** C6 as stated fails.  Gemini, disabled when the clock reads 1000, is
    switched back on by a selection made one second later, because its last
    success is more than 300 seconds old; and a provider that was disabled
    without ever having succeeded is not re-probed however long one
    waits. *)
Lemma cooldown_not_counted_from_disabling :
  let before := AIManager.run true true true Scenario.gemini_only
                  (firstn 2 Scenario.gemini_outage) in
  let disabled := AIManager.run true true true Scenario.gemini_only
                    Scenario.gemini_outage in
  let never := AIManager.run true true true Scenario.gemini_only
                 Scenario.gemini_never_worked in
  option_map AIManager.available (assoc_get "gemini" before) = Some true /\
  option_map AIManager.available (assoc_get "gemini" disabled) = Some false /\
  1001 < 1000 + 300 /\
  option_map AIManager.available
    (assoc_get "gemini"
       (AIManager.run true true true disabled [(1001, AIManager.SelectBest)]))
    = Some true /\
  option_map AIManager.available (assoc_get "gemini" never) = Some false /\
  forall later,
    option_map AIManager.available
      (assoc_get "gemini"
         (AIManager.run true true true never [(later, AIManager.SelectBest)]))
    = Some false.
Proof.
  repeat split; intros; reflexivity.
Qed.

(** * The result cache *)

Section CacheFacts.
Import SearchManager.
Implicit Types (c : gmap string CacheEntry) (k : string).

Lemma get_after_save c k v prov t0 now :
  now - t0 < cache_ttl ->
  _get_from_cache k now (_save_to_cache k v prov t0 c) =
  (_save_to_cache k v prov t0 c, Some v).
Proof.
  intros Hfresh. unfold _get_from_cache, _save_to_cache.
  rewrite lookup_insert_eq. simpl.
  destruct (Z.ltb_spec (now - t0) cache_ttl); [reflexivity|lia].
Qed.

Lemma get_absent c k now : c !! k = None -> _get_from_cache k now c = (c, None).
Proof. intros H. unfold _get_from_cache. rewrite H. reflexivity. Qed.

Lemma get_expired c k e now :
  c !! k = Some e -> cache_ttl <= now - timestamp e ->
  _get_from_cache k now c = (delete k c, None).
Proof.
  intros H Hold. unfold _get_from_cache. rewrite H.
  destruct (Z.ltb_spec (now - timestamp e) cache_ttl); [lia|reflexivity].
Qed.

Lemma get_keeps_other_keys c k k' now :
  k' <> k -> fst (_get_from_cache k now c) !! k' = c !! k'.
Proof.
  intros Hne. unfold _get_from_cache.
  destruct (c !! k) as [e|]; [|reflexivity].
  destruct (now - timestamp e <? cache_ttl); [reflexivity|].
  simpl. apply lookup_delete_ne. congruence.
Qed.

(** C8.  A value saved under a key is returned by a lookup made before
    [cache_ttl] seconds have passed; a lookup of an absent key misses; a
    lookup of an entry that is [cache_ttl] seconds old or older misses and
    deletes that entry, which is then absent; and neither a lookup nor a
    save touches the entry of any other key, expired or not. *)
Theorem cache_hit_miss_and_lazy_eviction c k k' v prov t0 now :
  (now - t0 < cache_ttl ->
   _get_from_cache k now (_save_to_cache k v prov t0 c) =
   (_save_to_cache k v prov t0 c, Some v)) /\
  (c !! k = None -> _get_from_cache k now c = (c, None)) /\
  (forall e, c !! k = Some e -> cache_ttl <= now - timestamp e ->
     snd (_get_from_cache k now c) = None /\
     fst (_get_from_cache k now c) = delete k c /\
     fst (_get_from_cache k now c) !! k = None) /\
  (k' <> k ->
   fst (_get_from_cache k now c) !! k' = c !! k' /\
   _save_to_cache k v prov t0 c !! k' = c !! k').
Proof.
  split; [apply get_after_save|]. split; [apply get_absent|]. split.
  - intros e He Hold. rewrite (get_expired c k e now He Hold). simpl.
    split; [reflexivity|]. split; [reflexivity|apply lookup_delete_eq].
  - intros Hne. split; [apply get_keeps_other_keys; exact Hne|].
    unfold _save_to_cache. apply lookup_insert_ne. congruence.
Qed.

End CacheFacts.

(** C8 on a one-hour-old entry, a fresh entry and an empty cache. *)
Lemma cache_hit_miss_and_lazy_eviction_witness :
  let v := [SearchManager.mkResult "Mercado fitness" "https://example.com"
                                   "resumo" "bing"] in
  let saved := SearchManager._save_to_cache "q1" v "bing" 0 ∅ in
  SearchManager._get_from_cache "q1" 3599 saved = (saved, Some v) /\
  SearchManager._get_from_cache "q1" 3599 ∅ = (∅, None) /\
  (snd (SearchManager._get_from_cache "q1" 3600 saved) = None /\
   fst (SearchManager._get_from_cache "q1" 3600 saved) = delete "q1" saved /\
   fst (SearchManager._get_from_cache "q1" 3600 saved) !! "q1" = None) /\
  fst (SearchManager._get_from_cache "q2" 3600 saved) !! "q1" = saved !! "q1".
Proof.
  intros v saved.
  pose proof (cache_hit_miss_and_lazy_eviction ∅ "q1" "q2" v "bing" 0 3599)
    as [Hhit [Hmiss _]].
  pose proof (cache_hit_miss_and_lazy_eviction saved "q1" "q2" v "bing" 0 3600)
    as [_ [_ [Hold _]]].
  pose proof (cache_hit_miss_and_lazy_eviction saved "q2" "q1" v "bing" 0 3600)
    as [_ [_ [_ Hother]]].
  split; [apply Hhit; reflexivity|].
  split; [apply Hmiss; reflexivity|].
  split; [apply (Hold (SearchManager.mkEntry v 0 "bing")); [reflexivity|]|].
  - unfold SearchManager.cache_ttl. simpl. lia.
  - apply Hother. discriminate.
Defined.

(** * The search-provider circuit breaker *)

Section SearchFacts.
Import SearchManager.
Variable strip : string -> string.
Variable _generate_cache_key : string -> Z -> string.
Variable url_ok : string -> bool.
Variable rank : string -> list SearchResult -> list SearchResult.

Lemma exhausted_unavailable name ps :
  exhausted name ps -> _is_provider_available name ps = false.
Proof.
  intros [p [Hget Hmax]]. unfold _is_provider_available. rewrite Hget.
  destruct (Z.ltb_spec (error_count p) (max_errors p)); [lia|].
  apply andb_false_r.
Qed.

Lemma exhausted_after_error name other ps :
  exhausted name ps -> exhausted name (_record_provider_error other ps).
Proof.
  intros [p [Hget Hmax]]. unfold _record_provider_error.
  destruct (String.eqb_spec other name) as [->|Hne].
  - exists (add_error p). rewrite assoc_get_update_eq, Hget.
    split; [reflexivity|]. simpl. lia.
  - exists p. rewrite assoc_get_update_ne by exact Hne. auto.
Qed.

Lemma try_providers_excludes backend query max_results cache_key now name
  order :
  forall st,
    exhausted name (providers st) ->
    let '(st', _, calls) :=
      try_providers strip url_ok backend query max_results cache_key now
                    order st in
    ~ In name calls /\ exhausted name (providers st').
Proof.
  induction order as [|n rest IH]; intros st Hex; simpl.
  - split; [tauto|exact Hex].
  - destruct (_is_provider_available n (providers st)) eqn:Hav; simpl.
    2:{ specialize (IH st Hex). destruct (try_providers _ _ _ _ _ _ _ rest st)
          as [[st' hits] calls]. exact IH. }
    assert (Hne : n <> name).
    { intros ->. rewrite (exhausted_unavailable _ _ Hex) in Hav.
      discriminate. }
    destruct (known_provider n); simpl.
    2:{ specialize (IH st Hex). destruct (try_providers _ _ _ _ _ _ _ rest st)
          as [[st' hits] calls]. exact IH. }
    destruct (backend n query max_results) as [msg|hits].
    + specialize (IH (mkState (_record_provider_error n (providers st))
                              (cache st))
                     (exhausted_after_error _ _ _ Hex)).
      destruct (try_providers _ _ _ _ _ _ _ rest _) as [[st' hits'] calls].
      destruct IH as [Hnot Hex']. split; [|exact Hex'].
      simpl. intros [H|H]; [congruence|contradiction].
    + destruct (nonempty hits && nonempty (_validate_results strip url_ok hits)).
      * simpl. split; [|exact Hex]. intros [H|[]]. congruence.
      * specialize (IH st Hex).
        destruct (try_providers _ _ _ _ _ _ _ rest st) as [[st' hits'] calls].
        destruct IH as [Hnot Hex']. split; [|exact Hex'].
        simpl. intros [H|H]; [congruence|contradiction].
Qed.

Lemma search_with_fallback_excludes backend query max_results now name st :
  exhausted name (providers st) ->
  let '(st', _, calls) :=
    search_with_fallback strip _generate_cache_key url_ok backend query
                         max_results now st in
  ~ In name calls /\ exhausted name (providers st').
Proof.
  intros Hex. unfold search_with_fallback.
  destruct (String.eqb query "" || String.eqb (strip query) "").
  { split; [simpl; tauto|exact Hex]. }
  destruct (_get_from_cache _ now (cache st)) as [c cached].
  destruct cached as [[|r rs]|].
  - apply (try_providers_excludes backend (strip query) max_results _ now
             name _ (mkState (providers st) c) Hex).
  - split; [simpl; tauto|exact Hex].
  - apply (try_providers_excludes backend (strip query) max_results _ now
             name _ (mkState (providers st) c) Hex).
Qed.

Lemma consult_excludes backend n query k keep report_empty wanted name ps :
  exhausted name ps ->
  ~ In name (snd (fst (fst
       (consult backend n query k keep report_empty wanted ps)))).
Proof.
  intros Hex. unfold consult.
  destruct (_is_provider_available n ps) eqn:Hav.
  - assert (Hne : n <> name).
    { intros ->. rewrite (exhausted_unavailable _ _ Hex) in Hav.
      discriminate. }
    destruct wanted; simpl; [|tauto].
    destruct (backend n query k) as [msg|[|h hs]]; simpl;
      intros [H|[]]; congruence.
  - rewrite andb_false_r. simpl. tauto.
Qed.

Lemma comprehensive_search_excludes backend query num_results name st :
  exhausted name (providers st) ->
  ~ In name (snd (comprehensive_search rank backend query num_results st)).
Proof.
  intros Hex. unfold comprehensive_search.
  pose proof (fun n k keep re w =>
                consult_excludes backend n query k keep re w name
                                 (providers st) Hex) as Hc.
  repeat match goal with
  | |- context [consult ?b ?n ?q ?k ?keep ?re ?w ?ps] =>
      let H := fresh "H" in
      pose proof (Hc n k keep re w) as H;
      destruct (consult b n q k keep re w ps) as [[[? ?] ?] ?];
      simpl in H
  end.
  match goal with
  | |- context [if ?b then _ else _] => destruct b
  end; simpl; rewrite !in_app_iff; tauto.
Qed.

Lemma exhausted_after_other_reset name r ps :
  resets name (ResetErrors r) = false ->
  exhausted name ps -> exhausted name (reset_provider_errors r ps).
Proof.
  destruct r as [[|c s]|]; unfold resets, reset_provider_errors;
    try (intros H; discriminate H).
  destruct (String.eqb_spec (String c s) name) as [|Hne];
    [intros H; discriminate H|].
  intros _ [p [Hget Hmax]]. exists p.
  rewrite assoc_get_update_ne by exact Hne. auto.
Qed.

Lemma reset_zeroes name r ps p :
  resets name (ResetErrors r) = true ->
  assoc_get name ps = Some p ->
  exists q, assoc_get name (reset_provider_errors r ps) = Some q /\
            error_count q = 0 /\ enabled q = enabled p /\
            max_errors q = max_errors p.
Proof.
  intros Hr Hget. exists (clear_errors p).
  destruct r as [[|c s]|]; unfold resets, reset_provider_errors in *.
  - rewrite assoc_get_map, Hget. auto.
  - destruct (String.eqb_spec (String c s) name) as [<-|]; [|discriminate].
    rewrite assoc_get_update_eq, Hget. auto.
  - rewrite assoc_get_map, Hget. auto.
Qed.

Lemma exec_excludes st op name :
  exhausted name (providers st) ->
  resets name op = false ->
  ~ In name (snd (exec strip _generate_cache_key url_ok rank st op)) /\
  exhausted name
    (providers (fst (exec strip _generate_cache_key url_ok rank st op))).
Proof.
  intros Hex Hop. destruct op as [b q m now|b q n|r|]; simpl.
  - pose proof (search_with_fallback_excludes b q m now name st Hex) as H.
    destruct (search_with_fallback _ _ _ b q m now st) as [[st' hits] calls].
    exact H.
  - split; [|exact Hex]. apply comprehensive_search_excludes. exact Hex.
  - split; [tauto|]. apply exhausted_after_other_reset; assumption.
  - split; [tauto|exact Hex].
Qed.

(** C10.  Once the error counter of a search provider has reached
    [max_errors], no sequence of [search_with_fallback],
    [comprehensive_search], [clear_cache] and [reset_provider_errors] calls
    for other providers, whatever the clock readings and whatever the other
    providers answer, calls that provider's search method or makes it
    available again; a [reset_provider_errors] call for it (or for all
    providers) puts its counter back to zero. *)
Theorem exhausted_provider_stays_excluded st ops name :
  exhausted name (providers st) ->
  forallb (fun op => negb (resets name op)) ops = true ->
  let after := exec_all strip _generate_cache_key url_ok rank st ops in
  ~ In name (snd after) /\
  _is_provider_available name (providers (fst after)) = false /\
  exhausted name (providers (fst after)) /\
  forall r p,
    resets name (ResetErrors r) = true ->
    assoc_get name (providers (fst after)) = Some p ->
    exists q,
      assoc_get name (reset_provider_errors r (providers (fst after)))
        = Some q /\
      error_count q = 0 /\ enabled q = enabled p /\
      max_errors q = max_errors p.
Proof.
  intros Hex Hops.
  assert (H : ~ In name (snd (exec_all strip _generate_cache_key url_ok rank
                                       st ops)) /\
              exhausted name
                (providers (fst (exec_all strip _generate_cache_key url_ok
                                          rank st ops)))).
  { revert st Hex. induction ops as [|op ops IH]; intros st Hex.
    - simpl. split; [tauto|exact Hex].
    - simpl in Hops. apply andb_true_iff in Hops. destruct Hops as [Hop Hops].
      apply negb_true_iff in Hop.
      destruct (exec_excludes st op name Hex Hop) as [Hnot Hex1].
      simpl.
      destruct (exec strip _generate_cache_key url_ok rank st op)
        as [st1 calls1].
      specialize (IH Hops st1 Hex1).
      destruct (exec_all strip _generate_cache_key url_ok rank st1 ops)
        as [st2 calls2].
      simpl in *. destruct IH as [Hnot2 Hex2]. split; [|exact Hex2].
      rewrite in_app_iff. tauto. }
  destruct H as [Hnot Hex']. simpl.
  split; [exact Hnot|]. split; [apply exhausted_unavailable; exact Hex'|].
  split; [exact Hex'|].
  intros r p Hr Hget. apply reset_zeroes; assumption.
Qed.

End SearchFacts.

(** C10 after three searches during which Exa timed out. *)
Lemma exhausted_provider_stays_excluded_witness :
  let st := fst (Scenario.search_run (SearchManager.init_state true true true)
                                     Scenario.during_outage) in
  let after := Scenario.search_run st Scenario.after_outage in
  ~ In "exa" (snd after) /\
  SearchManager._is_provider_available "exa"
    (SearchManager.providers (fst after)) = false /\
  SearchManager.exhausted "exa" (SearchManager.providers (fst after)) /\
  forall r p,
    SearchManager.resets "exa" (SearchManager.ResetErrors r) = true ->
    assoc_get "exa" (SearchManager.providers (fst after)) = Some p ->
    exists q,
      assoc_get "exa"
        (SearchManager.reset_provider_errors r
           (SearchManager.providers (fst after))) = Some q /\
      SearchManager.error_count q = 0 /\
      SearchManager.enabled q = SearchManager.enabled p /\
      SearchManager.max_errors q = SearchManager.max_errors p.
Proof.
  refine (exhausted_provider_stays_excluded
            Scenario.no_strip Scenario.plain_key Scenario.any_url
            Scenario.keep_order
            (fst (Scenario.search_run (SearchManager.init_state true true true)
                                      Scenario.during_outage))
            Scenario.after_outage "exa" _ eq_refl).
  exists (SearchManager.mkProvider true 1 3 3).
  split; [vm_compute; reflexivity|simpl; lia].
Defined.

(** * The capability router *)

Section RouterFacts.
Import Orchestrator.

Lemma try_patterns_reading t svc patterns args kwargs :
  try_patterns t svc patterns args kwargs =
  (first_answer (answer t args kwargs) patterns,
   List.map (pair svc)
     (upto_first (answer t args kwargs)
                 (List.filter (in_table t) patterns))).
Proof.
  induction patterns as [|p rest IH]; [reflexivity|].
  cbn [try_patterns first_answer List.filter]. rewrite IH.
  assert (Ha : answer t args kwargs p =
               match assoc_get p t with
               | Some method =>
                   match method args kwargs with
                   | Ok v => if Py.truthy v then Some v else None
                   | Raise _ => None
                   end
               | None => None
               end) by reflexivity.
  assert (Hi : in_table t p =
               match assoc_get p t with Some _ => true | None => false end)
    by reflexivity.
  rewrite Hi. destruct (assoc_get p t) as [m|].
  - cbn [upto_first List.map]. rewrite Ha.
    destruct (m args kwargs) as [v|e]; [destruct (Py.truthy v)|];
      reflexivity.
  - rewrite Ha. reflexivity.
Qed.

Lemma upto_first_In f l p : In p (upto_first f l) -> In p l.
Proof.
  induction l as [|q l IH]; simpl; [tauto|].
  destruct (f q); simpl; intros [H|H]; auto. contradiction.
Qed.

Lemma upto_first_NoDup f l : List.NoDup l -> List.NoDup (upto_first f l).
Proof.
  induction 1 as [|q l Hq Hl IH]; simpl; [constructor|].
  destruct (f q).
  - constructor; [simpl; tauto|constructor].
  - constructor; [|exact IH]. intros H. apply Hq, (upto_first_In f). exact H.
Qed.

Lemma first_answer_Some f l v :
  first_answer f l = Some v -> exists p, In p l /\ f p = Some v.
Proof.
  induction l as [|q l IH]; simpl; [discriminate|].
  destruct (f q) as [w|] eqn:Hq.
  - intros [= <-]. exists q. auto.
  - intros H. destruct (IH H) as [p [Hin Hp]]. exists p. auto.
Qed.

Lemma answer_truthy t args kwargs p v :
  answer t args kwargs p = Some v ->
  Py.truthy v = true /\
  exists m, assoc_get p t = Some m /\ m args kwargs = Ok v.
Proof.
  unfold answer. destruct (assoc_get p t) as [m|]; [|discriminate].
  destruct (m args kwargs) as [w|e] eqn:Hm; [|discriminate].
  destruct (Py.truthy w) eqn:Hw; [|discriminate].
  intros [= <-]. split; [exact Hw|]. exists m. auto.
Qed.

(** C7.  For a registered service, [_safe_call_service_method] calls the
    methods named by the patterns that occur in the service's table, in
    the order of the pattern list, and stops at the first call that
    returns a truthy value, which it returns; a pattern missing from the
    table is never called and is not an error, and a call that raises or
    returns a falsy value is followed by the next pattern.  With distinct
    patterns no method is called twice.  When no pattern yields a value the
    result is the [method_not_found] dictionary, which carries the
    attempted patterns and the names of the available methods. *)
Theorem router_tries_patterns_in_order reg svc patterns args kwargs :
  svc ∈ services reg ->
  let t := match service_methods reg !! svc with
           | Some t => t
           | None => []
           end in
  let result :=
    fst (_safe_call_service_method reg svc patterns args kwargs) in
  let calls :=
    snd (_safe_call_service_method reg svc patterns args kwargs) in
  calls = List.map (pair svc)
            (upto_first (answer t args kwargs)
                        (List.filter (in_table t) patterns)) /\
  (forall p, In (svc, p) calls -> In p patterns /\ in_table t p = true) /\
  (List.NoDup patterns -> List.NoDup calls) /\
  match first_answer (answer t args kwargs) patterns with
  | Some v =>
      result = v /\ Py.truthy v = true /\
      exists p m, In p patterns /\ assoc_get p t = Some m /\
                  m args kwargs = Ok v
  | None =>
      result = method_not_found svc t patterns /\
      Py.get result "status" VNone = Ok (VStr "method_not_found") /\
      Py.get result "tried_patterns" VNone = Ok (Py.strs patterns) /\
      Py.get result "available_methods" VNone =
        Ok (Py.strs (List.map fst t))
  end.
Proof.
  intros Hreg t result calls.
  assert (Hrun : _safe_call_service_method reg svc patterns args kwargs =
                 (match first_answer (answer t args kwargs) patterns with
                  | Some v => v
                  | None => method_not_found svc t patterns
                  end,
                  List.map (pair svc)
                    (upto_first (answer t args kwargs)
                                (List.filter (in_table t) patterns)))).
  { unfold _safe_call_service_method. rewrite bool_decide_eq_true_2 by exact Hreg.
    fold t. rewrite try_patterns_reading.
    destruct (first_answer _ patterns); reflexivity. }
  subst result calls. rewrite Hrun. simpl fst. simpl snd.
  split; [reflexivity|]. split; [|split].
  - intros p Hin. apply in_map_iff in Hin. destruct Hin as [q [[= <-] Hq]].
    apply upto_first_In, filter_In in Hq. exact Hq.
  - intros Hnd. apply Finite.Injective_map_NoDup.
    + intros a b [= ->]. reflexivity.
    + apply upto_first_NoDup, List.NoDup_filter. exact Hnd.
  - destruct (first_answer _ patterns) as [v|] eqn:Hfa.
    + apply first_answer_Some in Hfa. destruct Hfa as [p [Hin Hp]].
      apply answer_truthy in Hp. destruct Hp as [Htr [m [Hm Hv]]].
      split; [reflexivity|]. split; [exact Htr|]. exists p, m. auto.
    + repeat split; reflexivity.
Qed.

End RouterFacts.

(** C7 on the patterns [foo], [bar] against a table that only has [bar]:
    [bar] is called once, [foo] never. *)
Lemma router_tries_patterns_in_order_witness :
  snd (Orchestrator._safe_call_service_method Scenario.bar_only "svc"
         ["foo"; "bar"] [] []) = [("svc", "bar")] /\
  fst (Orchestrator._safe_call_service_method Scenario.bar_only "svc"
         ["foo"; "bar"] [] []) = VStr "done" /\
  List.NoDup (snd (Orchestrator._safe_call_service_method Scenario.bar_only "svc"
                ["foo"; "bar"] [] [])).
Proof.
  assert (Hreg : "svc" ∈ Orchestrator.services Scenario.bar_only).
  { unfold Scenario.bar_only. cbn [Orchestrator.services]. set_solver. }
  destruct (router_tries_patterns_in_order Scenario.bar_only "svc"
              ["foo"; "bar"] [] [] Hreg) as [Hcalls [_ [Hnd Hres]]].
  split; [exact Hcalls|]. split; [exact (proj1 Hres)|].
  apply Hnd. repeat constructor; simpl; intuition discriminate.
Defined.

(** * The pipeline executor *)

Section ReplayFacts.
Import Orchestrator.

Lemma phase_ext {A} cb k m s (rest rest' : PyVal -> list Event * Exc A) :
  rest (snd s) = rest' (snd s) ->
  phase cb k m s rest = phase cb k m s rest'.
Proof.
  intros H. unfold phase. rewrite H. reflexivity.
Qed.

Lemma replay_without_callback anns outs final :
  replay None anns outs final = (full_trace false anns outs, Ok final).
Proof.
  revert outs. induction anns as [|[k m] anns IH]; intros [|s outs];
    try reflexivity.
  cbn [replay full_trace phase]. rewrite IH. reflexivity.
Qed.

Lemma replay_quiet f anns outs final :
  first_failure f anns = None ->
  replay (Some f) anns outs final = (full_trace true anns outs, Ok final).
Proof.
  revert outs. induction anns as [|[k m] anns IH]; intros [|s outs] Hq;
    try reflexivity.
  cbn [first_failure] in Hq. cbn [replay full_trace phase].
  destruct (f k m) as [u|e]; [|discriminate].
  destruct (first_failure f anns) as [[n e]|]; [discriminate|].
  rewrite IH by reflexivity. reflexivity.
Qed.

Lemma replay_interrupted f anns outs final n e :
  first_failure f anns = Some (n, e) ->
  (length anns <= length outs)%nat ->
  exists k m,
    nth_error anns n = Some (k, m) /\
    replay (Some f) anns outs final =
    (full_trace true (firstn n anns) (firstn n outs) ++ [Progress k m],
     Raise e).
Proof.
  revert outs n. induction anns as [|[k m] anns IH]; intros outs n Hf Hlen.
  - discriminate.
  - destruct outs as [|s outs]; [simpl in Hlen; lia|].
    cbn [first_failure] in Hf. cbn [replay phase].
    destruct (f k m) as [u|e'].
    + destruct (first_failure f anns) as [[n' e'']|] eqn:Hrest;
        [|discriminate].
      injection Hf as <- <-.
      destruct (IH outs n' eq_refl ltac:(simpl in Hlen; lia))
        as [k' [m' [Hnth Hrep]]].
      exists k', m'. split; [exact Hnth|]. rewrite Hrep. reflexivity.
    + injection Hf as <- <-. exists k, m. split; reflexivity.
Qed.

Lemma stages_run_app t1 t2 : stages_run (t1 ++ t2) = stages_run t1 ++ stages_run t2.
Proof. unfold stages_run. apply flat_map_app. Qed.

Lemma progress_steps_app t1 t2 :
  progress_steps (t1 ++ t2) = progress_steps t1 ++ progress_steps t2.
Proof. unfold progress_steps. apply flat_map_app. Qed.

Lemma full_trace_stages b anns outs :
  length anns = length outs ->
  stages_run (full_trace b anns outs) = List.map fst anns.
Proof.
  revert outs. induction anns as [|[k m] anns IH]; intros [|s outs] Hlen;
    try discriminate; [reflexivity|].
  cbn [full_trace]. rewrite stages_run_app.
  change (stages_run (Stage k (fst s) (snd s) :: full_trace b anns outs))
    with (k :: stages_run (full_trace b anns outs)).
  rewrite IH by (simpl in Hlen; lia).
  destruct b; reflexivity.
Qed.

Lemma full_trace_progress anns outs :
  length anns = length outs ->
  progress_steps (full_trace true anns outs) = List.map fst anns.
Proof.
  revert outs. induction anns as [|[k m] anns IH]; intros [|s outs] Hlen;
    try discriminate; [reflexivity|].
  cbn [full_trace app].
  change (progress_steps (Progress k m :: Stage k (fst s) (snd s)
                            :: full_trace true anns outs))
    with (k :: progress_steps (full_trace true anns outs)).
  rewrite IH by (simpl in Hlen; lia). reflexivity.
Qed.

Lemma full_trace_announced anns outs tail :
  announced tail = true ->
  announced (full_trace true anns outs ++ tail) = true.
Proof.
  intros Ht. revert outs. induction anns as [|[k m] anns IH];
    intros [|s outs]; try exact Ht.
  cbn [full_trace app announced]. rewrite Z.eqb_refl. apply IH.
Qed.

End ReplayFacts.

(** * The status a stage stores *)

Section StageStatusFacts.
Import Orchestrator Shape.
Variable py_str : PyVal -> string.
Variable reg : Registry.

Lemma yields_bind {A B} (Q : A -> Prop) (P : B -> Prop) (m : Comp A)
  (k : A -> Comp B) :
  yields Q m -> (forall a, Q a -> yields P (k a)) -> yields P (bind m k).
Proof.
  unfold yields, bind. destruct m as [calls [a|e]]; simpl; [|trivial].
  intros Ha Hk. specialize (Hk a Ha). destruct (k a) as [calls' r].
  exact Hk.
Qed.

Lemma yields_then {A B} (P : B -> Prop) (m : Comp A) (k : A -> Comp B) :
  (forall a, yields P (k a)) -> yields P (bind m k).
Proof.
  intros H. apply (yields_bind (fun _ => True)); [|auto].
  unfold yields. destruct (snd m); exact I.
Qed.

Lemma try_except_shape (P : PyVal -> Prop) body handler :
  yields P body -> (forall e, P (handler e)) ->
  P (snd (try_except body handler)).
Proof.
  unfold yields, try_except. destruct body as [c [v|e]]; simpl; auto.
Qed.

Lemma eq_str_true v text : Py.eq_str v text = true -> v = VStr text.
Proof.
  destruct v; simpl; try discriminate.
  intros H. apply String.eqb_eq in H. congruence.
Qed.












End StageStatusFacts.

Section PipelineFacts.
Import Orchestrator.
Variable py_str : PyVal -> string.
Variable now_iso : string.
Variable reg : Registry.

Local Abbreviation outputs data sid :=
  (stage_outputs py_str now_iso reg data sid).
Local Abbreviation final data sid := (snd (report_of py_str now_iso reg data sid)).
Local Abbreviation execute data sid cb t0 t1 st :=
  (execute_synchronized_analysis py_str now_iso reg data sid cb t0 t1 st).

(** The thirteen phases are the replay of the thirteen stage outputs. *)
Lemma phases_replay data sid cb :
  phases py_str now_iso reg data sid cb =
  replay cb progress_messages (outputs data sid) (final data sid).
Proof.
  unfold phases, stage_outputs, progress_messages. cbn [replay].
  repeat (apply phase_ext; cbv beta).
  reflexivity.
Qed.

Lemma more_outputs_than_announcements data sid :
  length progress_messages = length (outputs data sid).
Proof. reflexivity. Qed.

(** A run whose callback never raises. *)
Lemma run_to_completion data sid cb t0 t1 st :
  Py.truthy data = true ->
  quiet cb ->
  execute data sid cb t0 t1 st =
  (mkState
     (alter (fun s => mkSession "completed" (start_time s) (Some (t1 - t0)))
            sid
            (<[sid := mkSession "running" t0 None]> (execution_state st)))
     ∅,
   full_trace (has_callback cb) progress_messages (outputs data sid),
   success_envelope sid (t1 - t0) (final data sid)).
Proof.
  intros Hdata Hquiet. unfold execute_synchronized_analysis.
  rewrite Hdata. cbn [negb]. unfold _execute_async_analysis.
  rewrite phases_replay. destruct cb as [f|]; cbn [quiet] in Hquiet.
  - rewrite (replay_quiet f _ _ _ Hquiet). reflexivity.
  - rewrite replay_without_callback. reflexivity.
Qed.

(** A run whose callback raises on its [n+1]-th announcement. *)
Lemma run_interrupted data sid f t0 t1 st n e :
  Py.truthy data = true ->
  first_failure f progress_messages = Some (n, e) ->
  exists k m,
    nth_error progress_messages n = Some (k, m) /\
    execute data sid (Some f) t0 t1 st =
    (mkState (<[sid := mkSession "running" t0 None]> (execution_state st)) ∅,
     full_trace true (firstn n progress_messages)
                (firstn n (outputs data sid)) ++ [Progress k m],
     failure_envelope sid e).
Proof.
  intros Hdata Hfail.
  destruct (replay_interrupted f progress_messages (outputs data sid)
              (final data sid) n e Hfail)
    as [k [m [Hnth Hrep]]].
  { rewrite (more_outputs_than_announcements data sid). reflexivity. }
  exists k, m. split; [exact Hnth|].
  unfold execute_synchronized_analysis. rewrite Hdata. cbn [negb].
  unfold _execute_async_analysis. rewrite phases_replay, Hrep. reflexivity.
Qed.

Lemma completed_status sid t0 t1 (es : gmap string Session) :
  session_status sid
    (mkState
       (alter (fun s => mkSession "completed" (start_time s)
                                  (Some (t1 - t0)))
              sid (<[sid := mkSession "running" t0 None]> es))
       ∅) = Some "completed".
Proof.
  unfold session_status. cbn [execution_state].
  rewrite lookup_alter. rewrite decide_True by reflexivity.
  rewrite lookup_insert_eq. reflexivity.
Qed.

Lemma running_status sid t0 (es : gmap string Session) :
  session_status sid
    (mkState (<[sid := mkSession "running" t0 None]> es) ∅) = Some "running".
Proof.
  unfold session_status. cbn [execution_state].
  rewrite lookup_insert_eq. reflexivity.
Qed.

(** The result stored for each stage of a completed run. *)
Lemma stored_results b data sid :
  let trace := full_trace b progress_messages (outputs data sid) in
  stage_result 1 trace = Some (snd (web_of py_str reg data sid)) /\
  stage_result 2 trace = Some (snd (social_of py_str reg data sid)) /\
  stage_result 3 trace = Some (snd (avatar_of py_str reg data sid)) /\
  stage_result 4 trace = Some (snd (drivers_of py_str reg data sid)) /\
  stage_result 5 trace = Some (snd (visual_of py_str reg data sid)) /\
  stage_result 6 trace = Some (snd (anti_of py_str reg data sid)) /\
  stage_result 7 trace = Some (snd (pre_pitch_of py_str reg data sid)) /\
  stage_result 8 trace = Some (snd (predictions_of py_str reg data sid)) /\
  stage_result 9 trace = Some (snd (competition_of py_str reg data sid)) /\
  stage_result 10 trace = Some (snd (insights_of py_str reg data sid)) /\
  stage_result 11 trace = Some (snd (keywords_of py_str reg data sid)) /\
  stage_result 12 trace = Some (snd (funnel_of py_str reg data sid)) /\
  stage_result 13 trace = Some (final data sid).
Proof.
  destruct b; repeat split; reflexivity.
Qed.


Lemma report_when_body_raises data sid e :
  snd (final_report_body now_iso reg
         (complete_analysis_data py_str reg data sid) sid) = Raise e ->
  final data sid = error_report now_iso sid e.
Proof.
  unfold report_of, _generate_final_report_async, try_except.
  destruct (final_report_body _ _ _ _) as [calls [v|e']]; simpl;
    [discriminate|].
  intros [= ->]. reflexivity.
Qed.

(** C3 (amended).  When the body of the consolidation step raises, the
    exception is caught inside [_generate_final_report_async]: in a run
    whose callback returns normally all thirteen stages have run, the
    session ends [completed] and the envelope has [success: true], its
    report being the dictionary with status [error] and the text of the
    exception.  The failure envelope is what a run returns when the
    progress callback raises; the consolidation step has then not been
    reached. *)
Theorem consolidation_failure_is_reported data sid cb t0 t1 st e :
  Py.truthy data = true ->
  snd (final_report_body now_iso reg
         (complete_analysis_data py_str reg data sid) sid) = Raise e ->
  let run := execute data sid cb t0 t1 st in
  let trace := snd (fst run) in
  (quiet cb ->
   snd run = success_envelope sid (t1 - t0) (error_report now_iso sid e) /\
   Py.get (snd run) "success" VNone = Ok (VBool true) /\
   Py.get (snd run) "report" VNone = Ok (error_report now_iso sid e) /\
   Py.get (error_report now_iso sid e) "status" VNone = Ok (VStr "error") /\
   Py.get (error_report now_iso sid e) "error" VNone = Ok (VStr e) /\
   session_status sid (fst (fst run)) = Some "completed" /\
   stages_run trace = [1; 2; 3; 4; 5; 6; 7; 8; 9; 10; 11; 12; 13] /\
   stage_result 13 trace = Some (error_report now_iso sid e)) /\
  (forall f n e',
     cb = Some f ->
     first_failure f progress_messages = Some (n, e') ->
     snd run = failure_envelope sid e' /\
     ~ In 13 (stages_run trace)).
Proof.
  intros Hdata Hraise run trace. subst trace run. split.
  - intros Hquiet.
    rewrite (run_to_completion data sid cb t0 t1 st Hdata Hquiet).
    cbn [fst snd].
    destruct (stored_results (has_callback cb) data sid)
      as (_ & _ & _ & _ & _ & _ & _ & _ & _ & _ & _ & _ & H13).
    rewrite H13, (report_when_body_raises data sid e Hraise).
    repeat split; try reflexivity.
    + apply completed_status.
    + rewrite full_trace_stages by apply more_outputs_than_announcements.
      reflexivity.
  - intros f n e' -> Hfail.
    destruct (run_interrupted data sid f t0 t1 st n e' Hdata Hfail)
      as [k [m [Hnth ->]]].
    cbn [fst snd]. split; [reflexivity|].
    rewrite stages_run_app, app_nil_r.
    rewrite full_trace_stages.
    2:{ rewrite !length_firstn, (more_outputs_than_announcements data sid).
        reflexivity. }
    assert (Hn : (n < length progress_messages)%nat).
    { apply nth_error_Some. rewrite Hnth. discriminate. }
    change (length progress_messages) with 13%nat in Hn.
    do 13 (destruct n as [|n]; [simpl; intuition discriminate|]). lia.
Qed.

Lemma firstn_snoc {A} (l : list A) n x :
  nth_error l n = Some x -> firstn (S n) l = firstn n l ++ [x].
Proof.
  revert n. induction l as [|y l IH]; intros [|n]; simpl; try discriminate.
  - intros [= ->]. reflexivity.
  - intros H. rewrite <- (IH n H). reflexivity.
Qed.

(** C4 (amended).  A supplied progress callback is invoked before each
    stage, in step order.  When it returns normally every time, all
    thirteen stages run and the run succeeds.  When it first raises on its
    [n+1]-th invocation, that exception is not swallowed: the [n] earlier
    stages are the only ones that ran, the session is left [running], and
    the caller receives the failure envelope carrying the text of the
    exception instead of an exception. *)
Theorem callback_exception_aborts_run data sid f t0 t1 st :
  Py.truthy data = true ->
  let run := execute data sid (Some f) t0 t1 st in
  let trace := snd (fst run) in
  let steps := [1; 2; 3; 4; 5; 6; 7; 8; 9; 10; 11; 12; 13] in
  announced trace = true /\
  match first_failure f progress_messages with
  | None =>
      progress_steps trace = steps /\
      stages_run trace = steps /\
      snd run = success_envelope sid (t1 - t0) (final data sid) /\
      session_status sid (fst (fst run)) = Some "completed"
  | Some (n, e) =>
      progress_steps trace = firstn (S n) steps /\
      stages_run trace = firstn n steps /\
      snd run = failure_envelope sid e /\
      Py.get (snd run) "success" VNone = Ok (VBool false) /\
      session_status sid (fst (fst run)) = Some "running"
  end.
Proof.
  intros Hdata run trace steps. subst trace run.
  destruct (first_failure f progress_messages) as [[n e]|] eqn:Hfail.
  - destruct (run_interrupted data sid f t0 t1 st n e Hdata Hfail)
      as [k [m [Hnth ->]]].
    cbn [fst snd].
    assert (Hlen : length (firstn n progress_messages) =
                   length (firstn n (outputs data sid))).
    { rewrite !length_firstn, (more_outputs_than_announcements data sid).
      reflexivity. }
    split; [apply full_trace_announced; reflexivity|].
    split.
    { rewrite progress_steps_app, (full_trace_progress _ _ Hlen).
      replace (firstn (S n) steps)
        with (List.map fst (firstn (S n) progress_messages))
        by (symmetry; exact (List.firstn_map fst (S n) progress_messages)).
      rewrite (firstn_snoc _ _ _ Hnth), List.map_app. reflexivity. }
    split.
    { rewrite stages_run_app, (full_trace_stages _ _ _ Hlen), app_nil_r.
      symmetry. exact (List.firstn_map fst n progress_messages). }
    split; [reflexivity|]. split; [reflexivity|apply running_status].
  - rewrite (run_to_completion data sid (Some f) t0 t1 st Hdata Hfail).
    cbn [fst snd has_callback].
    split.
    { rewrite <- (app_nil_r (full_trace true _ _)).
      apply full_trace_announced. reflexivity. }
    split.
    { rewrite full_trace_progress by apply more_outputs_than_announcements.
      reflexivity. }
    split.
    { rewrite full_trace_stages by apply more_outputs_than_announcements.
      reflexivity. }
    split; [reflexivity|apply completed_status].
Qed.

End PipelineFacts.



(** C3 on a run whose web researcher answers with a count where a list is
    expected, so that the consolidation body raises on [len]. *)
Lemma consolidation_failure_is_reported_witness :
  let run := Scenario.pipeline_run Scenario.odd_websailor None in
  let report :=
    Orchestrator.error_report Scenario.timestamp "s1"
                              "object of type 'int' has no len()" in
  snd run = Orchestrator.success_envelope "s1" 5 report /\
  Py.get (snd run) "success" VNone = Ok (VBool true) /\
  Orchestrator.session_status "s1" (fst (fst run)) = Some "completed" /\
  Orchestrator.stage_result 13 (snd (fst run)) = Some report.
Proof.
  destruct (consolidation_failure_is_reported
              Scenario.show Scenario.timestamp Scenario.odd_websailor
              Scenario.request "s1" None 0 5 Scenario.fresh
              "object of type 'int' has no len()" eq_refl)
    as [Hquiet _].
  { vm_compute. reflexivity. }
  destruct (Hquiet I) as (Henv & Hok & _ & _ & _ & Hdone & _ & Hstored).
  split; [exact Henv|]. split; [exact Hok|]. split; [exact Hdone|].
  exact Hstored.
Defined.

(** C3 as stated fails: the consolidation body raises, yet the run ends
    [completed] and returns [success: true]; no failure envelope is
    produced. *)
Lemma consolidation_failure_does_not_escape :
  let run := Scenario.pipeline_run Scenario.odd_websailor None in
  snd (Orchestrator.final_report_body Scenario.timestamp
         Scenario.odd_websailor
         (Orchestrator.complete_analysis_data
            Scenario.show Scenario.odd_websailor Scenario.request "s1")
         "s1")
    = Raise "object of type 'int' has no len()" /\
  Py.get (snd run) "success" VNone = Ok (VBool true) /\
  Orchestrator.session_status "s1" (fst (fst run)) = Some "completed" /\
  Orchestrator.status_of (Orchestrator.stage_result 13 (snd (fst run)))
    = Some (VStr "error").
Proof.
  vm_compute. repeat split.
Qed.

(** C4 on a callback that raises when step 3 is announced. *)
Lemma callback_exception_aborts_run_witness :
  let run := Scenario.pipeline_run Scenario.no_services
                                   (Some (Scenario.raises_at 3)) in
  let trace := snd (fst run) in
  Orchestrator.announced trace = true /\
  Orchestrator.progress_steps trace = [1; 2; 3] /\
  Orchestrator.stages_run trace = [1; 2] /\
  snd run = Orchestrator.failure_envelope "s1" "callback failed" /\
  Orchestrator.session_status "s1" (fst (fst run)) = Some "running".
Proof.
  pose proof (callback_exception_aborts_run
                Scenario.show Scenario.timestamp Scenario.no_services
                Scenario.request "s1" (Scenario.raises_at 3) 0 5
                Scenario.fresh eq_refl) as H.
  cbv zeta in H. destruct H as [Hann Hrun].
  assert (Hf : Orchestrator.first_failure (Scenario.raises_at 3)
                 Orchestrator.progress_messages
               = Some (2%nat, "callback failed")) by reflexivity.
  rewrite Hf in Hrun. destruct Hrun as (Hp & Hs & Henv & _ & Hst).
  split; [exact Hann|]. split; [exact Hp|]. split; [exact Hs|].
  split; [exact Henv|exact Hst].
Defined.

(** C4 as stated fails: the same run ends differently according to
    whether the callback returns or raises. *)
Lemma raising_callback_changes_outcome :
  let calm := Scenario.pipeline_run Scenario.no_services
                                    (Some Scenario.returns_always) in
  let noisy := Scenario.pipeline_run Scenario.no_services
                                     (Some (Scenario.raises_at 3)) in
  Py.get (snd calm) "success" VNone = Ok (VBool true) /\
  Py.get (snd noisy) "success" VNone = Ok (VBool false) /\
  Orchestrator.stages_run (snd (fst calm))
    = [1; 2; 3; 4; 5; 6; 7; 8; 9; 10; 11; 12; 13] /\
  Orchestrator.stages_run (snd (fst noisy)) = [1; 2] /\
  Orchestrator.session_status "s1" (fst (fst calm)) = Some "completed" /\
  Orchestrator.session_status "s1" (fst (fst noisy)) = Some "running".
Proof.
  vm_compute. repeat split.
Qed.

(** * The HTTP entry point *)

Section RouteFacts.
Import AnalysisRoute.
Variable py_str : PyVal -> string.
Variable now_iso : string.
Variable reg : Orchestrator.Registry.
Variable iniciar_sessao : string.

Local Abbreviation handle data t0 t1 active st :=
  (analyze py_str now_iso reg iniciar_sessao data t0 t1 active st).
Local Abbreviation receive parsed t0 t1 active st :=
  (analyze_request py_str now_iso reg iniciar_sessao parsed t0 t1 active st).

(** C9 (amended).  A start request whose JSON body is [null], or is an
    object in which [segmento] or [produto] is absent or empty, is answered
    with HTTP 400 without the orchestrator being called: no stage runs and
    the session store of the orchestrator is untouched.  The body carries
    [success: false] when the request object is non-empty; a [null] body
    and the empty object are answered with the error message alone.  A
    request on which [request.get_json()] raises, as it does when no JSON
    body was sent, is answered with HTTP 500 and [success: false] by the
    [except] clause, again without any stage running and with no session
    stored. *)
Theorem missing_fields_rejected data t0 t1 active st :
  (data = VNone \/ exists d, data = VDict d) ->
  lacks_mandatory data = true ->
  let r := receive (Ok data) t0 t1 active st in
  (code (response r) = 400 /\
   trace r = [] /\
   orchestrator r = st /\
   (Py.truthy data = true ->
    success_flag (response r) = Some (VBool false)) /\
   (Py.truthy data = false ->
    body (response r) = VDict [("error", VStr "Dados não fornecidos")] /\
    success_flag (response r) = None)) /\
  (forall e,
     let unparsed := receive (Raise e) t0 t1 active st in
     code (response unparsed) = 500 /\
     success_flag (response unparsed) = Some (VBool false) /\
     Py.get (body (response unparsed)) "error" VNone = Ok (VStr e) /\
     Py.get (body (response unparsed)) "session_id" (VStr "") = Ok VNone /\
     trace unparsed = [] /\
     orchestrator unparsed = st /\
     active_sessions unparsed = active).
Proof.
  intros Hshape Hlacks r. subst r. split.
  2:{ intros e. cbn. repeat split. }
  change (receive (Ok data) t0 t1 active st)
    with (handle data t0 t1 active st).
  destruct Hshape as [->|[d ->]]; [|destruct d as [|kv d]].
  - cbn. repeat split; intros; try reflexivity; discriminate.
  - cbn. repeat split; intros; try reflexivity; discriminate.
  - unfold lacks_mandatory in Hlacks. cbn [Py.get] in Hlacks.
    unfold analyze. cbn [Py.truthy negb]. unfold analyze_body.
    cbn [Py.get]. rewrite Hlacks. cbn.
    repeat split; intros; try reflexivity; discriminate.
Qed.

End RouteFacts.

(** C9 on a request that names a segment but no product, and on a request
    without a body. *)
Lemma missing_fields_rejected_witness :
  let r := AnalysisRoute.analyze_request Scenario.show Scenario.timestamp
             Scenario.no_services "s1"
             (Ok (VDict [("segmento", VStr "fitness")])) 0 5 ∅
             Scenario.fresh in
  let unparsed :=
    AnalysisRoute.analyze_request Scenario.show Scenario.timestamp
      Scenario.no_services "s1" (Raise "400 Bad Request") 0 5 ∅
      Scenario.fresh in
  AnalysisRoute.lacks_mandatory (VDict [("segmento", VStr "fitness")])
  = true /\
  AnalysisRoute.code (AnalysisRoute.response r) = 400 /\
  AnalysisRoute.trace r = [] /\
  AnalysisRoute.success_flag (AnalysisRoute.response r)
    = Some (VBool false) /\
  AnalysisRoute.code (AnalysisRoute.response unparsed) = 500 /\
  AnalysisRoute.success_flag (AnalysisRoute.response unparsed)
    = Some (VBool false).
Proof.
  destruct (missing_fields_rejected Scenario.show Scenario.timestamp
              Scenario.no_services "s1"
              (VDict [("segmento", VStr "fitness")]) 0 5 ∅ Scenario.fresh
              (or_intror (ex_intro _ _ eq_refl)) eq_refl)
    as ((Hcode & Htrace & _ & Hflag & _) & Hraise).
  destruct (Hraise "400 Bad Request") as (Hcode' & Hflag' & _).
  split; [reflexivity|].
  split; [exact Hcode|]. split; [exact Htrace|].
  split; [exact (Hflag eq_refl)|]. split; [exact Hcode'|exact Hflag'].
Defined.

(** C9 as stated fails on the body: the empty request object, in which
    both fields are absent, is answered with HTTP 400 and a body that has
    no [success] field. *)
Lemma empty_request_has_no_success_flag :
  let r := AnalysisRoute.analyze Scenario.show Scenario.timestamp
             Scenario.no_services "s1" (VDict []) 0 5 ∅ Scenario.fresh in
  AnalysisRoute.lacks_mandatory (VDict []) = true /\
  AnalysisRoute.code (AnalysisRoute.response r) = 400 /\
  AnalysisRoute.body (AnalysisRoute.response r)
    = VDict [("error", VStr "Dados não fornecidos")] /\
  AnalysisRoute.success_flag (AnalysisRoute.response r) = None /\
  AnalysisRoute.success_flag (AnalysisRoute.response r)
    <> Some (VBool false).
Proof.
  repeat split; try reflexivity. discriminate.
Qed.

(** * More on the generation-provider registry *)

Section RegistryFacts.
Import AIManager.
Variables HAS_GEMINI HAS_GROQ_CLIENT HAS_OPENAI : bool.

Local Abbreviation pick := (get_best_provider HAS_GEMINI HAS_GROQ_CLIENT
                                              HAS_OPENAI).
Local Abbreviation probed now ps :=
  (assoc_map (reprobe HAS_GEMINI HAS_GROQ_CLIENT HAS_OPENAI now) ps).

Lemma assoc_get_In {V} k (v : V) d : assoc_get k d = Some v -> In (k, v) d.
Proof.
  induction d as [|[k' v'] d IH]; simpl; [discriminate|].
  destruct (String.eqb_spec k' k); intros H.
  - left. congruence.
  - right. auto.
Qed.

Lemma key_le_refl a : key_le a a = true.
Proof.
  unfold key_le. rewrite Z.eqb_refl, Z.leb_refl. apply orb_true_r.
Qed.

Lemma key_le_total a b : key_le a b = false -> key_le b a = true.
Proof.
  unfold key_le.
  rewrite orb_false_iff, andb_false_iff, orb_true_iff, andb_true_iff,
    !Z.ltb_lt, !Z.ltb_ge, Z.eqb_eq, Z.eqb_neq, Z.leb_le, Z.leb_gt.
  lia.
Qed.

Lemma key_le_trans a b c :
  key_le a b = true -> key_le b c = true -> key_le a c = true.
Proof.
  unfold key_le.
  rewrite !orb_true_iff, !andb_true_iff, !Z.ltb_lt, !Z.eqb_eq, !Z.leb_le.
  lia.
Qed.

(** The head of the sorted list is a least element. *)
Lemma sort_head_least l h r :
  sort_providers l = h :: r ->
  In h l /\ forall y, In y l -> key_le h y = true.
Proof.
  revert h r. induction l as [|x l IH]; intros h r; simpl; [discriminate|].
  destruct (sort_providers l) as [|h0 r0] eqn:Hs.
  - apply (proj1 (sort_providers_nil _)) in Hs. subst l. simpl.
    intros [= <- <-]. split; [auto|].
    intros y [<-|[]]. apply key_le_refl.
  - destruct (IH h0 r0 eq_refl) as [Hin Hleast]. simpl.
    destruct (key_le x h0) eqn:Hx.
    + intros [= <- <-]. split; [auto|].
      intros y [<-|Hy]; [apply key_le_refl|].
      apply (key_le_trans _ h0); auto.
    + intros [= <- <-]. split; [auto|].
      intros y [<-|Hy]; [apply key_le_total; exact Hx|auto].
Qed.

(** X1.  When some provider is usable after the re-probing step,
    [get_best_provider] resets nothing and returns the name of a usable
    provider (available and under its failure limit) whose pair
    (priority, consecutive failures) is least among the usable ones. *)
Theorem select_returns_best_ranked now ps :
  List.filter (fun e => usable (snd e)) (probed now ps) <> [] ->
  fst (pick now ps) = probed now ps /\
  exists name p,
    snd (pick now ps) = Some name /\
    In (name, p) (probed now ps) /\
    available p = true /\
    consecutive_failures p < max_errors p /\
    forall e, In e (probed now ps) -> usable (snd e) = true ->
              key_le (name, p) e = true.
Proof.
  intros Hsome. unfold get_best_provider.
  destruct (List.filter (fun e => usable (snd e)) (probed now ps))
    as [|c cs] eqn:Hf; [contradiction|].
  destruct (sort_providers (c :: cs)) as [|[n p] r] eqn:Hs.
  { apply (proj1 (sort_providers_nil _)) in Hs. discriminate. }
  destruct (sort_head_least _ _ _ Hs) as [Hin Hleast].
  rewrite <- Hf in Hin, Hleast. apply filter_In in Hin.
  destruct Hin as [Hin Hus]. simpl in Hus. unfold usable in Hus.
  apply andb_true_iff in Hus. destruct Hus as [Hav Hcf].
  apply Z.ltb_lt in Hcf.
  split; [reflexivity|]. exists n, p. simpl.
  repeat split; auto.
  intros e He Hus. apply Hleast, filter_In. auto.
Qed.

End RegistryFacts.

(** X1 on a deployment with Gemini and Groq configured: Gemini, of
    priority 1, is chosen. *)
Lemma select_returns_best_ranked_witness :
  let ps := AIManager.initialize_providers true false true false
              AIManager.init_table in
  snd (AIManager.get_best_provider true true true 50 ps) = Some "gemini" /\
  fst (AIManager.get_best_provider true true true 50 ps) = ps.
Proof.
  destruct (select_returns_best_ranked true true true 50
              (AIManager.initialize_providers true false true false
                 AIManager.init_table))
    as [Htable _].
  { discriminate. }
  split; [reflexivity|exact Htable].
Defined.

Section HealthFacts.
Import AIManager Health.
Variables HAS_GEMINI HAS_GROQ_CLIENT HAS_OPENAI : bool.
Variable strip : string -> string.

Local Abbreviation pick := (get_best_provider HAS_GEMINI HAS_GROQ_CLIENT
                                              HAS_OPENAI).
Local Abbreviation probed now ps :=
  (assoc_map (reprobe HAS_GEMINI HAS_GROQ_CLIENT HAS_OPENAI now) ps).

Lemma well_formed_update name f ps :
  (forall p, sound p -> sound (f p)) ->
  well_formed ps -> well_formed (assoc_update name f ps).
Proof.
  intros Hf. unfold well_formed.
  induction 1 as [|[k p] l Hp Hl IH]; simpl; constructor; auto.
  simpl in *. destruct (String.eqb k name); auto.
Qed.

Lemma well_formed_map f ps :
  (forall k p, sound p -> sound (f k p)) ->
  well_formed ps -> well_formed (assoc_map f ps).
Proof.
  intros Hf. unfold well_formed, assoc_map.
  induction 1 as [|[k p] l Hp Hl IH]; simpl; constructor; auto.
  simpl in *. auto.
Qed.

Lemma sound_fail p : sound p -> sound (fail_provider p).
Proof.
  unfold sound, fail_provider. simpl. intros (Hm & Hc & Ha).
  repeat split; try lia.
  destruct (Z.leb_spec (max_errors p) (consecutive_failures p + 1));
    [discriminate|lia].
Qed.

Lemma sound_succeed now p : sound p -> sound (succeed_provider now p).
Proof. unfold sound, succeed_provider. simpl. intros (Hm & _). lia. Qed.

Lemma sound_zero p : sound p -> sound (zero_counters p).
Proof. unfold sound, zero_counters. simpl. intros (Hm & _). lia. Qed.

Lemma sound_zero_available p : sound p -> sound (set_available true (zero_counters p)).
Proof. unfold sound. simpl. intros (Hm & _). lia. Qed.

Lemma sound_reprobe now name p :
  sound p -> sound (reprobe HAS_GEMINI HAS_GROQ_CLIENT HAS_OPENAI now name p).
Proof.
  intros H. unfold reprobe. destruct (reprobe_due now p); [|exact H].
  destruct (library_present _ _ _ name);
    [apply sound_zero_available|apply sound_zero]; exact H.
Qed.

Lemma well_formed_select now ps : well_formed ps -> well_formed (fst (pick now ps)).
Proof.
  intros H. rewrite select_table.
  assert (H1 : well_formed (probed now ps)).
  { apply well_formed_map; [|exact H]. intros. apply sound_reprobe. auto. }
  destruct (List.filter _ (probed now ps)); [|exact H1].
  apply well_formed_map; [|exact H1]. intros. apply sound_zero. auto.
Qed.

Lemma well_formed_reset r ps :
  well_formed ps -> well_formed (reset_provider_errors r ps).
Proof.
  intros H. destruct r as [[|c s]|]; unfold reset_provider_errors.
  - apply well_formed_map; [|exact H]. intros k p Hp. simpl.
    destruct (client p); [apply sound_zero_available|apply sound_zero]; auto.
  - apply well_formed_update; [|exact H]. apply sound_zero_available.
  - apply well_formed_map; [|exact H]. intros k p Hp. simpl.
    destruct (client p); [apply sound_zero_available|apply sound_zero]; auto.
Qed.

Lemma well_formed_fallbacks remote order prompt sp now :
  forall ps, well_formed ps ->
  well_formed (fst (fst (Generation.try_fallbacks strip remote order prompt
                                                  sp now ps))).
Proof.
  induction order as [|n rest IH]; intros ps H; simpl; [exact H|].
  destruct (Generation.is_ready n ps); [|apply IH; exact H].
  destruct (remote n prompt sp) as [content|e].
  - destruct (Generation.has_text strip content).
    + simpl. apply well_formed_update; [apply sound_succeed|exact H].
    + specialize (IH ps H).
      destruct (Generation.try_fallbacks _ _ rest _ _ _ ps) as [[ps' r] c].
      exact IH.
  - specialize (IH (_record_failure n ps)
                   (well_formed_update n _ ps sound_fail H)).
    destruct (Generation.try_fallbacks _ _ rest _ _ _ _) as [[ps' r] c].
    exact IH.
Qed.

Lemma well_formed_generate remote prompt sp now ps :
  well_formed ps ->
  well_formed (fst (fst (Generation.generate_response strip remote prompt
                                                     sp now ps))).
Proof.
  intros H. unfold Generation.generate_response.
  destruct (String.eqb prompt ""); [exact H|].
  assert (Hf : well_formed (_record_failure "gemini" ps))
    by (apply well_formed_update; [apply sound_fail|exact H]).
  assert (Hs : well_formed (_record_success "gemini" now ps))
    by (apply well_formed_update; [apply sound_succeed|exact H]).
  destruct (Generation.is_available "gemini" ps).
  - destruct (remote "gemini" prompt sp) as [content|e].
    + destruct (negb (String.eqb content "")
                && negb (String.eqb content "Erro na extração")
                && negb (String.eqb (strip content) "")).
      * exact Hs.
      * pose proof (well_formed_fallbacks remote
                      ["groq"; "openai"; "huggingface"] prompt sp now _ Hf)
          as Hfb.
        destruct (Generation.try_fallbacks _ _ _ _ _ _ _) as [[ps' r] c].
        exact Hfb.
    + pose proof (well_formed_fallbacks remote
                    ["groq"; "openai"; "huggingface"] prompt sp now _ Hf)
        as Hfb.
      destruct (Generation.try_fallbacks _ _ _ _ _ _ _) as [[ps' r] c].
      exact Hfb.
  - pose proof (well_formed_fallbacks remote
                  ["groq"; "openai"; "huggingface"] prompt sp now _ H)
      as Hfb.
    destruct (Generation.try_fallbacks _ _ _ _ _ _ _) as [[ps' r] c].
    exact Hfb.
Qed.

Lemma well_formed_initial g o q h :
  well_formed (initialize_providers g o q h init_table).
Proof.
  destruct g, o, q, h; repeat constructor; simpl; try lia; discriminate.
Qed.

(** X2.  In every table reached from the initial one by any sequence of
    recorded successes and failures, selections, resets and generation
    calls, whatever the clock and the remote models do, a provider marked
    available has fewer consecutive failures than its limit, the counter is
    never negative and the limit is at least one. *)
Theorem available_means_under_limit g o q h ops name p :
  assoc_get name
    (Registry.history HAS_GEMINI HAS_GROQ_CLIENT HAS_OPENAI strip
       (initialize_providers g o q h init_table) ops) = Some p ->
  1 <= max_errors p /\
  0 <= consecutive_failures p /\
  (available p = true -> consecutive_failures p < max_errors p).
Proof.
  intros Hget.
  assert (Hwf : well_formed
            (Registry.history HAS_GEMINI HAS_GROQ_CLIENT HAS_OPENAI strip
               (initialize_providers g o q h init_table) ops)).
  { clear Hget. unfold Registry.history.
    generalize (well_formed_initial g o q h).
    generalize (initialize_providers g o q h init_table).
    induction ops as [|[t op] ops IH]; intros ps Hps; [exact Hps|].
    simpl. apply IH. unfold Registry.apply. simpl.
    destruct op as [n|n| |r|remote prompt sp].
    - apply well_formed_update; [apply sound_succeed|exact Hps].
    - apply well_formed_update; [apply sound_fail|exact Hps].
    - apply well_formed_select. exact Hps.
    - apply well_formed_reset. exact Hps.
    - apply well_formed_generate. exact Hps. }
  unfold well_formed in Hwf. rewrite List.Forall_forall in Hwf.
  exact (Hwf _ (assoc_get_In _ _ _ Hget)).
Qed.

(** X3.  From a table in which availability agrees with the counters, the
    last-resort reset of [get_best_provider] never produces a candidate:
    when no provider is usable after the re-probing step, every provider is
    marked unavailable and the result is [None]. *)
Theorem last_resort_reset_finds_nobody now ps :
  well_formed ps ->
  List.filter (fun e => usable (snd e)) (probed now ps) = [] ->
  snd (pick now ps) = None /\
  forall name p, In (name, p) (fst (pick now ps)) -> available p = false.
Proof.
  intros Hwf Hnone.
  assert (Hoff : forall name p, In (name, p) (probed now ps) ->
                                available p = false).
  { intros name p Hin.
    assert (Hs : sound p).
    { apply assoc_map_In in Hin. destruct Hin as [p0 [Hin ->]].
      apply sound_reprobe. unfold well_formed in Hwf.
      rewrite List.Forall_forall in Hwf. exact (Hwf _ Hin). }
    rewrite filter_nil_iff in Hnone. specialize (Hnone _ Hin).
    simpl in Hnone. unfold usable in Hnone.
    destruct Hs as (_ & _ & Hlt).
    destruct (available p); [|reflexivity].
    specialize (Hlt eq_refl).
    apply Z.ltb_lt in Hlt. rewrite Hlt in Hnone. discriminate. }
  split.
  - apply (select_after_reset HAS_GEMINI HAS_GROQ_CLIENT HAS_OPENAI now ps
             Hnone).
    apply filter_nil_iff. intros [name p] Hin.
    apply assoc_map_In in Hin. destruct Hin as [p0 [Hin ->]].
    simpl. exact (Hoff _ _ Hin).
  - intros name p Hin. rewrite select_table, Hnone in Hin.
    apply assoc_map_In in Hin. destruct Hin as [p0 [Hin ->]].
    simpl. exact (Hoff _ _ Hin).
Qed.

End HealthFacts.

(** X2 after two generation calls during a full outage and a selection. *)
Lemma available_means_under_limit_witness :
  let p := AIManager.mkProvider true false 1 0 2 None 0 in
  1 <= AIManager.max_errors p /\
  0 <= AIManager.consecutive_failures p /\
  (AIManager.available p = true ->
   AIManager.consecutive_failures p < AIManager.max_errors p).
Proof.
  exact (available_means_under_limit true true true Registry.no_strip
           true false false false
           [ (10, Registry.Generated Registry.outage "analise" None);
             (20, Registry.Generated Registry.outage "analise" None);
             (30, Registry.Selected) ]
           "gemini" (AIManager.mkProvider true false 1 0 2 None 0) eq_refl).
Defined.

(** X3 once the only configured provider has failed twice. *)
Lemma last_resort_reset_finds_nobody_witness :
  let ps := Scenario.fail_times 2 "gemini" Scenario.gemini_only in
  snd (AIManager.get_best_provider true true true 1000 ps) = None /\
  forall name p,
    In (name, p) (fst (AIManager.get_best_provider true true true 1000 ps)) ->
    AIManager.available p = false.
Proof.
  apply (last_resort_reset_finds_nobody true true true 1000
           (Scenario.fail_times 2 "gemini" Scenario.gemini_only)).
  - repeat constructor; simpl; try lia; discriminate.
  - reflexivity.
Defined.

Section SelectableFacts.
Import AIManager.
Variables HAS_GEMINI HAS_GROQ_CLIENT HAS_OPENAI : bool.

Local Abbreviation pick := (get_best_provider HAS_GEMINI HAS_GROQ_CLIENT
                                              HAS_OPENAI).

Lemma usable_entry_gives_answer now ps name q :
  assoc_get name ps = Some q ->
  available q = true ->
  consecutive_failures q < max_errors q ->
  snd (pick now ps) <> None.
Proof.
  intros Hget Hav Hlt.
  assert (Hin : In (name, q)
                   (assoc_map (reprobe HAS_GEMINI HAS_GROQ_CLIENT HAS_OPENAI
                                       now) ps)).
  { replace q with (reprobe HAS_GEMINI HAS_GROQ_CLIENT HAS_OPENAI now name q)
      at 1.
    - apply In_assoc_map, assoc_get_In. exact Hget.
    - unfold reprobe, reprobe_due. rewrite Hav. reflexivity. }
  unfold get_best_provider.
  destruct (List.filter (fun e => usable (snd e)) _) as [|c cs] eqn:Hf.
  - rewrite filter_nil_iff in Hf. specialize (Hf _ Hin). simpl in Hf.
    unfold usable in Hf. rewrite Hav in Hf.
    apply Z.ltb_lt in Hlt. rewrite Hlt in Hf. discriminate.
  - destruct (sort_providers (c :: cs)) as [|e r] eqn:Hs; [|discriminate].
    apply (proj1 (sort_providers_nil _)) in Hs. discriminate.
Qed.

(** X4.  After a success has been recorded for a registered provider, or
    after [reset_provider_errors] has been called with its name, a
    selection made at any time returns a provider. *)
Theorem success_or_reset_makes_selectable now ps name p :
  assoc_get name ps = Some p ->
  1 <= max_errors p ->
  (forall t, snd (pick now (_record_success name t ps)) <> None) /\
  (name <> "" ->
   snd (pick now (reset_provider_errors (Some name) ps)) <> None).
Proof.
  intros Hget Hmax. split.
  - intros t.
    apply (usable_entry_gives_answer now _ name (succeed_provider t p)).
    + unfold _record_success. rewrite assoc_get_update_eq, Hget. reflexivity.
    + reflexivity.
    + simpl. lia.
  - intros Hname. destruct name as [|c s]; [contradiction|].
    apply (usable_entry_gives_answer now _ (String c s)
             (set_available true (zero_counters p))).
    + unfold reset_provider_errors.
      rewrite assoc_get_update_eq, Hget. reflexivity.
    + reflexivity.
    + simpl. lia.
Qed.

End SelectableFacts.

(** X4 on Gemini after it has been disabled by two failures. *)
Lemma success_or_reset_makes_selectable_witness :
  let ps := Scenario.fail_times 2 "gemini" Scenario.gemini_only in
  snd (AIManager.get_best_provider true true true 1000 ps) = None /\
  snd (AIManager.get_best_provider true true true 1000
         (AIManager._record_success "gemini" 999 ps)) <> None /\
  snd (AIManager.get_best_provider true true true 1000
         (AIManager.reset_provider_errors (Some "gemini") ps)) <> None.
Proof.
  destruct (success_or_reset_makes_selectable true true true 1000
              (Scenario.fail_times 2 "gemini" Scenario.gemini_only)
              "gemini" (AIManager.mkProvider true false 1 2 2 None 2)
              eq_refl)
    as [Hs Hr].
  { simpl. lia. }
  split; [reflexivity|]. split; [apply Hs|apply Hr; discriminate].
Defined.

(** * Text generation with fallback *)

Section GenerationFacts.
Import AIManager Generation.
Variable strip : string -> string.
Variable remote : string -> string -> option string -> Exc string.

Lemma is_ready_after_other name other f ps :
  other <> name ->
  is_ready name (assoc_update other f ps) = is_ready name ps.
Proof.
  intros Hne. unfold is_ready. rewrite assoc_get_update_ne by exact Hne.
  reflexivity.
Qed.

Lemma sublist_In {A} (l1 l2 : list A) x :
  l1 `sublist_of` l2 -> In x l1 -> In x l2.
Proof.
  induction 1 as [|y l1 l2 _ IH|y l1 l2 _ IH]; simpl; [tauto| |]; tauto.
Qed.

Lemma sublist_distinct {A} (l1 l2 : list A) :
  l1 `sublist_of` l2 -> List.NoDup l2 -> List.NoDup l1.
Proof.
  induction 1 as [|y l1 l2 Hs IH|y l1 l2 Hs IH]; intros Hnd.
  - constructor.
  - inversion Hnd as [|? ? Hy Hnd']; subst. constructor; [|auto].
    intros Hin. apply Hy. exact (sublist_In _ _ _ Hs Hin).
  - inversion Hnd; subst. auto.
Qed.

Lemma last_cons_nonempty {A} (x : A) l y :
  List.last l x = y -> l <> [] -> forall z, List.last (z :: l) x = y.
Proof. intros H Hl z. destruct l; [contradiction|exact H]. Qed.

(** What the fallback loop does, for an order without repetition. *)
Lemma try_fallbacks_reading order prompt sp now :
  List.NoDup order ->
  forall ps,
    let out := try_fallbacks strip remote order prompt sp now ps in
    let called := snd out in
    called `sublist_of` order /\
    (forall n, In n called -> is_ready n ps = true) /\
    match snd (fst out) with
    | Some r =>
        exists n text q,
          r = answer_of n text /\ has_text strip text = true /\
          List.last called "" = n /\ called <> [] /\
          assoc_get n (fst (fst out)) = Some q /\
          available q = true /\ consecutive_failures q = 0 /\
          last_success q = Some now
    | None => True
    end.
Proof.
  induction 1 as [|n rest Hn Hnd IH]; intros ps; simpl.
  - split; [constructor|]. split; [tauto|exact I].
  - destruct (is_ready n ps) eqn:Hready.
    2:{ destruct (IH ps) as (Hsub & Hr & Hres).
        split; [apply sublist_cons; exact Hsub|]. split; [exact Hr|exact Hres]. }
    destruct (remote n prompt sp) as [text|e].
    + destruct (has_text strip text) eqn:Htext.
      * simpl. split; [apply sublist_skip, sublist_nil_l|].
        split; [intros m [<-|[]]; exact Hready|].
        unfold is_ready in Hready.
        destruct (assoc_get n ps) as [p|] eqn:Hp; [|discriminate].
        exists n, text, (succeed_provider now p).
        repeat split; try reflexivity; try exact Htext; try discriminate.
        unfold _record_success. rewrite assoc_get_update_eq, Hp. reflexivity.
      * destruct (IH ps) as (Hsub & Hr & Hres).
        destruct (try_fallbacks strip remote rest prompt sp now ps)
          as [[ps' r] called]. simpl in *.
        split; [apply sublist_skip; exact Hsub|].
        split; [intros m [<-|Hm]; auto|].
        destruct r as [r|]; [|exact I].
        destruct Hres as (m & t & q & H1 & H2 & H3 & H4 & H5 & H6).
        exists m, t, q.
        split; [exact H1|]. split; [exact H2|].
        split; [apply last_cons_nonempty; assumption|].
        split; [discriminate|]. split; [exact H5|exact H6].
    + destruct (IH (_record_failure n ps)) as (Hsub & Hr & Hres).
      destruct (try_fallbacks strip remote rest prompt sp now
                              (_record_failure n ps))
        as [[ps' r] called]. simpl in *.
      split; [apply sublist_skip; exact Hsub|].
      split.
      { intros m [<-|Hm]; [exact Hready|].
        rewrite <- (is_ready_after_other m n fail_provider ps).
        - apply Hr. exact Hm.
        - intros ->. apply Hn. apply (sublist_In _ _ m) in Hsub; auto. }
      destruct r as [r|]; [|exact I].
      destruct Hres as (m & t & q & H1 & H2 & H3 & H4 & H5 & H6).
      exists m, t, q.
      split; [exact H1|]. split; [exact H2|].
      split; [apply last_cons_nonempty; assumption|].
      split; [discriminate|]. split; [exact H5|exact H6].
Qed.

Lemma fallback_order_distinct : List.NoDup ["groq"; "openai"; "huggingface"].
Proof. repeat constructor; simpl; intuition discriminate. Qed.

Lemma fallback_is_eligible ps f n :
  In n ["groq"; "openai"; "huggingface"] ->
  is_ready n (assoc_update "gemini" f ps) = true ->
  Registry.eligible ps n = true.
Proof.
  intros Hin Hready.
  assert (Hne : "gemini" <> n).
  { simpl in Hin. intuition (subst; discriminate). }
  rewrite is_ready_after_other in Hready by exact Hne.
  unfold Registry.eligible.
  destruct (String.eqb_spec n "gemini"); [congruence|exact Hready].
Qed.

Lemma fallback_is_eligible_same ps n :
  In n ["groq"; "openai"; "huggingface"] ->
  is_ready n ps = true ->
  Registry.eligible ps n = true.
Proof.
  intros Hin Hready. unfold Registry.eligible.
  destruct (String.eqb_spec n "gemini") as [->|]; [|exact Hready].
  simpl in Hin. intuition discriminate.
Qed.

(** X5.  [generate_response] goes through the providers in the fixed order
    Gemini, Groq, OpenAI, HuggingFace, whatever their priorities; it calls
    each at most once and only calls a provider marked available (and, for
    the three fallbacks, holding a client) when the call starts. *)
Theorem generation_calls_only_eligible prompt sp now ps :
  let called := snd (generate_response strip remote prompt sp now ps) in
  called `sublist_of` Registry.generation_order /\
  List.NoDup called /\
  forall n, In n called -> Registry.eligible ps n = true.
Proof.
  assert (Hmain :
    let called := snd (generate_response strip remote prompt sp now ps) in
    called `sublist_of` Registry.generation_order /\
    forall n, In n called -> Registry.eligible ps n = true).
  { unfold generate_response, Registry.generation_order.
    destruct (String.eqb prompt "").
    { simpl. split; [apply sublist_nil_l|tauto]. }
    destruct (is_available "gemini" ps) eqn:Hg.
    - assert (Hfail :
        let out := try_fallbacks strip remote
                     ["groq"; "openai"; "huggingface"] prompt sp now
                     (_record_failure "gemini" ps) in
        ("gemini" :: snd out)
          `sublist_of` ["gemini"; "groq"; "openai"; "huggingface"] /\
        forall n, In n ("gemini" :: snd out) ->
                  Registry.eligible ps n = true).
      { destruct (try_fallbacks_reading
                    ["groq"; "openai"; "huggingface"] prompt sp now
                    fallback_order_distinct (_record_failure "gemini" ps))
          as (Hsub & Hr & _).
        split; [apply sublist_skip; exact Hsub|].
        intros n [<-|Hn]; [exact Hg|].
        apply (fallback_is_eligible ps fail_provider).
        - exact (sublist_In _ _ _ Hsub Hn).
        - apply Hr. exact Hn. }
      destruct (remote "gemini" prompt sp) as [text|e].
      + destruct (negb (String.eqb text "")
                  && negb (String.eqb text "Erro na extração")
                  && negb (String.eqb (strip text) "")).
        * simpl. split; [apply sublist_skip, sublist_nil_l|].
          intros n [<-|[]]. exact Hg.
        * destruct (try_fallbacks strip remote _ prompt sp now
                                  (_record_failure "gemini" ps))
            as [[ps' r] called]. exact Hfail.
      + destruct (try_fallbacks strip remote _ prompt sp now
                                (_record_failure "gemini" ps))
          as [[ps' r] called]. exact Hfail.
    - destruct (try_fallbacks_reading
                  ["groq"; "openai"; "huggingface"] prompt sp now
                  fallback_order_distinct ps)
        as (Hsub & Hr & _).
      destruct (try_fallbacks strip remote _ prompt sp now ps)
        as [[ps' r] called]. simpl in *.
      split; [apply sublist_cons; exact Hsub|].
      intros n Hn. apply fallback_is_eligible_same.
      + exact (sublist_In _ _ _ Hsub Hn).
      + apply Hr. exact Hn. }
  destruct Hmain as [Hsub Hel]. split; [exact Hsub|]. split; [|exact Hel].
  apply (sublist_distinct _ _ Hsub).
  repeat constructor; simpl; intuition discriminate.
Qed.

Lemma has_text_nonempty text : has_text strip text = true -> text <> "".
Proof.
  unfold has_text. intros H ->. discriminate.
Qed.

Lemma last_app_nonempty {A} (l1 l2 : list A) d :
  l2 <> [] -> List.last (l1 ++ l2) d = List.last l2 d.
Proof.
  intros H. induction l1 as [|x l1 IH]; [reflexivity|].
  simpl. destruct (l1 ++ l2) eqn:E; [|exact IH].
  apply app_eq_nil in E. tauto.
Qed.

(** What a successful answer tells about the table. *)
Lemma successful_answer prompt sp now ps :
  let out := generate_response strip remote prompt sp now ps in
  success (snd (fst out)) = true ->
  exists n text q,
    snd (fst out) = answer_of n text /\
    text <> "" /\
    List.last (snd out) "" = n /\
    assoc_get n (fst (fst out)) = Some q /\
    available q = true /\ consecutive_failures q = 0 /\
    last_success q = Some now.
Proof.
  unfold generate_response.
  destruct (String.eqb prompt ""); [simpl; discriminate|].
  assert (Hrest : forall ps1 called1,
    let out := try_fallbacks strip remote ["groq"; "openai"; "huggingface"]
                 prompt sp now ps1 in
    success match snd (fst out) with
            | Some r => r
            | None => failed "Todos os provedores de IA falharam"
            end = true ->
    exists n text q,
      match snd (fst out) with
      | Some r => r
      | None => failed "Todos os provedores de IA falharam"
      end = answer_of n text /\
      text <> "" /\
      List.last (called1 ++ snd out) "" = n /\
      assoc_get n (fst (fst out)) = Some q /\
      available q = true /\ consecutive_failures q = 0 /\
      last_success q = Some now).
  { intros ps1 called1.
    destruct (try_fallbacks_reading ["groq"; "openai"; "huggingface"]
                prompt sp now fallback_order_distinct ps1)
      as (_ & _ & Hres).
    destruct (try_fallbacks strip remote _ prompt sp now ps1)
      as [[ps' r] called]. simpl in *.
    destruct r as [r|]; [|simpl; discriminate].
    destruct Hres as (n & text & q & H1 & H2 & H3 & H4 & H5 & H6).
    intros _. exists n, text, q.
    split; [exact H1|]. split; [apply has_text_nonempty; exact H2|].
    split; [rewrite last_app_nonempty by exact H4; exact H3|].
    split; [exact H5|exact H6]. }
  destruct (is_available "gemini" ps) eqn:Hg.
  - destruct (remote "gemini" prompt sp) as [text|e].
    + destruct (negb (String.eqb text "")
                && negb (String.eqb text "Erro na extração")
                && negb (String.eqb (strip text) "")) eqn:Hgood.
      * simpl. intros _. unfold is_available in Hg.
        destruct (assoc_get "gemini" ps) as [p|] eqn:Hp; [|discriminate].
        exists "gemini", text, (succeed_provider now p).
        split; [reflexivity|]. split.
        { intros ->. discriminate. }
        split; [reflexivity|]. split; [|simpl; auto].
        unfold _record_success. rewrite assoc_get_update_eq, Hp. reflexivity.
      * specialize (Hrest (_record_failure "gemini" ps) ["gemini"]).
        destruct (try_fallbacks strip remote _ prompt sp now
                                (_record_failure "gemini" ps))
          as [[ps' r] called]. exact Hrest.
    + specialize (Hrest (_record_failure "gemini" ps) ["gemini"]).
      destruct (try_fallbacks strip remote _ prompt sp now
                              (_record_failure "gemini" ps))
        as [[ps' r] called]. exact Hrest.
  - specialize (Hrest ps []).
    destruct (try_fallbacks strip remote _ prompt sp now ps)
      as [[ps' r] called]. exact Hrest.
Qed.

(** X6.  When [generate_response] reports success, the provider it names
    is the last one it called, the content is not empty, and that provider
    leaves the call available, with no consecutive failure and with the
    current time as its last success. *)
Theorem generation_success_restores_health prompt sp now ps :
  let out := generate_response strip remote prompt sp now ps in
  success (snd (fst out)) = true ->
  exists n q,
    provider (snd (fst out)) = Some n /\
    error (snd (fst out)) = None /\
    content (snd (fst out)) <> "" /\
    List.last (snd out) "" = n /\
    In n (snd out) /\
    assoc_get n (fst (fst out)) = Some q /\
    available q = true /\ consecutive_failures q = 0 /\
    last_success q = Some now.
Proof.
  intros out Hok.
  destruct (successful_answer prompt sp now ps Hok)
    as (n & text & q & Hr & Htext & Hlast & Hget & Hq).
  exists n, q. fold out in Hr, Hlast, Hget. rewrite Hr. simpl.
  split; [reflexivity|]. split; [reflexivity|]. split; [exact Htext|].
  split; [exact Hlast|]. split; [|split; [exact Hget|exact Hq]].
  destruct (snd out) as [|c cs] eqn:Hc.
  - exfalso. simpl in Hlast. subst n.
    assert (Hcalled : snd (generate_response strip remote prompt sp now ps)
                      = []) by exact Hc.
    clear - Hok Hcalled. subst out. revert Hok Hcalled.
    unfold generate_response.
    destruct (String.eqb prompt ""); [simpl; discriminate|].
    destruct (is_available "gemini" ps).
    + destruct (remote "gemini" prompt sp) as [text|e].
      * destruct (negb (String.eqb text "") && _ && _);
          [simpl; discriminate|].
        destruct (try_fallbacks _ _ _ _ _ _ _) as [[ps' r] called].
        simpl. discriminate.
      * destruct (try_fallbacks _ _ _ _ _ _ _) as [[ps' r] called].
        simpl. discriminate.
    + destruct (try_fallbacks_reading ["groq"; "openai"; "huggingface"]
                  prompt sp now fallback_order_distinct ps)
        as (_ & _ & Hres).
      destruct (try_fallbacks strip remote _ prompt sp now ps)
        as [[ps' r] called]. simpl in *.
      destruct r as [r|]; [|simpl; discriminate].
      destruct Hres as (m & t & q' & _ & _ & _ & Hne & _).
      intros _ ->. contradiction.
  - rewrite <- Hlast. clear. revert c.
    induction cs as [|d cs IH]; intros c; [simpl; auto|].
    change (In (List.last (d :: cs) "") (c :: d :: cs)).
    right. apply IH.
Qed.

(** ** A full outage *)

Section Outage.
Hypothesis all_down : forall n pr sp, exists e, remote n pr sp = Raise e.

Lemma try_fallbacks_outage order prompt sp now :
  List.NoDup order ->
  forall ps,
    try_fallbacks strip remote order prompt sp now ps =
    (fold_left (fun acc n => _record_failure n acc)
               (List.filter (fun n => is_ready n ps) order) ps,
     None,
     List.filter (fun n => is_ready n ps) order).
Proof.
  induction 1 as [|n rest Hn Hnd IH]; intros ps; [reflexivity|].
  cbn [try_fallbacks List.filter].
  destruct (is_ready n ps) eqn:Hready; [|apply IH].
  destruct (all_down n prompt sp) as [e ->].
  rewrite IH.
  assert (Hsame : List.filter (fun m => is_ready m (_record_failure n ps)) rest
                  = List.filter (fun m => is_ready m ps) rest).
  { apply List.filter_ext_in. intros m Hm.
    apply is_ready_after_other. intros ->. contradiction. }
  rewrite Hsame. reflexivity.
Qed.

Lemma eligible_in_order ps :
  List.filter (Registry.eligible ps) Registry.generation_order =
  (if is_available "gemini" ps then ["gemini"] else [])
  ++ List.filter (fun n => is_ready n ps) ["groq"; "openai"; "huggingface"].
Proof.
  unfold Registry.generation_order. cbn [List.filter].
  change (Registry.eligible ps "gemini") with (is_available "gemini" ps).
  destruct (is_available "gemini" ps); reflexivity.
Qed.

(** X7.  When every remote model raises, [generate_response] calls exactly
    the providers that were eligible when it started, in the fixed order,
    records one failure for each of them and for no other provider, and
    returns the failure dictionary whose error is
    [Todos os provedores de IA falharam]. *)
Theorem full_outage_charges_each_eligible_provider prompt sp now ps :
  prompt <> "" ->
  let out := generate_response strip remote prompt sp now ps in
  snd out = List.filter (Registry.eligible ps) Registry.generation_order /\
  snd (fst out) = failed "Todos os provedores de IA falharam" /\
  success (snd (fst out)) = false /\
  fst (fst out) =
    fold_left (fun acc n => _record_failure n acc) (snd out) ps.
Proof.
  intros Hprompt. unfold generate_response.
  destruct (String.eqb_spec prompt ""); [contradiction|].
  rewrite eligible_in_order.
  assert (Hsame :
    List.filter (fun m => is_ready m (_record_failure "gemini" ps))
                ["groq"; "openai"; "huggingface"]
    = List.filter (fun m => is_ready m ps)
                  ["groq"; "openai"; "huggingface"]).
  { apply List.filter_ext_in. intros m Hm.
    apply is_ready_after_other. simpl in Hm. intuition (subst; discriminate). }
  destruct (is_available "gemini" ps).
  - destruct (all_down "gemini" prompt sp) as [e ->].
    rewrite (try_fallbacks_outage _ prompt sp now fallback_order_distinct).
    rewrite Hsame. simpl. repeat split; reflexivity.
  - rewrite (try_fallbacks_outage _ prompt sp now fallback_order_distinct).
    simpl. repeat split; reflexivity.
Qed.

End Outage.

(** X8.  [generate_analysis] never hands back an empty string: it returns
    either the non-empty generated text or a message that starts with
    [Erro na geração]; on an empty prompt it calls no provider, leaves the
    table as it is and returns the invalid-prompt message. *)
Theorem generate_analysis_never_empty prompt sp now ps :
  snd (generate_analysis strip remote prompt sp now ps) <> "" /\
  (prompt = "" ->
   generate_analysis strip remote prompt sp now ps =
   (ps, "Erro na geração: Prompt inválido ou vazio") /\
   snd (generate_response strip remote prompt sp now ps) = []).
Proof.
  split.
  - unfold generate_analysis.
    pose proof (successful_answer prompt sp now ps) as Hok.
    destruct (generate_response strip remote prompt sp now ps)
      as [[ps' r] called]. simpl in Hok.
    destruct (success r) eqn:Hs.
    + destruct (Hok eq_refl) as (n & text & q & -> & Htext & _).
      simpl. exact Htext.
    + simpl. discriminate.
  - intros ->. split; reflexivity.
Qed.

End GenerationFacts.

(** X6 when Gemini is down and Groq answers. *)
Lemma generation_success_restores_health_witness :
  let ps := AIManager.initialize_providers true false true false
              AIManager.init_table in
  let remote := fun name (_ : string) (_ : option string) =>
                  if String.eqb name "gemini" then Raise "timeout"
                  else Ok "analise pronta" in
  let out := Generation.generate_response Registry.no_strip remote
               "analise o mercado" None 42 ps in
  exists n q,
    Generation.provider (snd (fst out)) = Some n /\
    Generation.error (snd (fst out)) = None /\
    Generation.content (snd (fst out)) <> "" /\
    List.last (snd out) "" = n /\
    In n (snd out) /\
    assoc_get n (fst (fst out)) = Some q /\
    AIManager.available q = true /\
    AIManager.consecutive_failures q = 0 /\
    AIManager.last_success q = Some 42.
Proof.
  exact (generation_success_restores_health Registry.no_strip
           (fun name _ _ =>
              if String.eqb name "gemini" then Raise "timeout"
              else Ok "analise pronta")
           "analise o mercado" None 42
           (AIManager.initialize_providers true false true false
              AIManager.init_table)
           eq_refl).
Defined.

(** X7 with Gemini and Groq configured: both are called and charged. *)
Lemma full_outage_charges_each_eligible_provider_witness :
  let ps := AIManager.initialize_providers true false true false
              AIManager.init_table in
  let out := Generation.generate_response Registry.no_strip Registry.outage
               "analise o mercado" None 42 ps in
  snd out = ["gemini"; "groq"] /\
  Generation.success (snd (fst out)) = false /\
  fst (fst out) =
    AIManager._record_failure "groq" (AIManager._record_failure "gemini" ps).
Proof.
  destruct (full_outage_charges_each_eligible_provider
              Registry.no_strip Registry.outage
              (fun _ _ _ => ex_intro _ "connection refused" eq_refl)
              "analise o mercado" None 42
              (AIManager.initialize_providers true false true false
                 AIManager.init_table))
    as (Hcalled & _ & Hfail & Htable).
  { discriminate. }
  split; [exact Hcalled|]. split; [exact Hfail|exact Htable].
Defined.

(** * Duplicate removal *)

Section DedupFacts.
Import Dedup.
Variable lower : string -> string.
Variable strip : string -> string.

Local Abbreviation addr := (address lower strip).

Lemma keep_new_reading seen rs :
  let out := keep_new lower strip seen rs in
  out `sublist_of` rs /\
  (forall r, In r out ->
     addr r <> "" /\ (addr r ∉ seen) /\ (normalized (addr r) ∉ seen)) /\
  List.NoDup (List.map (fun r => normalized (addr r)) out).
Proof.
  revert seen. induction rs as [|r rest IH]; intros seen; simpl.
  - split; [constructor|]. split; [tauto|constructor].
  - destruct (negb (String.eqb (addr r) "")
              && negb (bool_decide (addr r ∈ seen))
              && negb (bool_decide (normalized (addr r) ∈ seen))) eqn:Hkeep.
    + apply andb_true_iff in Hkeep. destruct Hkeep as [Hkeep Hn].
      apply andb_true_iff in Hkeep. destruct Hkeep as [He Hu].
      apply negb_true_iff in He, Hu, Hn.
      apply bool_decide_eq_false in Hu, Hn.
      destruct (IH ({[addr r]} ∪ ({[normalized (addr r)]} ∪ seen)))
        as (Hsub & Hnew & Hnd).
      split; [apply sublist_skip; exact Hsub|]. split.
      * intros x [<-|Hx].
        -- split; [|tauto]. intros E. rewrite E in He. discriminate.
        -- destruct (Hnew x Hx) as (H1 & H2 & H3).
           split; [exact H1|].
           split; intros Hs; [apply H2|apply H3];
             apply elem_of_union_r, elem_of_union_r, Hs.
      * simpl. constructor; [|exact Hnd].
        intros Hin. apply in_map_iff in Hin. destruct Hin as [x [Hx Hin]].
        destruct (Hnew x Hin) as (_ & _ & H3). rewrite Hx in H3.
        apply H3, elem_of_union_r, elem_of_union_l, elem_of_singleton_2.
        reflexivity.
    + destruct (IH seen) as (Hsub & Hnew & Hnd).
      split; [apply sublist_cons; exact Hsub|]. split; assumption.
Qed.

(** X9.  [_remove_duplicates_advanced] keeps a sub-sequence of its input
    in the original order; every kept result has a non-empty address, and
    no two kept results share the address obtained by lowering and
    stripping the URL and dropping its query string and fragment. *)
Theorem duplicates_removed_by_normalized_address rs :
  let out := _remove_duplicates_advanced lower strip rs in
  out `sublist_of` rs /\
  (forall r, In r out -> addr r <> "") /\
  List.NoDup (List.map (fun r => normalized (addr r)) out) /\
  (length out <= length rs)%nat.
Proof.
  destruct (keep_new_reading ∅ rs) as (Hsub & Hnew & Hnd).
  split; [exact Hsub|]. split; [intros r Hr; exact (proj1 (Hnew r Hr))|].
  split; [exact Hnd|]. apply sublist_length. exact Hsub.
Qed.

End DedupFacts.

(** * The search manager: provider order, fallback loop and replay *)

Section SearchOrderFacts.
Import SearchManager.

Lemma order_key_total (a b : string * Provider) :
  key_le a b = false -> key_le b a = true.
Proof.
  unfold key_le.
  rewrite orb_false_iff, andb_false_iff, orb_true_iff, andb_true_iff,
    !Z.ltb_lt, !Z.ltb_ge, Z.eqb_eq, Z.eqb_neq, Z.leb_le, Z.leb_gt.
  lia.
Qed.

Lemma order_key_trans (a b c : string * Provider) :
  key_le a b = true -> key_le b c = true -> key_le a c = true.
Proof.
  unfold key_le.
  rewrite !orb_true_iff, !andb_true_iff, !Z.ltb_lt, !Z.eqb_eq, !Z.leb_le.
  lia.
Qed.

Lemma order_insert_perm x l : Permutation (insert_sorted x l) (x :: l).
Proof.
  induction l as [|y l IH]; simpl; [apply Permutation_refl|].
  destruct (key_le x y); [apply Permutation_refl|].
  eapply perm_trans; [apply perm_skip, IH|apply perm_swap].
Qed.

Lemma order_sort_perm l : Permutation (sort_providers l) l.
Proof.
  induction l as [|x l IH]; simpl; [constructor|].
  eapply perm_trans; [apply order_insert_perm|]. apply perm_skip, IH.
Qed.

Lemma order_insert_sorted x l :
  StronglySorted (fun a b => key_le a b = true) l ->
  StronglySorted (fun a b => key_le a b = true) (insert_sorted x l).
Proof.
  induction 1 as [|y l Hs IH Hall]; simpl.
  - constructor; constructor.
  - destruct (key_le x y) eqn:Hxy.
    + constructor; [constructor; assumption|].
      constructor; [exact Hxy|].
      rewrite List.Forall_forall in Hall. apply List.Forall_forall.
      intros z Hz. apply (order_key_trans _ y); auto.
    + constructor; [exact IH|].
      rewrite List.Forall_forall in Hall. apply List.Forall_forall.
      intros z Hz.
      apply (Permutation_in _ (order_insert_perm x l)) in Hz.
      destruct Hz as [<-|Hz]; [apply order_key_total; exact Hxy|auto].
Qed.

Lemma order_sort_sorted l :
  StronglySorted (fun a b => key_le a b = true) (sort_providers l).
Proof.
  induction l as [|x l IH]; simpl;
    [constructor|apply order_insert_sorted; exact IH].
Qed.

Lemma sorted_tail_dominated {A} (R : A -> A -> Prop) m1 e m2 :
  StronglySorted R (m1 ++ e :: m2) -> Forall (R e) m2.
Proof.
  induction m1 as [|x m1 IH]; simpl; intros H; inversion H; subst; auto.
Qed.

Lemma In_assoc_get {V} k (v : V) d :
  List.NoDup (List.map fst d) -> In (k, v) d -> assoc_get k d = Some v.
Proof.
  induction d as [|[k' v'] d IH]; simpl; [tauto|].
  intros Hnd [H|H].
  - inversion H; subst. rewrite String.eqb_refl. reflexivity.
  - inversion Hnd as [|? ? Hnot Hrest]; subst.
    destruct (String.eqb_spec k' k) as [->|Hne]; [|auto].
    exfalso. apply Hnot. apply (in_map fst) in H. exact H.
Qed.

Lemma filter_keys_distinct {V} (f : string * V -> bool) d :
  List.NoDup (List.map fst d) ->
  List.NoDup (List.map fst (List.filter f d)).
Proof.
  induction d as [|e d IH]; simpl; intros Hnd; [constructor|].
  inversion Hnd as [|? ? Hnot Hrest]; subst.
  destruct (f e); simpl; [|auto].
  constructor; [|auto].
  intros Hin. apply Hnot. apply in_map_iff in Hin.
  destruct Hin as [x [Hx Hin]]. apply filter_In in Hin.
  apply in_map_iff. exists x. tauto.
Qed.

Lemma provider_order_distinct ps :
  List.NoDup (List.map fst ps) -> List.NoDup (_get_provider_order ps).
Proof.
  intros Hnd. unfold _get_provider_order.
  eapply Permutation_NoDup.
  - apply Permutation_map, Permutation_sym, order_sort_perm.
  - apply filter_keys_distinct, Hnd.
Qed.

Lemma provider_order_available ps name :
  In name (_get_provider_order ps) <->
  _is_provider_available name ps = true.
Proof.
  unfold _get_provider_order. rewrite in_map_iff. split.
  - intros [e [<- Hin]].
    apply (Permutation_in _ (order_sort_perm _)) in Hin.
    apply filter_In in Hin. tauto.
  - intros Hav. pose proof Hav as Hav'. unfold _is_provider_available in Hav.
    destruct (assoc_get name ps) as [p|] eqn:Hget; [|discriminate].
    exists (name, p). split; [reflexivity|].
    apply (Permutation_in _ (Permutation_sym (order_sort_perm _))).
    apply filter_In. split; [|exact Hav'].
    induction ps as [|[k v] ps IH]; simpl in *; [discriminate|].
    destruct (String.eqb_spec k name) as [->|Hne]; [left; congruence|].
    right. clear IH Hav'. revert Hget. clear.
    induction ps as [|[k' v'] ps IH]; simpl; [discriminate|].
    destruct (String.eqb_spec k' name) as [->|Hne];
      intros H; [left; congruence|right; auto].
Qed.

(** X10.  In a table with distinct names, [_get_provider_order] lists each
    available provider exactly once and no other name, and a provider
    listed before another has a smaller priority, or the same priority and
    no more errors. *)
Theorem provider_order_lists_available_by_rank ps
  (Hnames : List.NoDup (List.map fst ps)) :
  List.NoDup (_get_provider_order ps) /\
  (forall name, In name (_get_provider_order ps) <->
                _is_provider_available name ps = true) /\
  (forall l1 a l2 b pa pb,
     _get_provider_order ps = l1 ++ a :: l2 -> In b l2 ->
     assoc_get a ps = Some pa -> assoc_get b ps = Some pb ->
     priority pa < priority pb \/
     (priority pa = priority pb /\ error_count pa <= error_count pb)).
Proof.
  split; [apply provider_order_distinct, Hnames|].
  split; [apply provider_order_available|].
  intros l1 a l2 b pa pb Horder Hb Ha Hb'.
  unfold _get_provider_order in Horder.
  set (avail := List.filter (fun e => _is_provider_available (fst e) ps) ps)
    in Horder.
  apply map_eq_app in Horder.
  destruct Horder as (m1 & m2' & Hs & _ & Hm2).
  apply map_eq_cons in Hm2. destruct Hm2 as (ea & m2 & -> & Hea & Hm).
  pose proof (order_sort_sorted avail) as Hsorted. rewrite Hs in Hsorted.
  apply sorted_tail_dominated in Hsorted.
  rewrite <- Hm in Hb. apply in_map_iff in Hb.
  destruct Hb as (eb & Heb & Hin).
  rewrite List.Forall_forall in Hsorted. specialize (Hsorted eb Hin).
  assert (Hmem : forall e, In e (sort_providers avail) ->
                           assoc_get (fst e) ps = Some (snd e)).
  { intros [k v] He. apply (Permutation_in _ (order_sort_perm _)) in He.
    apply filter_In in He. apply In_assoc_get; tauto. }
  assert (Ha' : assoc_get (fst ea) ps = Some (snd ea)).
  { apply Hmem. rewrite Hs. apply in_or_app. right. left. reflexivity. }
  assert (Hb'' : assoc_get (fst eb) ps = Some (snd eb)).
  { apply Hmem. rewrite Hs. apply in_or_app. right. right. exact Hin. }
  rewrite Hea, Ha in Ha'. rewrite Heb, Hb' in Hb''.
  injection Ha' as Ha'. injection Hb'' as Hb''.
  unfold key_le in Hsorted. rewrite <- Ha', <- Hb'' in Hsorted.
  rewrite orb_true_iff, andb_true_iff, Z.ltb_lt, Z.eqb_eq, Z.leb_le
    in Hsorted.
  exact Hsorted.
Qed.

End SearchOrderFacts.

(** X10 on the table built when every key is configured, after one Exa
    error. *)
Lemma provider_order_lists_available_by_rank_witness :
  let ps := SearchManager._record_provider_error "exa"
              (SearchManager.init_providers true true true) in
  List.NoDup (List.map fst ps) /\
  SearchManager._get_provider_order ps = ["exa"; "google"; "serper"; "bing"] /\
  List.NoDup (SearchManager._get_provider_order ps).
Proof.
  assert (Hnames : List.NoDup
            (List.map fst
               (SearchManager._record_provider_error "exa"
                  (SearchManager.init_providers true true true)))).
  { repeat constructor; simpl; intuition discriminate. }
  split; [exact Hnames|]. split; [reflexivity|].
  exact (proj1 (provider_order_lists_available_by_rank _ Hnames)).
Defined.

Section SearchLoopFacts.
Import SearchManager.
Variable strip : string -> string.
Variable _generate_cache_key : string -> Z -> string.
Variable url_ok : string -> bool.

Local Abbreviation loop := (try_providers strip url_ok).
Local Abbreviation search :=
  (search_with_fallback strip _generate_cache_key url_ok).

Lemma substring_length_le s : forall start len,
  (String.length (String.substring start len s) <= len)%nat.
Proof.
  induction s as [|c s IH]; intros [|start] [|len]; simpl; try lia.
  - specialize (IH 0%nat len). lia.
  - apply (IH start 0%nat).
  - apply (IH start (S len)).
Qed.

(** X11.  Every result that leaves [_validate_results] is the cleaned form
    of an input result whose title and URL were non-empty and whose URL
    passed the [urlparse] test; its title is at most 500 and its snippet at
    most 1000 characters long, its URL is the stripped input URL and its
    source is unchanged; and no more results leave than entered. *)
Theorem validated_results_are_bounded rs :
  Forall (fun r =>
            (String.length (title r) <= 500)%nat /\
            (String.length (snippet r) <= 1000)%nat /\
            exists r0,
              In r0 rs /\ title r0 <> "" /\ url r0 <> "" /\
              url_ok (url r0) = true /\
              url r = strip (url r0) /\ source r = source r0)
         (_validate_results strip url_ok rs) /\
  (length (_validate_results strip url_ok rs) <= length rs)%nat.
Proof.
  unfold _validate_results. split.
  - apply List.Forall_forall. intros r Hr. apply in_map_iff in Hr.
    destruct Hr as (r0 & <- & Hin). apply filter_In in Hin.
    destruct Hin as [Hin Hok].
    apply andb_true_iff in Hok. destruct Hok as [Hok Hurl].
    apply andb_true_iff in Hok. destruct Hok as [Ht Hu].
    apply negb_true_iff in Ht, Hu.
    split; [apply substring_length_le|].
    split; [apply substring_length_le|].
    exists r0. split; [exact Hin|].
    split; [intros E; rewrite E in Ht; discriminate|].
    split; [intros E; rewrite E in Hu; discriminate|].
    split; [exact Hurl|]. split; reflexivity.
  - rewrite length_map. apply filter_length_le.
Qed.

Lemma loop_answer backend query max_results cache_key now order :
  forall st st' r rs calls,
    loop backend query max_results cache_key now order st
    = (st', r :: rs, calls) ->
    exists prov hits,
      List.last calls "" = prov /\ In prov calls /\
      backend prov query max_results = Returns hits /\
      _validate_results strip url_ok hits = r :: rs /\
      cache st' !! cache_key = Some (mkEntry (r :: rs) now prov).
Proof.
  induction order as [|n rest IH]; intros st st' r rs calls; simpl;
    [discriminate|].
  assert (Hskip : forall st1,
    (let '(st'', hits, calls0) :=
       loop backend query max_results cache_key now rest st1 in
     (st'', hits, [] ++ calls0)) = (st', r :: rs, calls) ->
    exists prov hits,
      List.last calls "" = prov /\ In prov calls /\
      backend prov query max_results = Returns hits /\
      _validate_results strip url_ok hits = r :: rs /\
      cache st' !! cache_key = Some (mkEntry (r :: rs) now prov)).
  { intros st1 H.
    destruct (loop backend query max_results cache_key now rest st1)
      as [[st'' hits] calls0] eqn:E.
    simpl in H. injection H as -> -> ->. exact (IH _ _ _ _ _ E). }
  assert (Hnext : forall st1,
    (let '(st'', hits, calls0) :=
       loop backend query max_results cache_key now rest st1 in
     (st'', hits, [n] ++ calls0)) = (st', r :: rs, calls) ->
    exists prov hits,
      List.last calls "" = prov /\ In prov calls /\
      backend prov query max_results = Returns hits /\
      _validate_results strip url_ok hits = r :: rs /\
      cache st' !! cache_key = Some (mkEntry (r :: rs) now prov)).
  { intros st1 H.
    destruct (loop backend query max_results cache_key now rest st1)
      as [[st'' hits] calls0] eqn:E.
    simpl in H. injection H as -> -> <-.
    destruct (IH _ _ _ _ _ E) as (prov & hits & Hlast & Hin & Hrest).
    exists prov, hits. split; [|split; [right; exact Hin|exact Hrest]].
    destruct calls0 as [|c0 calls0]; [contradiction|exact Hlast]. }
  destruct (_is_provider_available n (providers st)); simpl;
    [|apply Hskip].
  destruct (known_provider n); simpl; [|apply Hskip].
  destruct (backend n query max_results) as [msg|hits] eqn:Hcall;
    [apply Hnext|].
  destruct (nonempty hits && nonempty (_validate_results strip url_ok hits))
    eqn:Hgood; [|apply Hnext].
  intros H. injection H as <- Hv <-.
  exists n, hits. split; [reflexivity|]. split; [left; reflexivity|].
  split; [exact Hcall|]. split; [exact Hv|].
  simpl. unfold _save_to_cache. rewrite Hv. apply lookup_insert_eq.
Qed.

(** X12.  When a provider answered a search, the results returned are the
    validated hits of the last provider called, they are stored under the
    key of the stripped query with that provider and the clock reading,
    and the same search repeated on the resulting state before [cache_ttl]
    seconds have passed returns the same results without calling any
    provider and without changing the state, whatever the providers would
    answer by then. *)
Theorem answered_search_is_replayed_from_cache backend backend' query
  max_results now now' st st' r rs calls :
  search backend query max_results now st = (st', r :: rs, calls) ->
  calls <> [] ->
  now' - now < cache_ttl ->
  (exists hits,
     backend (List.last calls "") (strip query) max_results = Returns hits /\
     _validate_results strip url_ok hits = r :: rs /\
     cache st' !! _generate_cache_key (strip query) max_results
     = Some (mkEntry (r :: rs) now (List.last calls ""))) /\
  search backend' query max_results now' st' = (st', r :: rs, []).
Proof.
  intros Hrun Hcalls Hfresh. unfold search_with_fallback in *.
  destruct (String.eqb query "" || String.eqb (strip query) "");
    [discriminate|].
  set (key := _generate_cache_key (strip query) max_results) in *.
  assert (Hloop : exists c,
            loop backend (strip query) max_results key now
                 (_get_provider_order (providers st))
                 (mkState (providers st) c) = (st', r :: rs, calls)).
  { destruct (_get_from_cache key now (cache st)) as [c cached].
    destruct cached as [[|r0 rs0]|]; eauto.
    exfalso. apply Hcalls. congruence. }
  destruct Hloop as [c Hloop].
  destruct (loop_answer _ _ _ _ _ _ _ _ _ _ _ Hloop)
    as (prov & hits & Hlast & _ & Hcall & Hv & Hc).
  subst prov. split; [exists hits; auto|].
  unfold _get_from_cache. rewrite Hc. cbn [timestamp results].
  destruct (Z.ltb_spec (now' - now) cache_ttl); [|lia].
  destruct st'; reflexivity.
Qed.

Lemma loop_ledger backend query max_results cache_key now order :
  List.NoDup order ->
  forall st,
    let '(st', _, calls) :=
      loop backend query max_results cache_key now order st in
    calls `sublist_of` order /\
    forall name p,
      assoc_get name (providers st) = Some p ->
      exists p',
        assoc_get name (providers st') = Some p' /\
        enabled p' = enabled p /\ priority p' = priority p /\
        max_errors p' = max_errors p /\
        (In name calls ->
         forall msg, backend name query max_results = Raises msg ->
                     error_count p' = error_count p + 1) /\
        (~ In name calls -> error_count p' = error_count p) /\
        (forall hits, backend name query max_results = Returns hits ->
                      error_count p' = error_count p).
Proof.
  induction order as [|n rest IH]; intros Hnd st; simpl.
  { split; [constructor|]. intros name p Hp. exists p. tauto. }
  inversion Hnd as [|? ? Hfresh Hrest]; subst.
  specialize (IH Hrest).
  assert (Hskip :
    let '(st', _, calls) :=
      (let '(st'', hits, calls0) :=
         loop backend query max_results cache_key now rest st in
       (st'', hits, [] ++ calls0)) in
    calls `sublist_of` n :: rest /\
    forall name p,
      assoc_get name (providers st) = Some p ->
      exists p',
        assoc_get name (providers st') = Some p' /\
        enabled p' = enabled p /\ priority p' = priority p /\
        max_errors p' = max_errors p /\
        (In name calls ->
         forall msg, backend name query max_results = Raises msg ->
                     error_count p' = error_count p + 1) /\
        (~ In name calls -> error_count p' = error_count p) /\
        (forall hits, backend name query max_results = Returns hits ->
                      error_count p' = error_count p)).
  { specialize (IH st).
    destruct (loop backend query max_results cache_key now rest st)
      as [[st'' hits] calls0].
    simpl. destruct IH as [Hsub Hall].
    split; [apply sublist_cons; exact Hsub|exact Hall]. }
  destruct (_is_provider_available n (providers st)); simpl;
    [|exact Hskip].
  destruct (known_provider n); simpl; [|exact Hskip].
  clear Hskip.
  destruct (backend n query max_results) as [msg0|hits0] eqn:Hcall.
  - specialize (IH (mkState (_record_provider_error n (providers st))
                            (cache st))).
    destruct (loop backend query max_results cache_key now rest _)
      as [[st'' hits] calls0].
    simpl. destruct IH as [Hsub Hall].
    split; [apply sublist_skip; exact Hsub|].
    intros name p Hp. cbn [providers] in Hall.
    unfold _record_provider_error in Hall.
    destruct (String.eqb_spec n name) as [->|Hne].
    + destruct (Hall name (add_error p)) as (p' & Hp' & He & Hpr & Hm & _ & Hout & _).
      { rewrite assoc_get_update_eq, Hp. reflexivity. }
      assert (Hnot : ~ In name calls0).
      { intros Hin. apply Hfresh. eapply sublist_In; eauto. }
      specialize (Hout Hnot). simpl in Hout, He, Hpr, Hm.
      exists p'. split; [exact Hp'|]. split; [exact He|].
      split; [exact Hpr|]. split; [exact Hm|]. split; [intros; exact Hout|].
      split; [intros Hno; exfalso; apply Hno; left; reflexivity|].
      intros hits' Hret. rewrite Hret in Hcall. discriminate.
    + destruct (Hall name p) as (p' & Hp' & He & Hpr & Hm & Hin & Hout & Hret).
      { rewrite assoc_get_update_ne by exact Hne. exact Hp. }
      exists p'. split; [exact Hp'|]. split; [exact He|].
      split; [exact Hpr|]. split; [exact Hm|]. split.
      * intros [E|Hc]; [exfalso; apply Hne; exact E|exact (Hin Hc)].
      * split; [|exact Hret]. intros Hno. apply Hout. intros Hc.
        apply Hno. right. exact Hc.
  - destruct (nonempty hits0
              && nonempty (_validate_results strip url_ok hits0)).
    + simpl. split; [apply sublist_skip, sublist_nil_l|].
      intros name p Hp. exists p. split; [exact Hp|].
      split; [reflexivity|]. split; [reflexivity|]. split; [reflexivity|].
      split; [|tauto].
      intros [<-|[]] msg Hr. rewrite Hr in Hcall. discriminate.
    + specialize (IH st).
      destruct (loop backend query max_results cache_key now rest st)
        as [[st'' hits] calls0].
      simpl. destruct IH as [Hsub Hall].
      split; [apply sublist_skip; exact Hsub|].
      intros name p Hp.
      destruct (Hall name p Hp) as (p' & Hp' & He & Hpr & Hm & Hin & Hout & Hret).
      exists p'. split; [exact Hp'|]. split; [exact He|].
      split; [exact Hpr|]. split; [exact Hm|]. split.
      * intros [<-|Hc] msg Hr; [|exact (Hin Hc msg Hr)].
        rewrite Hr in Hcall. discriminate.
      * split; [|exact Hret]. intros Hno. apply Hout. intros Hc.
        apply Hno. right. exact Hc.
Qed.

(** X13.  In a table with distinct names, one [search_with_fallback] calls
    no provider twice, never changes whether a provider is enabled, its
    priority or its error limit, adds exactly one error to every provider
    it called whose call raised, and leaves the error count of every other
    provider as it was: of those it did not call and of those whose call
    returned, even with no usable result. *)
Theorem search_charges_only_raising_providers backend query max_results
  now st name p
  (Hnames : List.NoDup (List.map fst (providers st)))
  (Hentry : assoc_get name (providers st) = Some p) :
  let '(st', _, calls) := search backend query max_results now st in
  List.NoDup calls /\
  exists p',
    assoc_get name (providers st') = Some p' /\
    enabled p' = enabled p /\ priority p' = priority p /\
    max_errors p' = max_errors p /\
    (In name calls ->
     forall msg, backend name (strip query) max_results = Raises msg ->
                 error_count p' = error_count p + 1) /\
    (~ In name calls -> error_count p' = error_count p) /\
    (forall hits, backend name (strip query) max_results = Returns hits ->
                  error_count p' = error_count p).
Proof.
  unfold search_with_fallback.
  assert (Hidle : List.NoDup (@nil string) /\
    exists p',
      assoc_get name (providers st) = Some p' /\
      enabled p' = enabled p /\ priority p' = priority p /\
      max_errors p' = max_errors p /\
      (In name [] ->
       forall msg, backend name (strip query) max_results = Raises msg ->
                   error_count p' = error_count p + 1) /\
      (~ In name [] -> error_count p' = error_count p) /\
      (forall hits, backend name (strip query) max_results = Returns hits ->
                    error_count p' = error_count p)).
  { split; [constructor|]. exists p. simpl. tauto. }
  destruct (String.eqb query "" || String.eqb (strip query) "");
    [exact Hidle|].
  destruct (_get_from_cache _ now (cache st)) as [c cached].
  assert (Hloop :
    let '(st', _, calls) :=
      loop backend (strip query) max_results
           (_generate_cache_key (strip query) max_results) now
           (_get_provider_order (providers st))
           (mkState (providers st) c) in
    List.NoDup calls /\
    exists p',
      assoc_get name (providers st') = Some p' /\
      enabled p' = enabled p /\ priority p' = priority p /\
      max_errors p' = max_errors p /\
      (In name calls ->
       forall msg, backend name (strip query) max_results = Raises msg ->
                   error_count p' = error_count p + 1) /\
      (~ In name calls -> error_count p' = error_count p) /\
      (forall hits, backend name (strip query) max_results = Returns hits ->
                    error_count p' = error_count p)).
  { pose proof (loop_ledger backend (strip query) max_results
                  (_generate_cache_key (strip query) max_results) now
                  (_get_provider_order (providers st))
                  (provider_order_distinct _ Hnames)
                  (mkState (providers st) c)) as H.
    destruct (loop backend (strip query) max_results _ now _ _)
      as [[st' hits] calls].
    destruct H as [Hsub Hall]. split.
    - eapply sublist_distinct; [exact Hsub|].
      apply provider_order_distinct, Hnames.
    - apply (Hall name p). exact Hentry. }
  destruct cached as [[|r rs]|]; [exact Hloop|exact Hidle|exact Hloop].
Qed.

End SearchLoopFacts.

(** X12 on a first search that Bing answers and a second one made half an
    hour later while every engine is down. *)
Lemma answered_search_is_replayed_from_cache_witness :
  let st := SearchManager.init_state false false false in
  let down : SearchManager.Backend :=
    fun _ _ _ => SearchManager.Raises "down" in
  exists st',
    SearchManager.search_with_fallback
      Scenario.no_strip Scenario.plain_key Scenario.any_url
      Scenario.all_up "mercado" 10 0 st = (st', [Scenario.hit], ["bing"]) /\
    SearchManager.search_with_fallback
      Scenario.no_strip Scenario.plain_key Scenario.any_url
      down "mercado" 10 1800 st' = (st', [Scenario.hit], []).
Proof.
  eexists. split; [vm_compute; reflexivity|].
  refine (proj2 (answered_search_is_replayed_from_cache
                   Scenario.no_strip Scenario.plain_key Scenario.any_url
                   Scenario.all_up _ "mercado" 10 0 1800
                   (SearchManager.init_state false false false) _
                   Scenario.hit [] ["bing"] _ _ _)).
  - vm_compute. reflexivity.
  - discriminate.
  - vm_compute. reflexivity.
Defined.

(** X13 on a search during which Exa raises and Google answers: Exa is
    charged one error. *)
Lemma search_charges_only_raising_providers_witness :
  List.NoDup
    (List.map fst
       (SearchManager.providers (SearchManager.init_state true true true))) /\
  List.NoDup
    (snd (SearchManager.search_with_fallback
            Scenario.no_strip Scenario.plain_key Scenario.any_url
            Scenario.exa_down "mercado" 10 0
            (SearchManager.init_state true true true))) /\
  exists p',
    assoc_get "exa"
      (SearchManager.providers
         (fst (fst (SearchManager.search_with_fallback
                      Scenario.no_strip Scenario.plain_key Scenario.any_url
                      Scenario.exa_down "mercado" 10 0
                      (SearchManager.init_state true true true)))))
    = Some p' /\
    SearchManager.error_count p' = 1.
Proof.
  assert (Hnames : List.NoDup
            (List.map fst
               (SearchManager.providers
                  (SearchManager.init_state true true true)))).
  { repeat constructor; simpl; intuition discriminate. }
  split; [exact Hnames|].
  pose proof (search_charges_only_raising_providers
                Scenario.no_strip Scenario.plain_key Scenario.any_url
                Scenario.exa_down "mercado" 10 0
                (SearchManager.init_state true true true) "exa"
                (SearchManager.mkProvider true 1 0 3) Hnames eq_refl) as H.
  vm_compute in H. destruct H as (Hnd & p' & Hget & _ & _ & _ & Hin & _).
  split; [exact Hnd|]. exists p'. split; [exact Hget|].
  exact (Hin (or_introl eq_refl) "timeout" eq_refl).
Defined.

Section ComprehensiveFacts.
Import SearchManager.
Variable rank : string -> list SearchResult -> list SearchResult.

Lemma consult_reading backend name query n keep report_empty wanted ps
  hits calls sources errs :
  consult backend name query n keep report_empty wanted ps
  = (hits, calls, sources, errs) ->
  (calls = [] /\ sources = [] /\ errs = [] /\ hits = []) \/
  (wanted = true /\ _is_provider_available name ps = true /\
   calls = [name] /\
   ((sources = [name] /\ errs = []) \/
    (sources = [] /\ hits = [] /\ (errs = [name] \/ errs = [])))).
Proof.
  unfold consult. destruct wanted; simpl.
  2:{ intros [= <- <- <- <-]. left. auto. }
  destruct (_is_provider_available name ps); simpl.
  2:{ intros [= <- <- <- <-]. left. auto. }
  destruct (backend name query n) as [msg|[|h hs]].
  - intros [= <- <- <- <-]. right. auto 10.
  - intros [= <- <- <- <-]. right.
    destruct report_empty; auto 10.
  - intros [= <- <- <- <-]. right. auto 10.
Qed.

(** X14.  [comprehensive_search] calls the engines at most once each, in
    the order exa, google, serper, bing, and only engines that are
    available; every engine it reports as a source or as an error is one
    it called, and none is reported as both; the reported total is the
    number of final results, which is zero when the search fails; and when
    Bing was called and the search succeeded, Bing is among the sources. *)
Theorem comprehensive_search_call_discipline backend query num_results st :
  let '(report, calls) :=
    comprehensive_search rank backend query num_results st in
  calls `sublist_of` ["exa"; "google"; "serper"; "bing"] /\
  (forall name, In name calls ->
                _is_provider_available name (providers st) = true) /\
  sources_used report `sublist_of` calls /\
  errors report `sublist_of` calls /\
  (forall name, In name (sources_used report) ->
                ~ In name (errors report)) /\
  total_results report = Z.of_nat (length (final_results report)) /\
  (success report = false -> final_results report = []) /\
  (In "bing" calls -> success report = true ->
   In "bing" (sources_used report)).
Proof.
  unfold comprehensive_search.
  destruct (consult backend "exa" _ _ _ _ _ _) as [[[r1 c1] s1] e1] eqn:E1.
  destruct (consult backend "google" _ _ _ _ _ _)
    as [[[r2 c2] s2] e2] eqn:E2.
  destruct (consult backend "serper" _ _ _ _ _ _)
    as [[[r3 c3] s3] e3] eqn:E3.
  destruct (consult backend "bing" _ _ _ _ _ _) as [[[r4 c4] s4] e4] eqn:E4.
  apply consult_reading in E1, E2, E3, E4.
  assert (Hbing : In "bing" c4 ->
                  nonempty (((r1 ++ r2) ++ r3) ++ r4) = true ->
                  In "bing" s4).
  { intros Hin Hne.
    destruct E4 as [(-> & _)|(Hw & _ & _ & [[-> _]|(_ & -> & _)])].
    - contradiction.
    - left. reflexivity.
    - apply Z.eqb_eq in Hw.
      destruct ((r1 ++ r2) ++ r3); [discriminate Hne|].
      simpl in Hw. lia. }
  destruct (nonempty (((r1 ++ r2) ++ r3) ++ r4)) eqn:Hne;
    cbn [sources_used errors total_results final_results success];
    (split; [|split; [|split; [|split; [|split; [|split;
       [reflexivity|split; [intros; try reflexivity; discriminate|]]]]]]]).
  all: destruct E1 as [(-> & -> & -> & _)
                      |(_ & A1 & -> & [[-> ->]|(-> & _ & [->| ->])])];
       destruct E2 as [(-> & -> & -> & _)
                      |(_ & A2 & -> & [[-> ->]|(-> & _ & [->| ->])])];
       destruct E3 as [(-> & -> & -> & _)
                      |(_ & A3 & -> & [[-> ->]|(-> & _ & [->| ->])])];
       destruct E4 as [(-> & -> & -> & _)
                      |(_ & A4 & -> & [[-> ->]|(-> & _ & [->| ->])])];
       simpl;
       try (repeat first [apply sublist_nil | apply sublist_skip
                         | apply sublist_cons]; fail);
       try (intros name Hin;
            repeat (destruct Hin as [<-|Hin]; [assumption|]);
            contradiction);
       try (intros name H1 H2;
            repeat (destruct H1 as [<-|H1];
                    [repeat (destruct H2 as [H2|H2];
                             [discriminate H2|]); contradiction|]);
            contradiction);
       try (intros Hin Hs;
            first [ discriminate Hs
                  | exfalso;
                    repeat (destruct Hin as [Hin|Hin]; [discriminate Hin|]);
                    exact Hin
                  | exfalso; exact (Hbing (or_introl eq_refl) eq_refl)
                  | repeat (first [left; reflexivity | right]) ]).
Qed.

End ComprehensiveFacts.

(** * Sessions: progress, reset, pause and resume *)

Section SessionFacts.
Import Orchestrator Sessions.
Variable py_str : PyVal -> string.
Variable now_iso : string.
Variable reg : Registry.
Variable percentage : Z -> PyVal.
Variable step_text : PyVal -> string.

Local Abbreviation run_of data sid cb t0 t1 st :=
  (execute_synchronized_analysis py_str now_iso reg data sid cb t0 t1 st).
Local Abbreviation progress := (get_session_progress percentage step_text).

Lemma run_leaves_one_entry data sid cb t0 t1 st :
  Py.truthy data = true ->
  exists s,
    execution_state (fst (fst (run_of data sid cb t0 t1 st)))
    = <[sid := s]> (execution_state st).
Proof.
  intros Hdata.
  assert (Hcases : quiet cb \/
            exists f n e, cb = Some f /\
                          first_failure f progress_messages = Some (n, e)).
  { destruct cb as [f|]; [|left; exact I].
    destruct (first_failure f progress_messages) as [[n e]|] eqn:Hf.
    - right. eauto.
    - left. exact Hf. }
  destruct Hcases as [Hq|(f & n & e & -> & Hf)].
  - rewrite (run_to_completion py_str now_iso reg data sid cb t0 t1 st
               Hdata Hq).
    cbn [fst execution_state]. eexists. apply alter_insert_eq.
  - destruct (run_interrupted py_str now_iso reg data sid f t0 t1 st n e
                Hdata Hf) as (k & m & _ & ->).
    cbn [fst execution_state]. eexists. reflexivity.
Qed.

(** X15.  After a run that reached its end, [get_session_progress]
    reports the session as completed at 100 percent; after a run that the
    progress callback aborted, it reports the session as still being
    processed, with the percentage of the time elapsed since the run
    started, at whatever time it is asked; after [reset_session] or
    [emergency_reset] it knows nothing of the session; and neither the run
    nor the reset of one session changes what is reported for another. *)
Theorem progress_follows_run_outcome data sid cb t0 t1 now st
  (Hdata : Py.truthy data = true) :
  let after := fst (fst (run_of data sid cb t0 t1 st)) in
  (quiet cb ->
   progress sid now after =
   Some (VDict [("completed", VBool true); ("percentage", VInt 100)])) /\
  (forall f n e,
     cb = Some f -> first_failure f progress_messages = Some (n, e) ->
     progress sid now after =
     Some (VDict [("completed", VBool false);
                  ("percentage", percentage (now - t0));
                  ("current_step",
                   VStr (step_text (percentage (now - t0))))])) /\
  progress sid now (fst (reset_session sid after)) = None /\
  progress sid now (fst (emergency_reset after)) = None /\
  (forall other,
     other <> sid ->
     progress other now after = progress other now st /\
     progress other now (fst (reset_session sid after))
     = progress other now st).
Proof.
  intros after. subst after. split; [|split; [|split; [|split]]].
  - intros Hq.
    rewrite (run_to_completion py_str now_iso reg data sid cb t0 t1 st
               Hdata Hq).
    unfold get_session_progress. cbn [fst execution_state].
    rewrite alter_insert_eq, lookup_insert_eq. reflexivity.
  - intros f n e -> Hf.
    destruct (run_interrupted py_str now_iso reg data sid f t0 t1 st n e
                Hdata Hf) as (k & m & _ & ->).
    unfold get_session_progress. cbn [fst execution_state].
    rewrite lookup_insert_eq. reflexivity.
  - unfold get_session_progress, reset_session.
    cbn [fst execution_state]. rewrite lookup_delete_eq. reflexivity.
  - reflexivity.
  - intros other Hother.
    destruct (run_leaves_one_entry data sid cb t0 t1 st Hdata) as [s Hs].
    unfold get_session_progress, reset_session.
    cbn [fst execution_state]. rewrite Hs.
    rewrite lookup_delete_ne by congruence.
    rewrite lookup_insert_ne by congruence. split; reflexivity.
Qed.

End SessionFacts.

(** X15 on the spec's request run without a callback and asked about at
    time 100. *)
Lemma progress_follows_run_outcome_witness :
  Py.truthy Scenario.request = true /\
  Sessions.get_session_progress (fun _ => VInt 0) (fun _ => "") "s1" 100
    (fst (fst (Scenario.pipeline_run Scenario.no_services None)))
  = Some (VDict [("completed", VBool true); ("percentage", VInt 100)]).
Proof.
  split; [reflexivity|].
  exact (proj1 (progress_follows_run_outcome
                  Scenario.show Scenario.timestamp Scenario.no_services
                  (fun _ => VInt 0) (fun _ => "")
                  Scenario.request "s1" None 0 5 100 Scenario.fresh
                  eq_refl) I).
Defined.

Section SessionRouteFacts.
Import AnalysisRoute SessionRoutes.
Variable py_str : PyVal -> string.
Variable now_iso : string.
Variable reg : Orchestrator.Registry.
Variable iniciar_sessao : string.

Local Abbreviation handle data t0 t1 active st :=
  (analyze py_str now_iso reg iniciar_sessao data t0 t1 active st).

Lemma set_status_same a text :
  session_status a = text -> set_status text a = a.
Proof. destruct a; simpl; intros ->; reflexivity. Qed.

(** X16.  Pausing a running session answers 200 and stores it as paused
    with its data kept; pausing it again is refused with 400 and changes
    nothing; resuming it answers 200 and puts the store back as it was
    before the pause. *)
Theorem pause_then_resume_restores_session sid active a
  (Hentry : active !! sid = Some a)
  (Hrunning : session_status a = "running") :
  let paused := snd (pause_session sid active) in
  code (fst (pause_session sid active)) = 200 /\
  paused !! sid = Some (set_status "paused" a) /\
  code (fst (pause_session sid paused)) = 400 /\
  snd (pause_session sid paused) = paused /\
  code (fst (resume_session sid paused)) = 200 /\
  snd (resume_session sid paused) = active.
Proof.
  intros paused. subst paused.
  assert (Hpause : pause_session sid active
                   = (mkResponse
                        (VDict [("success", VBool true);
                                ("message", VStr "Sessão pausada com sucesso");
                                ("session_id", VStr sid);
                                ("status", VStr "paused")])
                        200,
                      <[sid := set_status "paused" a]> active)).
  { unfold pause_session. rewrite Hentry, Hrunning. reflexivity. }
  rewrite Hpause. cbn [fst snd code].
  assert (Hp : (<[sid := set_status "paused" a]> active) !! sid
               = Some (set_status "paused" a)) by apply lookup_insert_eq.
  unfold pause_session, resume_session. rewrite Hp.
  cbn [set_status session_status].
  change (String.eqb "paused" "running") with false.
  change (String.eqb "paused" "paused") with true.
  cbn [negb fst snd code session_data session_error].
  split; [reflexivity|]. split; [reflexivity|].
  split; [reflexivity|]. split; [reflexivity|]. split; [reflexivity|].
  rewrite insert_insert_eq. apply insert_id. rewrite Hentry. f_equal.
  symmetry. apply (set_status_same a "running" Hrunning).
Qed.

(** X17.  [pause_session] answers 200 exactly on a stored session that is
    running and [resume_session] exactly on a stored session that is
    paused; a request answered otherwise changes nothing; and neither
    route ever touches another session, adds or removes a session, or
    changes the data stored with a session. *)
Theorem pause_and_resume_are_guarded sid active :
  (code (fst (pause_session sid active)) = 200 <->
   exists a, active !! sid = Some a /\ session_status a = "running") /\
  (code (fst (resume_session sid active)) = 200 <->
   exists a, active !! sid = Some a /\ session_status a = "paused") /\
  (code (fst (pause_session sid active)) <> 200 ->
   snd (pause_session sid active) = active) /\
  (code (fst (resume_session sid active)) <> 200 ->
   snd (resume_session sid active) = active) /\
  (forall other,
     session_data <$> snd (pause_session sid active) !! other
     = session_data <$> active !! other /\
     session_data <$> snd (resume_session sid active) !! other
     = session_data <$> active !! other) /\
  (forall other,
     other <> sid ->
     snd (pause_session sid active) !! other = active !! other /\
     snd (resume_session sid active) !! other = active !! other).
Proof.
  unfold pause_session, resume_session.
  destruct (active !! sid) as [a|] eqn:Hentry.
  2:{ cbn [fst snd code].
      repeat split; try (intros; discriminate); try reflexivity.
      - intros (a & Ha & _). discriminate Ha.
      - intros (a & Ha & _). discriminate Ha. }
  destruct (String.eqb_spec (session_status a) "running") as [Hr|Hr];
    destruct (String.eqb_spec (session_status a) "paused") as [Hp|Hp];
    cbn [negb fst snd code].
  - rewrite Hr in Hp. discriminate Hp.
  - split; [split; [eauto|reflexivity]|].
    split; [split; [discriminate|]|].
    { intros (b & Hb & Hb'). congruence. }
    split; [intros H; exfalso; apply H; reflexivity|].
    split; [reflexivity|]. split.
    + intros other. split; [|reflexivity].
      destruct (String.eqb_spec other sid) as [->|Hne].
      * rewrite lookup_insert_eq, Hentry. reflexivity.
      * rewrite lookup_insert_ne by congruence. reflexivity.
    + intros other Hne. split; [|reflexivity].
      apply lookup_insert_ne. congruence.
  - split; [split; [discriminate|]|].
    { intros (b & Hb & Hb'). congruence. }
    split; [split; [eauto|reflexivity]|].
    split; [reflexivity|].
    split; [intros H; exfalso; apply H; reflexivity|]. split.
    + intros other. split; [reflexivity|].
      destruct (String.eqb_spec other sid) as [->|Hne].
      * rewrite lookup_insert_eq, Hentry. reflexivity.
      * rewrite lookup_insert_ne by congruence. reflexivity.
    + intros other Hne. split; [reflexivity|].
      apply lookup_insert_ne. congruence.
  - split; [split; [discriminate|]|].
    { intros (b & Hb & Hb'). congruence. }
    split; [split; [discriminate|]|].
    { intros (b & Hb & Hb'). congruence. }
    repeat split; reflexivity.
Qed.

(** X18.  A request whose body is an object with usable [segmento] and
    [produto] is always answered with 200 and [success: true], whatever
    the services do: all thirteen stages run, the session ends [completed]
    in the route's store and in the orchestrator's, and the reported
    processing time is the placeholder [N/A], the orchestrator's result
    carrying no [metadata]. *)
Theorem valid_request_completes data t0 t1 active st
  (Hdict : Py.is_dict data = true)
  (Hfields : lacks_mandatory data = false) :
  let r := handle data t0 t1 active st in
  code (response r) = 200 /\
  success_flag (response r) = Some (VBool true) /\
  Py.get (body (response r)) "processing_time" VNone = Ok (VStr "N/A") /\
  Py.get (body (response r)) "session_id" VNone
  = Ok (VStr iniciar_sessao) /\
  active_sessions r !! iniciar_sessao
  = Some (mkActive "completed" data None) /\
  Orchestrator.session_status iniciar_sessao (orchestrator r)
  = Some "completed" /\
  Orchestrator.stages_run (trace r)
  = [1; 2; 3; 4; 5; 6; 7; 8; 9; 10; 11; 12; 13].
Proof.
  destruct data as [| | | | | |d]; try discriminate Hdict.
  unfold lacks_mandatory in Hfields. cbn [Py.get] in Hfields.
  apply orb_false_iff in Hfields. destruct Hfields as [Hs Hp].
  apply negb_false_iff in Hs, Hp.
  assert (Hne : Py.truthy (VDict d) = true).
  { destruct d; [discriminate Hs|reflexivity]. }
  intros r. subst r. unfold analyze. rewrite Hne. cbn [negb].
  unfold analyze_body. cbn [Py.get]. rewrite Hs, Hp. cbn [negb orb].
  rewrite (run_to_completion py_str now_iso reg) by exact eq_refl.
  match goal with
  | |- context [Orchestrator.full_trace ?b ?a ?o] =>
      assert (Htr : Orchestrator.stages_run (Orchestrator.full_trace b a o)
                    = [1; 2; 3; 4; 5; 6; 7; 8; 9; 10; 11; 12; 13])
        by (rewrite full_trace_stages by reflexivity; reflexivity);
      generalize dependent (Orchestrator.full_trace b a o)
  end.
  intros tr Htr.
  match goal with
  | |- context [Orchestrator.success_envelope _ _ ?f] => generalize f
  end.
  intros fin. cbn.
  split; [reflexivity|]. split; [reflexivity|]. split; [reflexivity|].
  split; [reflexivity|]. split; [apply lookup_insert_eq|].
  split; [apply completed_status|exact Htr].
Qed.

(** X19.  A request whose body is a non-empty object without a usable
    [segmento] or [produto] is refused, yet its session has already been
    stored as running: it stays in the store, where it can be paused, and
    cannot be resumed before that. *)
Theorem rejected_request_leaves_running_session data t0 t1 active st
  (Hdict : Py.is_dict data = true)
  (Hbody : Py.truthy data = true)
  (Hfields : lacks_mandatory data = true) :
  let r := handle data t0 t1 active st in
  code (response r) = 400 /\
  active_sessions r
  = <[iniciar_sessao := mkActive "running" data None]> active /\
  code (fst (pause_session iniciar_sessao (active_sessions r))) = 200 /\
  snd (pause_session iniciar_sessao (active_sessions r)) !! iniciar_sessao
  = Some (mkActive "paused" data None) /\
  code (fst (resume_session iniciar_sessao (active_sessions r))) = 400.
Proof.
  destruct data as [| | | | | |d]; try discriminate Hdict.
  unfold lacks_mandatory in Hfields. cbn [Py.get] in Hfields.
  intros r. subst r. unfold analyze. rewrite Hbody. cbn [negb].
  unfold analyze_body. cbn [Py.get]. rewrite Hfields.
  cbn [response active_sessions code].
  split; [reflexivity|]. split; [reflexivity|].
  unfold pause_session, resume_session. rewrite lookup_insert_eq.
  cbn [session_status String.eqb negb fst snd code set_status session_data
       session_error].
  split; [reflexivity|]. split; [apply lookup_insert_eq|reflexivity].
Qed.

End SessionRouteFacts.

(** X16 on a store holding one running session. *)
Lemma pause_then_resume_restores_session_witness :
  let a := AnalysisRoute.mkActive "running" Scenario.request None in
  let active : gmap string AnalysisRoute.Active := {[ "s1" := a ]} in
  active !! "s1" = Some a /\
  snd (SessionRoutes.resume_session "s1"
         (snd (SessionRoutes.pause_session "s1" active))) = active.
Proof.
  intros a active.
  assert (Hentry : active !! "s1" = Some a) by apply lookup_singleton_eq.
  split; [exact Hentry|].
  destruct (pause_then_resume_restores_session "s1" active a Hentry eq_refl)
    as (_ & _ & _ & _ & _ & H).
  exact H.
Defined.

(** X18 on the spec's request with no service registered. *)
Lemma valid_request_completes_witness :
  let data := VDict [("segmento", VStr "fitness");
                     ("produto", VStr "coaching app")] in
  AnalysisRoute.lacks_mandatory data = false /\
  AnalysisRoute.code
    (AnalysisRoute.response
       (AnalysisRoute.analyze Scenario.show Scenario.timestamp
          Scenario.no_services "s1" data 0 5 ∅ Scenario.fresh)) = 200.
Proof.
  intros data. split; [reflexivity|].
  exact (proj1 (valid_request_completes
                  Scenario.show Scenario.timestamp Scenario.no_services "s1"
                  data 0 5 ∅ Scenario.fresh eq_refl eq_refl)).
Defined.

(** X19 on a request that names a segment but no product. *)
Lemma rejected_request_leaves_running_session_witness :
  let data := VDict [("segmento", VStr "fitness")] in
  AnalysisRoute.lacks_mandatory data = true /\
  AnalysisRoute.code
    (fst (SessionRoutes.pause_session "s1"
            (AnalysisRoute.active_sessions
               (AnalysisRoute.analyze Scenario.show Scenario.timestamp
                  Scenario.no_services "s1" data 0 5 ∅ Scenario.fresh))))
  = 200.
Proof.
  intros data. split; [reflexivity|].
  destruct (rejected_request_leaves_running_session
              Scenario.show Scenario.timestamp Scenario.no_services "s1"
              data 0 5 ∅ Scenario.fresh eq_refl eq_refl eq_refl)
    as (_ & _ & H & _).
  exact H.
Defined.

(** * The shape of what the stages hand on *)

Section ShapeFacts.
Import Orchestrator Shape.
Variable py_str : PyVal -> string.
Variable now_iso : string.
Variable reg : Registry.

Lemma status_is_shape r text :
  yields (fun good => good = true -> is_dictionary r) (status_is r text).
Proof.
  unfold status_is, yields, is_dictionary.
  destruct r as [|b|n|q|s|l|d]; cbn [Py.truthy];
    try (intros; discriminate);
    try (destruct b); try (destruct (n =? 0));
    try (destruct (Qnum q =? 0)); try (destruct (String.eqb s ""));
    try (destruct l); try (destruct d);
    cbn; try exact I; try (intros; discriminate); intros; reflexivity.
Qed.

Lemma found_shape r :
  yields (fun ok => ok = true -> is_dictionary r) (found r).
Proof.
  unfold found, yields, is_dictionary.
  destruct r as [|b|n|q|s|l|d]; cbn [Py.truthy];
    try (intros; discriminate);
    try (destruct b); try (destruct (n =? 0));
    try (destruct (Qnum q =? 0)); try (destruct (String.eqb s ""));
    try (destruct l); try (destruct d);
    cbn; try exact I; try (intros; discriminate); intros; reflexivity.
Qed.

(** The guard [r and r.get('status') == 'success'] around a routed call. *)
Lemma status_guard_shape svc pats args kw :
  yields dict_if_any
    (if registered reg svc then
       bind (route reg svc pats args kw) (fun x =>
       bind (status_is x "success") (fun good =>
       ret (if good then Some x else None)))
     else ret None).
Proof.
  destruct (registered reg svc); [|exact I].
  apply yields_then. intros x.
  eapply yields_bind; [apply status_is_shape|].
  intros [|] Hx; [exact (Hx eq_refl)|exact I].
Qed.

Ltac through :=
  repeat first
    [ exact I
    | exact eq_refl
    | apply yields_then; intros ?
    | match goal with
      | |- yields _ (if ?c then _ else _) => destruct c
      end ].

Lemma web_search_shape data sid :
  is_dictionary (snd (_execute_real_web_search_async py_str reg data sid)).
Proof.
  apply (try_except_shape is_dictionary); [|intros; exact eq_refl].
  apply yields_then; intros q.
  apply yields_then; intros query.
  eapply yields_bind; [apply status_guard_shape|].
  intros [r|] Hr; [exact Hr|].
  apply (yields_bind dict_if_any).
  - destruct (perform_search reg) as [m|]; [|exact I].
    unfold direct. destruct (m _ _) as [sr|e]; [|exact I].
    unfold yields. cbn. destruct (Py.truthy sr); [exact eq_refl|exact I].
  - intros [r|] Hr'; [exact Hr'|exact eq_refl].
Qed.

Lemma social_analysis_shape data sid :
  is_dictionary
    (snd (_execute_real_social_analysis_async py_str reg data sid)).
Proof.
  apply (try_except_shape is_dictionary); [|intros; exact eq_refl].
  apply yields_then; intros seg.
  apply yields_then; intros prod.
  apply (yields_bind dict_if_any).
  - through.
  - intros [r|] Hr; [exact Hr|].
    apply (yields_bind dict_if_any).
    + destruct (enhanced_social_search reg); through.
    + intros [r|] Hr'; [exact Hr'|exact eq_refl].
Qed.

Lemma avatar_shape web social project sid :
  is_dictionary
    (snd (_execute_real_avatar_analysis_async py_str reg web social project
                                              sid)).
Proof.
  apply (try_except_shape is_dictionary); [|intros; exact eq_refl].
  eapply yields_bind; [apply status_guard_shape|].
  intros [r|] Hr; [exact Hr|]. unfold count. through.
Qed.

Lemma drivers_truthy avatar web project sid :
  is_truthy
    (snd (_execute_real_mental_drivers_async reg avatar web project sid)).
Proof.
  apply (try_except_shape is_truthy); [|intros; exact eq_refl].
  destruct (negb (registered reg "mental_drivers")); [exact eq_refl|].
  apply yields_then; intros seg.
  apply yields_then; intros prod.
  apply yields_then; intros drivers_system.
  unfold yields, is_truthy, Py.or_else. cbn [ret snd].
  destruct (Py.truthy drivers_system) eqn:Ht; [exact Ht|exact eq_refl].
Qed.

Lemma found_guard_shape (m : Comp PyVal) (otherwise : Comp PyVal) :
  yields is_dictionary otherwise ->
  yields is_dictionary
    (bind m (fun result =>
     bind (found result) (fun ok => if ok then ret result else otherwise))).
Proof.
  intros Hother. apply yields_then. intros result.
  eapply yields_bind; [apply found_shape|].
  intros [|] Hok; [exact (Hok eq_refl)|exact Hother].
Qed.

Lemma visual_proofs_shape drivers project sid :
  is_dictionary
    (snd (_execute_real_visual_proofs_async py_str reg drivers project sid)).
Proof.
  apply (try_except_shape is_dictionary); [|intros; exact eq_refl].
  destruct (negb (registered reg "visual_proofs")); [exact eq_refl|].
  apply yields_then; intros seg.
  apply yields_then; intros prod.
  apply found_guard_shape. through.
Qed.

Lemma anti_objection_shape drivers avatar data sid :
  is_dictionary
    (snd (_execute_real_anti_objection_async py_str reg drivers avatar data
                                             sid)).
Proof.
  apply (try_except_shape is_dictionary); [|intros; exact eq_refl].
  destruct (negb (registered reg "anti_objection")); [exact eq_refl|].
  apply yields_then; intros prod.
  apply found_guard_shape. through.
Qed.

Lemma pre_pitch_shape drivers anti project sid :
  is_dictionary
    (snd (_execute_real_pre_pitch_async py_str reg drivers anti project sid)).
Proof.
  apply (try_except_shape is_dictionary); [|intros; exact eq_refl].
  destruct (negb (registered reg "pre_pitch")); [exact eq_refl|].
  apply found_guard_shape. through.
Qed.

Lemma predictions_shape web social sid :
  is_dictionary
    (snd (_execute_real_future_predictions_async reg web social sid)).
Proof.
  apply (try_except_shape is_dictionary); [|intros; exact eq_refl].
  destruct (negb (registered reg "future_prediction")); [exact eq_refl|].
  apply found_guard_shape. through.
Qed.

Lemma competition_shape web project sid :
  is_dictionary
    (snd (_execute_real_competition_analysis_async py_str reg web project
                                                   sid)).
Proof.
  apply (try_except_shape is_dictionary); [|intros; exact eq_refl].
  eapply yields_bind; [apply status_guard_shape|].
  intros [r|] Hr; [exact Hr|]. unfold count. through.
Qed.

Lemma insights_shape web social sid :
  is_dictionary
    (snd (_execute_real_insights_extraction_async reg web social sid)).
Proof.
  apply (try_except_shape is_dictionary); [|intros; exact eq_refl].
  eapply yields_bind; [apply status_guard_shape|].
  intros [r|] Hr; [exact Hr|]. unfold count. through.
Qed.

Lemma keywords_from_shape names web avatar sid :
  yields dict_if_any (keywords_from reg names web avatar sid).
Proof.
  induction names as [|name names IH]; [exact I|].
  cbn [keywords_from]. destruct (registered reg name); [|exact IH].
  apply yields_then. intros x.
  eapply yields_bind; [apply status_is_shape|].
  intros [|] Hx; [exact (Hx eq_refl)|exact IH].
Qed.

Lemma keywords_shape web avatar sid :
  is_dictionary
    (snd (_execute_real_keywords_analysis_async reg web avatar sid)).
Proof.
  apply (try_except_shape is_dictionary); [|intros; exact eq_refl].
  eapply yields_bind; [apply keywords_from_shape|].
  intros [r|] Hr; [exact Hr|]. unfold count, has. through.
Qed.

Lemma sales_funnel_shape drivers avatar sid :
  is_dictionary
    (snd (_execute_real_sales_funnel_async reg drivers avatar sid)).
Proof.
  apply (try_except_shape is_dictionary); [|intros; exact eq_refl].
  eapply yields_bind; [apply status_guard_shape|].
  intros [r|] Hr; [exact Hr|]. unfold count, has. through.
Qed.

Lemma final_report_shape collected sid :
  is_dictionary (snd (_generate_final_report_async now_iso reg collected sid)).
Proof.
  apply (try_except_shape is_dictionary); [|intros; exact eq_refl].
  unfold final_report_body.
  apply (yields_bind dict_if_any).
  - destruct (registered reg "enhanced_report"); [|exact I].
    apply yields_then. intros report.
    destruct (Py.truthy report && Py.is_dict report) eqn:Hgood; [|exact I].
    apply andb_true_iff in Hgood. destruct Hgood as [_ Hdict].
    apply yields_then. intros st.
    destruct (Py.eq_str st "method_not_found"
              || Py.eq_str st "critical_error"); [exact I|exact Hdict].
  - intros [r|] Hr; [exact Hr|].
    repeat (apply yields_then; intros ?). exact eq_refl.
Qed.

(** X20.  Whatever the services return or raise, and whatever the stages
    are given, eleven of the twelve stages and the consolidation step hand
    on a dictionary; the mental-drivers stage, which passes a truthy
    answer of its service on without looking at it, hands on a truthy
    value. *)
Theorem stages_hand_on_dictionaries a b c sid collected :
  is_dictionary (snd (_execute_real_web_search_async py_str reg a sid)) /\
  is_dictionary
    (snd (_execute_real_social_analysis_async py_str reg a sid)) /\
  is_dictionary
    (snd (_execute_real_avatar_analysis_async py_str reg a b c sid)) /\
  is_truthy (snd (_execute_real_mental_drivers_async reg a b c sid)) /\
  is_dictionary
    (snd (_execute_real_visual_proofs_async py_str reg a b sid)) /\
  is_dictionary
    (snd (_execute_real_anti_objection_async py_str reg a b c sid)) /\
  is_dictionary (snd (_execute_real_pre_pitch_async py_str reg a b c sid)) /\
  is_dictionary
    (snd (_execute_real_future_predictions_async reg a b sid)) /\
  is_dictionary
    (snd (_execute_real_competition_analysis_async py_str reg a b sid)) /\
  is_dictionary
    (snd (_execute_real_insights_extraction_async reg a b sid)) /\
  is_dictionary
    (snd (_execute_real_keywords_analysis_async reg a b sid)) /\
  is_dictionary (snd (_execute_real_sales_funnel_async reg a b sid)) /\
  is_dictionary
    (snd (_generate_final_report_async now_iso reg collected sid)).
Proof.
  split; [apply web_search_shape|].
  split; [apply social_analysis_shape|].
  split; [apply avatar_shape|].
  split; [apply drivers_truthy|].
  split; [apply visual_proofs_shape|].
  split; [apply anti_objection_shape|].
  split; [apply pre_pitch_shape|].
  split; [apply predictions_shape|].
  split; [apply competition_shape|].
  split; [apply insights_shape|].
  split; [apply keywords_shape|].
  split; [apply sales_funnel_shape|].
  apply final_report_shape.
Qed.

End ShapeFacts.

(** * The services behind the router *)

Section InterfaceFacts.
Import Orchestrator Interfaces.
Variable py_str : PyVal -> string.
Variable reg : Registry.
Variable body : string -> Method.

Local Abbreviation table svc :=
  (match service_methods reg !! svc with Some t => t | None => [] end).

Lemma cw_ret {A} P (a : A) : calls_within P (ret a).
Proof. constructor. Qed.

Lemma cw_lift {A} P (e : Exc A) : calls_within P (lift e).
Proof. constructor. Qed.

Lemma cw_bind {A B} P (m : Comp A) (k : A -> Comp B) :
  calls_within P m -> (forall a, calls_within P (k a)) ->
  calls_within P (bind m k).
Proof.
  unfold calls_within, bind. destruct m as [calls [a|e]]; simpl;
    intros Hm Hk; [|exact Hm].
  specialize (Hk a). destruct (k a) as [calls' r]. simpl in *.
  apply List.Forall_app. split; assumption.
Qed.

Lemma cw_try_except P body0 handler :
  calls_within P body0 -> Forall P (fst (try_except body0 handler)).
Proof.
  unfold calls_within, try_except. destruct body0 as [c [v|e]]; auto.
Qed.

Lemma nothing_within {A} (l : list A) : Forall (fun _ => False) l -> l = [].
Proof. destruct 1; [reflexivity|contradiction]. Qed.

Lemma route_calls svc pats args kw :
  fst (route reg svc pats args kw) =
  if registered reg svc then
    List.map (pair svc)
      (upto_first (answer (table svc) args kw)
                  (List.filter (in_table (table svc)) pats))
  else [].
Proof.
  unfold route, _safe_call_service_method, registered.
  destruct (bool_decide (svc ∈ services reg)); [|reflexivity].
  rewrite try_patterns_reading.
  destruct (first_answer _ pats); reflexivity.
Qed.

Lemma route_own svc pats args kw :
  calls_within (fun call => fst call = svc) (route reg svc pats args kw).
Proof.
  unfold calls_within. rewrite route_calls.
  destruct (registered reg svc); [|constructor].
  apply List.Forall_forall. intros c Hc. apply in_map_iff in Hc.
  destruct Hc as (p & <- & _). reflexivity.
Qed.

Lemma route_unreachable P svc pats args kw :
  List.filter (in_table (table svc)) pats = [] ->
  calls_within P (route reg svc pats args kw).
Proof.
  intros H. unfold calls_within. rewrite route_calls, H.
  destruct (registered reg svc); constructor.
Qed.

Ltac within :=
  repeat first
    [ apply cw_ret
    | apply cw_lift
    | apply cw_bind; [|intros ?]
    | match goal with
      | |- calls_within _ (if ?c then _ else _) => destruct c
      | |- calls_within _ (match ?o with Some _ => _ | None => _ end) =>
          destruct o
      end ].

(** X21.  With the [AIManager] instance registered as [ai_manager], no
    pattern of the avatar, competition, keyword or sales-funnel stage
    names one of its public methods: these stages never call it, the
    first, second and fourth making no service call at all and the keyword
    stage calling the content extractor only. *)
Theorem ai_manager_is_never_reached web social project drivers avatar sid
  (Hai : service_methods reg !! "ai_manager"
         = Some (table_of (ai_manager body))) :
  fst (_execute_real_avatar_analysis_async py_str reg web social project
                                           sid) = [] /\
  fst (_execute_real_competition_analysis_async py_str reg web project sid)
  = [] /\
  fst (_execute_real_sales_funnel_async reg drivers avatar sid) = [] /\
  Forall (fun call => fst call = "content_extractor")
         (fst (_execute_real_keywords_analysis_async reg web avatar sid)).
Proof.
  split; [|split; [|split]].
  - apply nothing_within, cw_try_except.
    unfold status_is, count. within.
    apply route_unreachable. rewrite Hai. reflexivity.
  - apply nothing_within, cw_try_except.
    unfold status_is, count. within.
    apply route_unreachable. rewrite Hai. reflexivity.
  - apply nothing_within, cw_try_except.
    unfold status_is, count, has. within.
    apply route_unreachable. rewrite Hai. reflexivity.
  - apply cw_try_except. cbn [keywords_from].
    unfold status_is, count, has. within.
    all: first [ apply route_unreachable; rewrite Hai; reflexivity
               | apply route_own ].
Qed.

Lemma bind_calls {A B} (m : Comp A) (k : A -> Comp B) calls a :
  m = (calls, Ok a) -> fst (bind m k) = calls ++ fst (k a).
Proof. intros ->. unfold bind. destruct (k a). reflexivity. Qed.

Lemma bind_value {A B} (m : Comp A) (k : A -> Comp B) calls a :
  m = (calls, Ok a) -> snd (bind m k) = snd (k a).
Proof. intros ->. unfold bind. destruct (k a). reflexivity. Qed.

Lemma lift_calls {A B} (a : A) (k : A -> Comp B) :
  fst (bind (lift (Ok a)) k) = fst (k a).
Proof. apply (bind_calls _ _ [] a). reflexivity. Qed.

Lemma lift_value {A B} (a : A) (k : A -> Comp B) :
  snd (bind (lift (Ok a)) k) = snd (k a).
Proof. apply (bind_value _ _ [] a). reflexivity. Qed.

Lemma try_except_calls body0 handler :
  fst (try_except body0 handler) = fst body0.
Proof. unfold try_except. destruct body0 as [c [v|e]]; reflexivity. Qed.

Lemma try_except_value body0 handler v :
  snd body0 = Ok v -> snd (try_except body0 handler) = v.
Proof.
  unfold try_except. destruct body0 as [c [w|e]]; simpl; congruence.
Qed.

(** X22.  With the [AntiObjectionSystem] instance registered as
    [anti_objection] and a request object as project data, the
    anti-objection stage calls exactly one method of it, once:
    [generate_anti_objection_system], the only public method named by one
    of the stage's seven patterns, on the dictionary holding the avatar,
    the product and the drivers; and what that method returns is handed on
    as it is whenever it is a non-empty dictionary whose status is not
    [method_not_found]. *)
Theorem anti_objection_stage_reaches_one_method drivers avatar d sid
  (Hreg : "anti_objection" ∈ services reg)
  (Htable : service_methods reg !! "anti_objection"
            = Some (table_of (anti_objection body))) :
  let request :=
    VDict [("avatar", avatar);
           ("produto",
            match assoc_get "produto" d with
            | Some x => x
            | None => VStr ""
            end);
           ("drivers", drivers)] in
  let stage :=
    _execute_real_anti_objection_async py_str reg drivers avatar (VDict d)
                                       sid in
  fst stage = [("anti_objection", "generate_anti_objection_system")] /\
  (forall v,
     body "generate_anti_objection_system" [request] [] = Ok v ->
     Py.truthy v = true -> Py.is_dict v = true ->
     Py.get v "status" VNone <> Ok (VStr "method_not_found") ->
     snd stage = v).
Proof.
  intros request stage. subst stage.
  unfold _execute_real_anti_objection_async.
  assert (Hr : registered reg "anti_objection" = true)
    by (apply bool_decide_eq_true_2; exact Hreg).
  rewrite Hr. cbn [negb Py.get]. fold request.
  set (pats := ["create_anti_objection_system"; "create_system";
                "generate_system"; "build_system"; "create_anti_objection";
                "generate_anti_objection_system"; "process_objections"]).
  set (t := table_of (anti_objection body)).
  set (res := match body "generate_anti_objection_system" [request] [] with
              | Ok v => if Py.truthy v then v
                        else method_not_found "anti_objection" t pats
              | Raise _ => method_not_found "anti_objection" t pats
              end).
  assert (Hroute : route reg "anti_objection" pats [request] []
                   = ([("anti_objection", "generate_anti_objection_system")],
                      Ok res)).
  { unfold route, _safe_call_service_method.
    rewrite bool_decide_eq_true_2 by exact Hreg.
    match goal with
    | |- context [try_patterns ?tt _ _ _ _] =>
        assert (Ht : tt = t)
          by exact (f_equal (fun o => match o with
                                      | Some x => x
                                      | None => []
                                      end) Htable);
        rewrite Ht
    end.
    subst res. unfold pats at 1, t at 1.
    cbn [try_patterns table_of anti_objection flat_map public_method
         fst snd String.prefix app assoc_get].
    cbn.
    destruct (body "generate_anti_objection_system" [request] [])
      as [v|e]; [destruct (Py.truthy v)|]; reflexivity. }
  split.
  - unfold try_except.
    match goal with
    | |- fst (let '(calls, r) := ?m in _) = _ =>
        assert (Hc : fst m = [("anti_objection",
                               "generate_anti_objection_system")]);
        [|destruct m as [calls [v|e]]; exact Hc]
    end.
    rewrite lift_calls, (bind_calls _ _ _ _ Hroute).
    match goal with
    | |- _ ++ ?l = _ => assert (Hl : l = []); [|rewrite Hl; reflexivity]
    end.
    apply nothing_within. unfold found. within.
  - intros v Hv Htruthy Hdict Hstatus.
    assert (Hres : res = v) by (subst res; rewrite Hv, Htruthy; reflexivity).
    assert (Hfound : found v = ([], Ok true)).
    { unfold found. rewrite Htruthy.
      destruct v as [| | | | | |dv]; try discriminate Hdict.
      cbn [Py.get lift bind ret app].
      destruct (Py.eq_str _ "method_not_found") eqn:Heq; [|reflexivity].
      exfalso. apply Hstatus. cbn [Py.get]. f_equal.
      apply eq_str_true. exact Heq. }
    unfold try_except.
    match goal with
    | |- snd (let '(calls, r) := ?m in _) = _ =>
        assert (Hs : snd m = Ok v);
        [|destruct m as [calls [w|e]]; simpl in *; congruence]
    end.
    rewrite lift_value, (bind_value _ _ _ _ Hroute). rewrite Hres.
    rewrite (bind_value _ _ _ _ Hfound). reflexivity.
Qed.

(** X23.  The mental-drivers stage hands on whatever truthy value its
    service answers, dictionary or not; given a value that is not a
    dictionary, the sales-funnel stage, when no [ai_manager] is
    registered, ends with status [error] and the text of the attribute
    error raised by [.get]. *)
Theorem unchecked_drivers_answer_breaks_funnel avatar web d sid v calls
  (Hreg : "mental_drivers" ∈ services reg)
  (Hanswer :
     _safe_call_service_method reg "mental_drivers"
       ["create_complete_mental_drivers_system";
        "create_mental_drivers_system"; "create_drivers_system";
        "create_mental_drivers"; "build_drivers"; "generate_drivers"]
       []
       [("avatar_data", avatar);
        ("context_data",
         VDict [("segmento",
                 match assoc_get "segmento" d with
                 | Some x => x
                 | None => VNone
                 end);
                ("produto",
                 match assoc_get "produto" d with
                 | Some x => x
                 | None => VNone
                 end);
                ("session_id", VStr sid)])]
     = (v, calls))
  (Htruthy : Py.truthy v = true)
  (Hshape : Py.is_dict v = false)
  (Hai : "ai_manager" ∉ services reg) :
  _execute_real_mental_drivers_async reg avatar web (VDict d) sid
  = (calls, v) /\
  _execute_real_sales_funnel_async reg v avatar sid
  = ([], VDict [("status", VStr "error");
                ("error", VStr (Py.no_attribute v "get"))]).
Proof.
  split.
  - match type of Hanswer with
    | _safe_call_service_method _ ?svc ?pats ?args ?kw = _ =>
        assert (Hroute : route reg svc pats args kw = (calls, Ok v))
          by (unfold route; rewrite Hanswer; reflexivity)
    end.
    unfold _execute_real_mental_drivers_async, registered.
    rewrite bool_decide_eq_true_2 by exact Hreg.
    cbn [negb Py.get]. apply injective_projections; cbn [fst snd].
    + rewrite try_except_calls, !lift_calls, (bind_calls _ _ _ _ Hroute).
      apply app_nil_r.
    + apply try_except_value.
      rewrite !lift_value, (bind_value _ _ _ _ Hroute).
      unfold Py.or_else. rewrite Htruthy. reflexivity.
  - unfold _execute_real_sales_funnel_async, registered.
    rewrite bool_decide_eq_false_2 by exact Hai.
    unfold count. destruct v; try discriminate Hshape; reflexivity.
Qed.

End InterfaceFacts.

(** X21 on a deployment in which every method of the AI manager would
    answer with a successful dictionary. *)
Lemma ai_manager_is_never_reached_witness :
  Orchestrator.service_methods Interfaces.both_services !! "ai_manager"
  = Some (Interfaces.table_of (Interfaces.ai_manager Interfaces.agreeable)) /\
  fst (Orchestrator._execute_real_avatar_analysis_async
         Scenario.show Interfaces.both_services (VDict []) (VDict [])
         Scenario.request "s1") = [].
Proof.
  assert (Hai : Orchestrator.service_methods Interfaces.both_services
                !! "ai_manager"
                = Some (Interfaces.table_of
                          (Interfaces.ai_manager Interfaces.agreeable)))
    by (vm_compute; reflexivity).
  split; [exact Hai|].
  exact (proj1 (ai_manager_is_never_reached
                  Scenario.show Interfaces.both_services Interfaces.agreeable
                  (VDict []) (VDict []) Scenario.request (VDict []) (VDict [])
                  "s1" Hai)).
Defined.

(** X22 on the same deployment. *)
Lemma anti_objection_stage_reaches_one_method_witness :
  "anti_objection" ∈ Orchestrator.services Interfaces.both_services /\
  Orchestrator._execute_real_anti_objection_async
    Scenario.show Interfaces.both_services (VDict []) (VDict [])
    (VDict [("produto", VStr "coaching app")]) "s1"
  = ([("anti_objection", "generate_anti_objection_system")],
     VDict [("status", VStr "success")]).
Proof.
  assert (Hreg : "anti_objection"
                 ∈ Orchestrator.services Interfaces.both_services).
  { unfold Interfaces.both_services, Interfaces.register,
      Interfaces._map_service_methods.
    cbn [Orchestrator.services].
    apply elem_of_union_l, elem_of_singleton_2. reflexivity. }
  split; [exact Hreg|].
  destruct (anti_objection_stage_reaches_one_method
              Scenario.show Interfaces.both_services Interfaces.agreeable
              (VDict []) (VDict []) [("produto", VStr "coaching app")] "s1"
              Hreg ltac:(vm_compute; reflexivity)) as [Hcalls Hvalue].
  specialize (Hvalue (VDict [("status", VStr "success")]) eq_refl eq_refl
                     eq_refl ltac:(discriminate)).
  destruct (Orchestrator._execute_real_anti_objection_async _ _ _ _ _ _)
    as [calls v].
  simpl in Hcalls, Hvalue. subst. reflexivity.
Defined.

(** X23 on a deployment whose mental-drivers service answers with a
    text. *)
Lemma unchecked_drivers_answer_breaks_funnel_witness :
  "mental_drivers" ∈ Orchestrator.services Interfaces.text_drivers /\
  Orchestrator._execute_real_mental_drivers_async
    Interfaces.text_drivers (VDict []) (VDict []) Scenario.request "s1"
  = ([("mental_drivers", "generate_drivers")], VStr "cinco drivers") /\
  Orchestrator._execute_real_sales_funnel_async
    Interfaces.text_drivers (VStr "cinco drivers") (VDict []) "s1"
  = ([], VDict [("status", VStr "error");
                ("error", VStr "'str' object has no attribute 'get'")]).
Proof.
  assert (Hreg : "mental_drivers"
                 ∈ Orchestrator.services Interfaces.text_drivers).
  { unfold Interfaces.text_drivers, Interfaces.register,
      Interfaces._map_service_methods.
    cbn [Orchestrator.services].
    apply elem_of_union_l, elem_of_singleton_2. reflexivity. }
  split; [exact Hreg|].
  refine (unchecked_drivers_answer_breaks_funnel
            Interfaces.text_drivers (VDict []) (VDict [])
            [("segmento", VStr "fitness"); ("produto", VStr "coaching app");
             ("session_id", VStr "s1")]
            "s1" (VStr "cinco drivers")
            [("mental_drivers", "generate_drivers")] Hreg _ eq_refl eq_refl _).
  - vm_compute. reflexivity.
  - unfold Interfaces.text_drivers, Interfaces.register,
      Interfaces._map_service_methods.
    cbn [Orchestrator.services]. intros H.
    apply elem_of_union in H. destruct H as [H|H].
    + apply elem_of_singleton_1 in H. discriminate H.
    + apply elem_of_empty in H. exact H.
Defined.
